(** * press-release-analyzer: the extraction pipeline

    A shallow embedding of [src/lib/prExtractor.ts] (class [PRExtractor]) and
    [src/lib/apolloService.ts] (class [ApolloService]).

    Asynchronous methods become computations in a small monad that threads the
    state of the outside world, may end in a thrown exception, and records the
    external calls it issues, in order.  [await] is sequencing: the awaiting
    function does not proceed before the awaited promise has settled.

    Every awaited call is taken to settle: a promise that stays pending for
    ever is not modelled.

    What the program does not define itself (the network, the generation
    service, the people directory, [JSON.parse], [cheerio], the [URL]
    constructor, [decodeURIComponent], [process.env]) is a field of [Env];
    every theorem quantifies over it.

    Strings are byte strings: [length] counts bytes, [toLowerCase] and the
    whitespace class [\s] act on ASCII. *)

From Stdlib Require Import String Ascii List ZArith QArith Bool Lia.
From Stdlib Require Import DecimalString.
Import ListNotations.

Local Open Scope string_scope.
Local Open Scope Z_scope.

(* ================================================================== *)
(** ** JavaScript strings *)

Module Js.

Definition nl : string := String (ascii_of_nat 10) "".
Definition dq : string := String (ascii_of_nat 34) "".

(** ["..."] inside a JavaScript literal. *)
Definition quoted (s : string) : string := dq ++ s ++ dq.

(** [s.includes(t)] *)
Fixpoint includes (s t : string) : bool :=
  if String.prefix t s then true
  else match s with
       | EmptyString => false
       | String _ s' => includes s' t
       end.

(** One character of [s.toLowerCase()]. *)
Definition lowerChar (c : ascii) : ascii :=
  let n := nat_of_ascii c in
  if ((65 <=? n) && (n <=? 90))%nat then ascii_of_nat (n + 32) else c.

Fixpoint toLowerCase (s : string) : string :=
  match s with
  | EmptyString => EmptyString
  | String c s' => String (lowerChar c) (toLowerCase s')
  end.

(** [s.split(sep)] for a one-character separator: never the empty list. *)
Fixpoint split (sep : ascii) (s : string) : list string :=
  match s with
  | EmptyString => [EmptyString]
  | String c s' =>
      if Ascii.eqb c sep then EmptyString :: split sep s'
      else match split sep s' with
           | [] => [String c EmptyString]
           | p :: ps => String c p :: ps
           end
  end.

(** [s.replace(/[...]/g, to)] for a class of single characters. *)
Fixpoint replaceChars (cls : ascii -> bool) (to : ascii) (s : string) : string :=
  match s with
  | EmptyString => EmptyString
  | String c s' => String (if cls c then to else c) (replaceChars cls to s')
  end.

Definition isHyphen (c : ascii) : bool := Ascii.eqb c "-"%char.
Definition isHyphenOrUnderscore (c : ascii) : bool :=
  Ascii.eqb c "-"%char || Ascii.eqb c "_"%char.

(** [s.replace(/\%24/g, '$')] *)
Fixpoint replacePercent24 (s : string) : string :=
  match s with
  | String "%" (String "2" (String "4" rest)) => String "$" (replacePercent24 rest)
  | String c s' => String c (replacePercent24 s')
  | EmptyString => EmptyString
  end.

(** The class [\s]. *)
Definition isSpace (c : ascii) : bool :=
  let n := nat_of_ascii c in
  ((n =? 32) || ((9 <=? n) && (n <=? 13)))%nat.

(** [s.replace(/\s+/g, ' ')]: [inRun] says that the previous character was
    white space, already replaced. *)
Fixpoint collapseFrom (inRun : bool) (s : string) : string :=
  match s with
  | EmptyString => EmptyString
  | String c s' =>
      if isSpace c
      then if inRun then collapseFrom true s' else String " " (collapseFrom true s')
      else String c (collapseFrom false s')
  end.

Definition collapseSpaces (s : string) : string := collapseFrom false s.

Fixpoint trimStart (s : string) : string :=
  match s with
  | EmptyString => EmptyString
  | String c s' => if isSpace c then trimStart s' else s
  end.

Fixpoint trimEnd (s : string) : string :=
  match s with
  | EmptyString => EmptyString
  | String c s' =>
      match trimEnd s' with
      | EmptyString => if isSpace c then EmptyString else String c EmptyString
      | t => String c t
      end
  end.

(** [s.trim()] *)
Definition trim (s : string) : string := trimEnd (trimStart s).

(** [String(n)] for an integer. *)
Definition ofZ (z : Z) : string := NilZero.string_of_int (Z.to_int z).

(** [s || ''] and the like: the empty string is falsy. *)
Definition nonEmpty (s : string) : bool :=
  match s with EmptyString => false | _ => true end.

Definition orElse (s d : string) : string := if nonEmpty s then s else d.

(** A property that may be missing, read as [x || d]. *)
Definition optOr (o : option string) (d : string) : string :=
  match o with
  | Some s => orElse s d
  | None => d
  end.

End Js.

(* ================================================================== *)
(** ** JavaScript values, as [JSON.parse] produces them *)

(** A number: the generation service is free to answer [85], [85.5] or
    [1e999]. *)
Inductive number : Type :=
| NaN
| Infinity (negative : bool)
| Fin (q : Q).

#[local] Set Warnings "-register-all".

Inductive value : Type :=
| JUndefined
| JNull
| JBool (b : bool)
| JNum (n : number)
| JStr (s : string)
| JArr (items : list value)
| JObj (fields : list (string * value)).

(** What can be thrown. [AxiosError] is the only class the code tells from
    the others ([axios.isAxiosError]); [NotAnError] is a thrown value that
    is not [instanceof Error]. *)
Inductive exn : Type :=
| Error (message : string)
| AxiosError (code : option string) (status : option Z) (message : string)
| NotAnError.

(** [error instanceof Error ? error.message : 'Unknown error'] *)
Definition errorMessage (e : exn) : string :=
  match e with
  | Error m => m
  | AxiosError _ _ m => m
  | NotAnError => "Unknown error"
  end.

Inductive outcome (A : Type) : Type :=
| Ok (a : A)
| Throw (e : exn).
Arguments Ok {A} a.
Arguments Throw {A} e.

(** A step that may throw, followed by the rest. *)
Definition andThen {A B : Type} (o : outcome A) (k : A -> outcome B) : outcome B :=
  match o with
  | Ok a => k a
  | Throw e => Throw e
  end.

Notation "x <-? o ; k" := (andThen o (fun x => k))
  (at level 61, o at next level, right associativity).

Module JsValue.

(** ToBoolean *)
Definition numberTruthy (n : number) : bool :=
  match n with
  | NaN => false
  | Infinity _ => true
  | Fin q => negb (Qeq_bool q 0)
  end.

Definition truthy (v : value) : bool :=
  match v with
  | JUndefined | JNull => false
  | JBool b => b
  | JNum n => numberTruthy n
  | JStr s => Js.nonEmpty s
  | JArr _ | JObj _ => true
  end.

(** [v || d] *)
Definition orElse (v d : value) : value := if truthy v then v else d.

(** [v === 'text'] *)
Definition isString (v : value) (s : string) : bool :=
  match v with
  | JStr t => String.eqb t s
  | _ => false
  end.

(** The property table of an object. *)
Fixpoint lookup (k : string) (fields : list (string * value)) : option value :=
  match fields with
  | [] => None
  | (k', v) :: rest => if String.eqb k k' then Some v else lookup k rest
  end.

(** [v.k]: a TypeError on [null] and [undefined], [undefined] where the
    property is missing. None of the names read by the program is a property
    of a string, a number, a boolean or an array. *)
Definition getProp (v : value) (k : string) : outcome value :=
  match v with
  | JUndefined =>
      Throw (Error ("Cannot read properties of undefined (reading '" ++ k ++ "')"))
  | JNull =>
      Throw (Error ("Cannot read properties of null (reading '" ++ k ++ "')"))
  | JObj fields =>
      Ok (match lookup k fields with Some x => x | None => JUndefined end)
  | _ => Ok JUndefined
  end.

(** [Array.isArray(v) ? v : []] *)
Definition arrayOrEmpty (v : value) : list value :=
  match v with
  | JArr items => items
  | _ => []
  end.

(** [Number(v)]. [textToNumber] stands for the conversion of a string, and
    of an array or object through its string form. *)
Definition toNumber (textToNumber : value -> number) (v : value) : number :=
  match v with
  | JUndefined => NaN
  | JNull => Fin 0
  | JBool b => if b then Fin 1 else Fin 0
  | JNum n => n
  | JStr _ | JArr _ | JObj _ => textToNumber v
  end.

(** [n || 0] *)
Definition numberOrZero (n : number) : number :=
  if numberTruthy n then n else Fin 0.

End JsValue.

(* ================================================================== *)
(** ** The outside world and the computations over it *)

(** The two roles [ApolloService] looks up: the type ['CEO' | 'CMO']. *)
Inductive Role : Type := CEO | CMO.

(** The external calls of a run, in the order they are issued. [EvAttempt]
    is the line logged at the entry of [performExtraction]; the other log
    lines are left out. *)
Inductive Event : Type :=
| EvAttempt (url : string)
| EvHttpGet (url : string)
| EvGenerate
| EvSearch (company : value) (titles : list string)
| EvEnrich (firstName lastName : string) (company : value)
| EvDelay (ms : Z).

(** What the network answers to a GET, before axios decides whether the
    promise is fulfilled. *)
Inductive HttpAnswer : Type :=
| Response (status : Z) (data : string)
| NoResponse (code : option string) (message : string).

(** A block of [response.content] of the generation service. *)
Inductive ContentBlock : Type :=
| TextBlock (text : string)
| OtherBlock.

(** A person of the people directory: what the program reads of it. [None] is
    a missing or [null] property. *)
Record ApolloPerson : Type := mkPerson {
  first_name : option string;
  last_name : option string;
  person_title : option string;
  person_email : option string
}.

(** What [cheerio] gives for a page, after the unwanted elements are removed:
    the trimmed text of the first match of a selector, the trimmed text of
    [body], of [title], of the first [h1], and the description. *)
Record Page : Type := mkPage {
  selectText : string -> string;
  bodyText : string;
  titleText : string;
  h1Text : string;
  metaDescription : option string
}.

Record Env (W : Type) : Type := mkEnv {
  (** the network *)
  http_get : string -> W -> HttpAnswer * W;
  (** [anthropic.messages.create]: the content blocks, or a rejection *)
  messages_create : string -> W -> outcome (list ContentBlock) * W;
  (** POST [/mixed_people/search]: [response.data.people], the empty list
      when [data] or [people] is missing *)
  apollo_search : string -> value -> list string -> W
                  -> outcome (list ApolloPerson) * W;
  (** POST [/people/match]: [response.data.person] *)
  apollo_match : string -> string -> string -> value -> W
                 -> outcome (option ApolloPerson) * W;
  (** what three seconds of waiting do to the world *)
  sleep : Z -> W -> W;
  (** [process.env.APOLLO_API_KEY] *)
  APOLLO_API_KEY : option string;
  (** [JSON.parse]: the value, or the message of the SyntaxError *)
  JSON_parse : string -> value + string;
  (** [Number] on strings, arrays and objects *)
  textToNumber : value -> number;
  (** [cheerio.load] and the queries made on the result *)
  cheerio_load : string -> Page;
  (** [new URL(url).pathname], [None] when the constructor throws *)
  URL_pathname : string -> option string;
  (** [decodeURIComponent], [None] when it throws URIError *)
  decodeURIComponent : string -> option string
}.

Arguments http_get {W} _ _ _.
Arguments messages_create {W} _ _ _.
Arguments apollo_search {W} _ _ _ _ _.
Arguments apollo_match {W} _ _ _ _ _ _.
Arguments sleep {W} _ _ _.
Arguments APOLLO_API_KEY {W} _.
Arguments JSON_parse {W} _ _.
Arguments textToNumber {W} _ _.
Arguments cheerio_load {W} _ _.
Arguments URL_pathname {W} _ _.
Arguments decodeURIComponent {W} _ _.

(** The result of running a computation: how it ended, the world it left,
    the calls it issued. *)
Record Run (W A : Type) : Type := mkRun {
  out : outcome A;
  world : W;
  events : list Event
}.
Arguments mkRun {W A} _ _ _.
Arguments out {W A} _.
Arguments world {W A} _.
Arguments events {W A} _.

Definition M (W A : Type) : Type := W -> Run W A.

Module Monad.
Section Ops.
Context {W : Type}.

Definition ret {A} (a : A) : M W A := fun w => mkRun (Ok a) w [].

Definition throw {A} (e : exn) : M W A := fun w => mkRun (Throw e) w [].

(** The outcome of a pure step that may throw. *)
Definition lift {A} (o : outcome A) : M W A := fun w => mkRun o w [].

Definition bind {A B} (m : M W A) (k : A -> M W B) : M W B :=
  fun w =>
    let r := m w in
    match out r with
    | Ok a =>
        let r' := k a (world r) in
        mkRun (out r') (world r') (events r ++ events r')
    | Throw e => mkRun (Throw e) (world r) (events r)
    end.

(** [try { m } catch (error) { h error }] *)
Definition tryCatch {A} (m : M W A) (h : exn -> M W A) : M W A :=
  fun w =>
    let r := m w in
    match out r with
    | Ok a => r
    | Throw e =>
        let r' := h e (world r) in
        mkRun (out r') (world r') (events r ++ events r')
    end.

(** An awaited call to the outside: the event, then the answer. *)
Definition call {A} (ev : Event) (f : W -> outcome A * W) : M W A :=
  fun w => let '(o, w') := f w in mkRun o w' [ev].

End Ops.
End Monad.

Declare Scope js_scope.
Delimit Scope js_scope with js.
Notation "x <- m ;; k" := (Monad.bind m (fun x => k))
  (at level 61, m at next level, right associativity) : js_scope.
Notation "m ;;; k" := (Monad.bind m (fun _ => k))
  (at level 61, right associativity) : js_scope.
Local Open Scope js_scope.

(* ================================================================== *)
(** ** [src/lib/apolloService.ts] *)

Module ApolloService.

Record ApolloContact : Type := mkContact {
  email : string;
  firstName : string;
  lastName : string;
  title : string;
  confidence : Z
}.

Record SearchDetails : Type := mkDetails {
  companySearched : value;
  creditsUsed : Z;
  totalResultsFound : Z
}.

Record ApolloResult : Type := mkResult {
  ceoEmail : option string;
  cmoEmail : option string;
  ceoName : option string;
  cmoName : option string;
  searchDetails : SearchDetails
}.

(** The service object: the field [apiKey] set by the constructor. *)
Record Service : Type := mkService { apiKey : string }.

(** The synonyms searched for a role, in order. *)
Definition titleQueries (title : Role) : list string :=
  match title with
  | CEO => ["CEO"; "Chief Executive Officer"; "Founder"; "Co-Founder"]
  | CMO => ["CMO"; "Chief Marketing Officer"; "VP Marketing";
            "Vice President Marketing"; "Head of Marketing"]
  end.

(** The loop of [calculateTitleMatch] over the targets that are left. *)
Fixpoint titleMatchLoop (lowerTitle : string) (targetTitles : list string) : Z :=
  match targetTitles with
  | [] => 50
  | target :: rest =>
      if Js.includes lowerTitle (Js.toLowerCase target)
      then if String.eqb lowerTitle (Js.toLowerCase target) then 100 else 80
      else titleMatchLoop lowerTitle rest
  end.

Definition calculateTitleMatch (personTitle : string) (targetTitles : list string) : Z :=
  titleMatchLoop (Js.toLowerCase personTitle) targetTitles.

(** [Array.prototype.sort] with a comparator. The sort is stable, so its
    result is the one of inserting each element before the first element it
    does not have to follow. *)
Section Sort.
Context {A : Type} (cmp : A -> A -> Z).

Fixpoint insertSorted (x : A) (l : list A) : list A :=
  match l with
  | [] => [x]
  | y :: ys => if cmp x y <=? 0 then x :: y :: ys else y :: insertSorted x ys
  end.

Fixpoint sort (l : list A) : list A :=
  match l with
  | [] => []
  | x :: xs => insertSorted x (sort xs)
  end.

End Sort.

(** [(a, b) => b.confidence - a.confidence] *)
Definition byConfidenceDesc (a b : ApolloContact) : Z := confidence b - confidence a.

(** The callback of [people.map] in [searchPeopleByTitle]. *)
Definition toCandidate (queries : list string) (person : ApolloPerson) : ApolloContact :=
  {| email := "";
     firstName := Js.optOr (first_name person) "";
     lastName := Js.optOr (last_name person) "";
     title := Js.optOr (person_title person) "";
     confidence := calculateTitleMatch (Js.optOr (person_title person) "") queries |}.

Section Methods.
Context {W : Type} (E : Env W).

(** [new ApolloService()] *)
Definition new : outcome Service :=
  match APOLLO_API_KEY E with
  | Some key =>
      if Js.nonEmpty key then Ok (mkService key)
      else Throw (Error "APOLLO_API_KEY environment variable is required")
  | None => Throw (Error "APOLLO_API_KEY environment variable is required")
  end.

Definition searchPeopleByTitle (this : Service) (companyName : value) (title : Role)
  : M W (list ApolloContact) :=
  Monad.tryCatch
    (let queries := titleQueries title in
     people <- Monad.call (EvSearch companyName queries)
                          (apollo_search E (apiKey this) companyName queries) ;;
     match people with
     | [] => Monad.ret []
     | _ :: _ => Monad.ret (sort byConfidenceDesc (map (toCandidate queries) people))
     end)
    (fun _ => Monad.ret []).

Definition enrichPerson (this : Service) (first last : string) (companyName : value)
  : M W (option ApolloContact) :=
  Monad.tryCatch
    (person <- Monad.call (EvEnrich first last companyName)
                          (apollo_match E (apiKey this) first last companyName) ;;
     match person with
     | Some p =>
         match person_email p with
         | Some e =>
             if Js.nonEmpty e
             then Monad.ret (Some {| email := e;
                                     firstName := Js.optOr (first_name p) first;
                                     lastName := Js.optOr (last_name p) last;
                                     title := Js.optOr (person_title p) "";
                                     confidence := 90 |})
             else Monad.ret None
         | None => Monad.ret None
         end
     | None => Monad.ret None
     end)
    (fun _ => Monad.ret None).

Definition findExecutiveByTitle (this : Service) (companyName : value) (title : Role)
  : M W (option ApolloContact) :=
  Monad.tryCatch
    (searchResults <- searchPeopleByTitle this companyName title ;;
     match searchResults with
     | [] => Monad.ret None
     | topCandidate :: _ =>
         enrichPerson this (firstName topCandidate) (lastName topCandidate) companyName
     end)
    (fun _ => Monad.ret None).

Definition fullName (c : ApolloContact) : string :=
  Js.trim (firstName c ++ " " ++ lastName c).

Definition bump (d : SearchDetails) : SearchDetails :=
  {| companySearched := companySearched d;
     creditsUsed := creditsUsed d + 1;
     totalResultsFound := totalResultsFound d + 1 |}.

Definition withCeo (result : ApolloResult) (c : ApolloContact) : ApolloResult :=
  {| ceoEmail := Some (email c); cmoEmail := cmoEmail result;
     ceoName := Some (fullName c); cmoName := cmoName result;
     searchDetails := bump (searchDetails result) |}.

Definition withCmo (result : ApolloResult) (c : ApolloContact) : ApolloResult :=
  {| ceoEmail := ceoEmail result; cmoEmail := Some (email c);
     ceoName := ceoName result; cmoName := Some (fullName c);
     searchDetails := bump (searchDetails result) |}.

(** [result] is one object, updated in place inside one [try] whose [catch]
    returns it as it is then: each handler below returns the object as the
    updates before the failing step left it. *)
Definition findExecutiveContacts (this : Service) (companyName : value)
  : M W ApolloResult :=
  let result :=
    {| ceoEmail := None; cmoEmail := None; ceoName := None; cmoName := None;
       searchDetails := {| companySearched := companyName;
                           creditsUsed := 0; totalResultsFound := 0 |} |} in
  Monad.tryCatch
    (ceoResult <- findExecutiveByTitle this companyName CEO ;;
     let result1 := match ceoResult with
                    | Some c => withCeo result c
                    | None => result
                    end in
     Monad.tryCatch
       (cmoResult <- findExecutiveByTitle this companyName CMO ;;
        Monad.ret match cmoResult with
                  | Some c => withCmo result1 c
                  | None => result1
                  end)
       (fun _ => Monad.ret result1))
    (fun _ => Monad.ret result).

End Methods.
End ApolloService.

(* ================================================================== *)
(** ** [src/lib/types.ts] and [src/lib/prExtractor.ts] *)

(** [PRData]. The fields copied from the parsed answer of the generation
    service hold whatever value the answer had: nothing checks their type. *)
Record PRData : Type := mkPRData {
  companyName : value;
  ceoEmail : string;
  cmoEmail : string;
  leadInvestor : value;
  followOnInvestors : list value;
  amountRaised : value;
  classification : value;
  isScam : bool;
  confidence : number;
  extractionErrors : list string
}.

Module PRExtractor.

(** The return type of [extractWithClaude]. *)
Record Extracted : Type := mkExtracted {
  x_companyName : value;
  x_leadInvestor : value;
  x_followOnInvestors : list value;
  x_amountRaised : value;
  x_classification : value;
  x_isScam : bool;
  x_confidence : number
}.

(** [{ ceoEmail?: string; cmoEmail?: string }] *)
Record Contacts : Type := mkContacts {
  c_ceoEmail : option string;
  c_cmoEmail : option string
}.

Definition maxRetries : Z := 2.

Definition len (s : string) : Z := Z.of_nat (String.length s).

(** [validateStatus: (status) => status < 500] *)
Definition validateStatus (status : Z) : bool := status <? 500.

Definition contentSelectors : list string :=
  [ "article [data-module=" ++ Js.quoted "ArticleBody" ++ "]";
    ".ArticleBody-container";
    ".StandardArticleBody_container";
    "article .article-body";
    "article .content";
    "article .post-content";
    ".article-content";
    ".story-body";
    ".entry-content";
    "main article";
    "article";
    "main";
    ".main-content" ].

(** The [for] loop over the selectors, with its [break]. *)
Fixpoint firstLongText (page : Page) (selectors : list string) : string :=
  match selectors with
  | [] => ""
  | selector :: rest =>
      let content := selectText page selector in
      if Js.nonEmpty content && (200 <? len content) then content
      else firstLongText page rest
  end.

(** [error.code === s] and [error.response?.status === n] *)
Definition codeIs (code : option string) (s : string) : bool :=
  match code with
  | Some c => String.eqb c s
  | None => false
  end.

Definition statusIs (status : option Z) (n : Z) : bool :=
  match status with
  | Some k => k =? n
  | None => false
  end.

(** The [catch] block of [fetchPRContent]: always throws. *)
Definition fetchErrorOf (error : exn) : exn :=
  match error with
  | AxiosError code status message =>
      if codeIs code "ENOTFOUND"
      then Error "Website not found - check if URL is correct"
      else if codeIs code "ECONNREFUSED"
      then Error "Connection refused - website may be down"
      else if codeIs code "ETIMEDOUT"
      then Error "Request timed out - website is too slow to respond"
      else if statusIs status 403
      then Error "Access forbidden - website blocks automated access"
      else if statusIs status 404
      then Error "Article not found (404)"
      else if statusIs status 429
      then Error "Rate limited - too many requests"
      else Error ("Unable to access this link: " ++ message)
  | _ => Error ("Unable to access this link: " ++ errorMessage error)
  end.

(** What follows [const html = response.data] in the [try] block. *)
Definition contentOfHtml (page_of : string -> Page) (html : string) : outcome string :=
  if negb (Js.nonEmpty html) || (len html <? 100)
  then Throw (Error "Empty or invalid response received")
  else
    let page := page_of html in
    let mainContent := firstLongText page contentSelectors in
    let mainContent :=
      if negb (Js.nonEmpty mainContent) || (len mainContent <? 200)
      then bodyText page else mainContent in
    if negb (Js.nonEmpty mainContent) || (len mainContent <? 100)
    then Throw (Error "No meaningful content found on the page")
    else
      let title := Js.orElse (titleText page) (h1Text page) in
      let description := Js.optOr (metaDescription page) "" in
      let content := "Title: " ++ title ++ Js.nl ++ Js.nl
                     ++ "Description: " ++ description ++ Js.nl ++ Js.nl
                     ++ "Content: " ++ mainContent in
      Ok (Js.trim (Js.collapseSpaces content)).

(** The checks on [response.status]. *)
Definition checkStatus (status : Z) : outcome unit :=
  if (status =? 403) || (status =? 401)
  then Throw (Error "Access denied - site requires authentication or blocks bots")
  else if status =? 404
  then Throw (Error "Article not found (404)")
  else if 400 <=? status
  then Throw (Error ("HTTP " ++ Js.ofZ status ++ ": Unable to access article"))
  else Ok tt.

(** The synthetic content of the fallbacks. *)
Definition businessWireContent (cleanTitle : string) : string :=
  Js.nl ++ "Title: " ++ cleanTitle ++ Js.nl ++ Js.nl
  ++ "This is a Business Wire press release about: " ++ cleanTitle ++ Js.nl ++ Js.nl
  ++ "Based on the URL structure, this appears to be an announcement about:" ++ Js.nl
  ++ cleanTitle ++ Js.nl ++ Js.nl
  ++ "The URL suggests this is a significant business announcement that was published via Business Wire's platform."
  ++ Js.nl.

Definition prNewswireContent (cleanTitle : string) : string :=
  Js.nl ++ "Title: " ++ cleanTitle ++ Js.nl ++ Js.nl
  ++ "This is a PR Newswire press release about: " ++ cleanTitle ++ Js.nl ++ Js.nl
  ++ "Based on the URL, this appears to be a funding or business announcement."
  ++ Js.nl.

Definition genericContent (cleanTitle url : string) : string :=
  Js.nl ++ "Title: " ++ cleanTitle ++ Js.nl ++ Js.nl
  ++ "URL: " ++ url ++ Js.nl ++ Js.nl
  ++ "This appears to be a business or funding announcement based on the URL structure."
  ++ Js.nl
  ++ "The specific content could not be accessed due to access restrictions."
  ++ Js.nl.

(** [parts[parts.length - 1] || ''], which is also [parts.pop() || '']. *)
Definition lastOrEmpty (parts : list string) : string :=
  Js.orElse (last parts "") "".

(** [parts.find(p => ...) || ''] *)
Definition findOrEmpty (f : string -> bool) (parts : list string) : string :=
  match find f parts with
  | Some p => Js.orElse p ""
  | None => ""
  end.

Definition prNewswireKeyword (part : string) : bool :=
  Js.includes part "raises" || Js.includes part "announces"
  || Js.includes part "funding".

Definition extractFromPRNewswireUrl (url : string) : string :=
  let urlParts := Js.split "/" url in
  let titlePart := findOrEmpty prNewswireKeyword urlParts in
  let cleanTitle := Js.replaceChars Js.isHyphen " " titlePart in
  prNewswireContent cleanTitle.

(** The text of the prompt before the URL, between the URL and the content,
    and after the content. *)
Definition promptHead : string :=
  "You are an expert at extracting structured data from press releases about company funding announcements. "
  ++ Js.nl ++ Js.nl
  ++ "Please analyze the following press release content and URL, then extract the requested information."
  ++ Js.nl ++ Js.nl ++ "URL: ".

Definition promptMiddle : string := Js.nl ++ Js.nl ++ "CONTENT:" ++ Js.nl.

Definition promptSchema : list string :=
  [ "{";
    "  " ++ Js.quoted "companyName" ++ ": "
      ++ Js.quoted "The name of the company that raised funding (not the investor or parent company)" ++ ",";
    "  " ++ Js.quoted "leadInvestor" ++ ": "
      ++ Js.quoted "The lead investor or main investor mentioned (if any)" ++ ",";
    "  " ++ Js.quoted "followOnInvestors" ++ ": ["
      ++ Js.quoted "Array of follow-on or participating investors" ++ "],";
    "  " ++ Js.quoted "amountRaised" ++ ": "
      ++ Js.quoted "Funding amount in format like '$150M' or '$4.05B' (use M for millions, B for billions)" ++ ",";
    "  " ++ Js.quoted "classification" ++ ": "
      ++ Js.quoted "One of: Web3 Company, AI Company, AI SaaS Company, SaaS Company, Software Company, Fintech Company, Biotech Company, CleanTech Company, Investment Firm, Other" ++ ",";
    "  " ++ Js.quoted "isScam" ++ ": false,";
    "  " ++ Js.quoted "confidence" ++ ": 85";
    "}" ].

Definition promptGuidelines : list string :=
  [ "IMPORTANT GUIDELINES:";
    "1. For company name: Look for the actual company that received funding. Extract from URL if unclear in content (e.g., "
      ++ Js.quoted "tae-technologies-raises" ++ " → " ++ Js.quoted "TAE Technologies" ++ ")";
    "2. For funding amount: Look for patterns like " ++ Js.quoted "$150 million" ++ ", "
      ++ Js.quoted "$4.05 billion" ++ ", " ++ Js.quoted "150M"
      ++ ", etc. Convert to standard format.";
    "3. For investors: Distinguish between lead investors (who led the round) and follow-on/participating investors";
    "4. For classification: Choose the most specific category that fits";
    "5. If information is clearly not found, use: " ++ Js.quoted "NOT FOUND"
      ++ " for strings, [] for arrays";
    "6. Confidence should be 0-100 based on how clear and complete the information is";
    "7. Set isScam to true only for obviously fraudulent/suspicious announcements";
    "";
    "Respond with ONLY the JSON object, no additional text." ].

Definition promptTail : string :=
  Js.nl ++ Js.nl
  ++ "Please extract the following information and respond ONLY with a valid JSON object in this exact format:"
  ++ Js.nl ++ Js.nl
  ++ String.concat Js.nl promptSchema ++ Js.nl ++ Js.nl
  ++ String.concat Js.nl promptGuidelines.

Definition buildPrompt (content url : string) : string :=
  promptHead ++ url ++ promptMiddle
  ++ String.substring 0 (Z.to_nat 8000) content ++ " "
  ++ (if 8000 <? len content then "...(truncated)" else "")
  ++ promptTail.

(** The record returned in case of terminal failure. *)
Definition failureRecord (lastError : string) : PRData :=
  {| companyName := JStr "EXTRACTION FAILED";
     ceoEmail := "EMAIL NOT FOUND";
     cmoEmail := "EMAIL NOT FOUND";
     leadInvestor := JStr "EXTRACTION FAILED";
     followOnInvestors := [];
     amountRaised := JStr "EXTRACTION FAILED";
     classification := JStr "UNKNOWN";
     isScam := false;
     confidence := Fin 0;
     extractionErrors := [lastError] |}.

(** The object literal at the end of [performExtraction]. *)
Definition assemble (extractedData : Extracted) (executiveContacts : Contacts) : PRData :=
  {| companyName := x_companyName extractedData;
     ceoEmail := Js.optOr (c_ceoEmail executiveContacts) "EMAIL NOT FOUND";
     cmoEmail := Js.optOr (c_cmoEmail executiveContacts) "EMAIL NOT FOUND";
     leadInvestor := x_leadInvestor extractedData;
     followOnInvestors := x_followOnInvestors extractedData;
     amountRaised := x_amountRaised extractedData;
     classification := x_classification extractedData;
     isScam := x_isScam extractedData;
     confidence := x_confidence extractedData;
     extractionErrors := [] |}.

Section Methods.
Context {W : Type} (E : Env W).

(** [axios.get(url, { ..., validateStatus })]: fulfilled with the response
    when [validateStatus] accepts the status, rejected with an AxiosError
    that carries the response otherwise, and with one that carries none when
    no response came. *)
Definition axios_get (url : string) : M W (Z * string) :=
  Monad.call (EvHttpGet url)
    (fun w =>
       let '(answer, w') := http_get E url w in
       (match answer with
        | Response status data =>
            if validateStatus status then Ok (status, data)
            else Throw (AxiosError (Some "ERR_BAD_RESPONSE") (Some status)
                          ("Request failed with status code " ++ Js.ofZ status))
        | NoResponse code message => Throw (AxiosError code None message)
        end, w')).

Definition fetchPRContent (url : string) : M W string :=
  Monad.tryCatch
    (response <- axios_get url ;;
     let '(status, html) := response in
     Monad.lift (checkStatus status) ;;;
     Monad.lift (contentOfHtml (cheerio_load E) html))
    (fun error => Monad.throw (fetchErrorOf error)).

Definition extractFromBusinessWireUrl (url : string) : outcome string :=
  let urlParts := Js.split "/" url in
  let titlePart := lastOrEmpty urlParts in
  match decodeURIComponent E titlePart with
  | None => Throw (Error "URI malformed")
  | Some decoded =>
      let cleanTitle :=
        Js.replacePercent24 (Js.replaceChars Js.isHyphen " " decoded) in
      Ok (businessWireContent cleanTitle)
  end.

Definition extractFromGenericUrl (url : string) : outcome string :=
  match URL_pathname E url with
  | None => Throw (Error "Invalid URL")
  | Some pathname =>
      let titlePart := lastOrEmpty (Js.split "/" pathname) in
      let cleanTitle := Js.replaceChars Js.isHyphenOrUnderscore " " titlePart in
      Ok (genericContent cleanTitle url)
  end.

Definition tryUrlBasedExtraction (url : string) : M W string :=
  if Js.includes url "businesswire.com"
  then Monad.lift (extractFromBusinessWireUrl url)
  else if Js.includes url "prnewswire.com"
  then Monad.ret (extractFromPRNewswireUrl url)
  else Monad.lift (extractFromGenericUrl url).

(** [response.content[0].type === 'text' ? response.content[0].text : ''] *)
Definition responseTextOf (content : list ContentBlock) : outcome string :=
  match content with
  | [] => Throw (Error "Cannot read properties of undefined (reading 'type')")
  | TextBlock text :: _ => Ok text
  | OtherBlock :: _ => Ok ""
  end.

Definition parseJson (text : string) : outcome value :=
  match JSON_parse E text with
  | inl v => Ok v
  | inr message => Throw (Error message)
  end.

(** The object literal returned by [extractWithClaude]: the properties are
    read in the order of the source, and a read that throws ends it. *)
Definition sanitize (extracted : value) : outcome Extracted :=
  name <-? JsValue.getProp extracted "companyName" ;
  lead <-? JsValue.getProp extracted "leadInvestor" ;
  followOn <-? JsValue.getProp extracted "followOnInvestors" ;
  amount <-? JsValue.getProp extracted "amountRaised" ;
  class <-? JsValue.getProp extracted "classification" ;
  scam <-? JsValue.getProp extracted "isScam" ;
  conf <-? JsValue.getProp extracted "confidence" ;
  Ok {| x_companyName := JsValue.orElse name (JStr "NOT FOUND");
        x_leadInvestor := JsValue.orElse lead (JStr "NOT FOUND");
        x_followOnInvestors := JsValue.arrayOrEmpty followOn;
        x_amountRaised := JsValue.orElse amount (JStr "NOT FOUND");
        x_classification := JsValue.orElse class (JStr "Other");
        x_isScam := JsValue.truthy scam;
        x_confidence :=
          JsValue.numberOrZero (JsValue.toNumber (textToNumber E) conf) |}.

Definition extractWithClaude (content url : string) : M W Extracted :=
  let prompt := buildPrompt content url in
  Monad.tryCatch
    (response <- Monad.call EvGenerate (messages_create E prompt) ;;
     responseText <- Monad.lift (responseTextOf response) ;;
     extracted <- Monad.lift (parseJson responseText) ;;
     Monad.lift (sanitize extracted))
    (fun error =>
       Monad.throw (Error ("Claude extraction failed: " ++ errorMessage error))).

Definition findExecutiveContactsWithApollo (companyName : value) : M W Contacts :=
  if JsValue.isString companyName "NOT FOUND"
     || JsValue.isString companyName "EXTRACTION FAILED"
  then Monad.ret (mkContacts None None)
  else
    Monad.tryCatch
      (apolloService <- Monad.lift (ApolloService.new E) ;;
       result <- ApolloService.findExecutiveContacts E apolloService companyName ;;
       Monad.ret {| c_ceoEmail := ApolloService.ceoEmail result;
                    c_cmoEmail := ApolloService.cmoEmail result |})
      (fun _ => Monad.ret (mkContacts None None)).

(** [this.delay(ms)] *)
Definition delay (ms : Z) : M W unit :=
  Monad.call (EvDelay ms) (fun w => (Ok tt, sleep E ms w)).

(** Steps 1 and 2 of [performExtraction]: the content and the method. *)
Definition acquire (url : string) : M W (string * string) :=
  Monad.tryCatch
    (prContent <- fetchPRContent url ;; Monad.ret (prContent, "direct_fetch"))
    (fun _ =>
       prContent <- tryUrlBasedExtraction url ;; Monad.ret (prContent, "url_based")).

(** Step 4 of [performExtraction]: [executiveContacts] starts as [{}]. *)
Definition resolveContacts (extractedData : Extracted) : M W Contacts :=
  if JsValue.truthy (x_companyName extractedData)
     && negb (JsValue.isString (x_companyName extractedData) "NOT FOUND")
  then findExecutiveContactsWithApollo (x_companyName extractedData)
  else Monad.ret (mkContacts None None).

Definition performExtraction (url : string) : M W PRData :=
  Monad.call (EvAttempt url) (fun w => (Ok tt, w)) ;;;
  acquired <- acquire url ;;
  let '(prContent, extractionMethod) := acquired in
  if negb (Js.nonEmpty prContent)
  then Monad.throw (Error "Unable to access content from this URL with any method")
  else
    extractedData <- extractWithClaude prContent url ;;
    executiveContacts <- resolveContacts extractedData ;;
    Monad.ret (assemble extractedData executiveContacts).

(** The [while] loop of [extractPRData] and the [return] after it. [fuel]
    bounds the number of times the condition is tested; [None] is a loop cut
    short by the bound. *)
Fixpoint retryLoop (fuel : nat) (url : string) (attempt : Z) (lastError : string)
  : M W (option PRData) :=
  match fuel with
  | O => Monad.ret None
  | S fuel' =>
      if attempt <=? maxRetries
      then
        Monad.tryCatch
          (result <- performExtraction url ;; Monad.ret (Some result))
          (fun error =>
             let attempt := attempt + 1 in
             let lastError := errorMessage error in
             (if attempt <=? maxRetries then delay 3000 else Monad.ret tt) ;;;
             (* the next turn of the loop *)
             retryLoop fuel' url attempt lastError)
      else Monad.ret (Some (failureRecord lastError))
  end.

Definition extractPRData_fuel (fuel : nat) (url : string) : M W (option PRData) :=
  retryLoop fuel url 0 "".

(** The condition is tested [maxRetries + 2] times at most. *)
Definition extractPRData (url : string) : M W (option PRData) :=
  extractPRData_fuel (Z.to_nat (maxRetries + 2)) url.

End Methods.
End PRExtractor.


(* ================================================================== *)
(** ** What is stated about the program *)

Section Properties.
Context {W : Type}.

(** A computation that never ends in a thrown exception. *)
Definition NoThrow {A} (m : M W A) : Prop :=
  forall w, exists a, out (m w) = Ok a.

(** Every call issued by a computation satisfies [P]. *)
Definition Emits {A} (P : Event -> Prop) (m : M W A) : Prop :=
  forall w, Forall P (events (m w)).

(** The three attempts of a run that starts in [w0], each started in the
    world the one before has left once the wait is over, all end in an
    exception: the last in [e3], leaving [w3]. [t1], [t2], [t3] are their
    calls. *)
Definition ThreeFailures (E : Env W) (url : string) (w0 : W)
    (e3 : exn) (w3 : W) (t1 t2 t3 : list Event) : Prop :=
  exists e1 w1 e2 w2,
    PRExtractor.performExtraction E url w0 = mkRun (Throw e1) w1 t1
    /\ PRExtractor.performExtraction E url (sleep E 3000 w1) = mkRun (Throw e2) w2 t2
    /\ PRExtractor.performExtraction E url (sleep E 3000 w2) = mkRun (Throw e3) w3 t3.

(** The generation service never answers with JSON. *)
Definition NeverJson (E : Env W) : Prop :=
  forall prompt w, exists text others w' message,
    messages_create E prompt w = (Ok (TextBlock text :: others), w')
    /\ JSON_parse E text = inr message.

(** An email that an answer of the enrichment endpoint carried. *)
Definition FromEnrichment (E : Env W) (e : string) : Prop :=
  e <> ""
  /\ exists key first last company w p,
       fst (apollo_match E key first last company w) = Ok (Some p)
       /\ person_email p = Some e.

End Properties.

(** The emails of a result, from what the two lookups returned. *)
Definition emailOf (c : option ApolloService.ApolloContact) : option string :=
  match c with
  | Some k => Some (ApolloService.email k)
  | None => None
  end.

(** The events of the orchestrator, as opposed to the calls of the stages
    after the first GET. *)
Definition isAttempt (ev : Event) : bool :=
  match ev with EvAttempt _ => true | _ => false end.

Definition isDelay (ev : Event) : bool :=
  match ev with EvDelay _ => true | _ => false end.

Definition StageCall (ev : Event) : Prop :=
  isAttempt ev = false /\ isDelay ev = false.

Definition attemptsIn (calls : list Event) : nat := length (filter isAttempt calls).
Definition delaysIn (calls : list Event) : list Event := filter isDelay calls.

(** The directory gave no candidate: an empty list, or an error. *)
Definition NoCandidate (answer : outcome (list ApolloPerson)) : Prop :=
  match answer with
  | Ok found => found = []
  | Throw _ => True
  end.

(** The enrichment gave no email: no person, a person without email or with
    an empty one, or an error. *)
Definition NoEmail (answer : outcome (option ApolloPerson)) : Prop :=
  match answer with
  | Ok (Some p) => Js.optOr (person_email p) "" = ""
  | Ok None => True
  | Throw _ => True
  end.

(** The terminal record, field by field. *)
Definition IsTerminalSentinel (r : PRData) (message : string) : Prop :=
  companyName r = JStr "EXTRACTION FAILED"
  /\ leadInvestor r = JStr "EXTRACTION FAILED"
  /\ amountRaised r = JStr "EXTRACTION FAILED"
  /\ ceoEmail r = "EMAIL NOT FOUND"
  /\ cmoEmail r = "EMAIL NOT FOUND"
  /\ followOnInvestors r = []
  /\ classification r = JStr "UNKNOWN"
  /\ isScam r = false
  /\ confidence r = Fin 0
  /\ extractionErrors r = [message].

(** The classifications the prompt lists. *)
Definition closedEnum : list string :=
  [ "Web3 Company"; "AI Company"; "AI SaaS Company"; "SaaS Company";
    "Software Company"; "Fintech Company"; "Biotech Company";
    "CleanTech Company"; "Investment Firm"; "Other" ].

Definition InClosedEnum (v : value) : Prop :=
  exists s, v = JStr s /\ In s closedEnum.

(** An integer between 0 and 100. *)
Definition IntegerInRange (n : number) : Prop :=
  exists q z, n = Fin q /\ (q == inject_Z z)%Q /\ 0 <= z <= 100.

(** The world in which the attempt of rank [n] starts (0 is the first), the
    attempts before it having failed: the one the attempt before has left,
    once the wait of 3 seconds is over. *)
Fixpoint attemptWorld {W : Type} (E : Env W) (url : string) (w : W) (n : nat) : W :=
  match n with
  | O => w
  | S k =>
      sleep E 3000 (world (PRExtractor.performExtraction E url (attemptWorld E url w k)))
  end.

(** The time a chain of awaited calls takes, from the time each takes. *)
Definition latency (duration : Event -> Z) (calls : list Event) : Z :=
  fold_right (fun ev total => duration ev + total) 0 calls.

(** The score of a title as the specification words it: an exact match with
    one of the synonyms, whatever their order, else a synonym contained in
    the title, else the base score. *)
Module Spec.

Definition titleScore (personTitle : string) (synonyms : list string) : Z :=
  let lowerTitle := Js.toLowerCase personTitle in
  if existsb (fun s => String.eqb lowerTitle (Js.toLowerCase s)) synonyms then 100
  else if existsb (fun s => Js.includes lowerTitle (Js.toLowerCase s)) synonyms then 80
  else 50.

End Spec.

(* ================================================================== *)
(** ** Concrete worlds *)

Module Demo.

(** A percent-decoder for escapes below [%80]: on the strings it accepts, and
    on those with a [%] not followed by two hexadecimal digits, it is
    [decodeURIComponent]. *)
Definition hexValue (c : ascii) : option nat :=
  let n := nat_of_ascii c in
  if ((48 <=? n) && (n <=? 57))%nat then Some (n - 48)%nat
  else if ((65 <=? n) && (n <=? 70))%nat then Some (n - 55)%nat
  else if ((97 <=? n) && (n <=? 102))%nat then Some (n - 87)%nat
  else None.

Fixpoint percentDecode (s : string) : option string :=
  match s with
  | EmptyString => Some EmptyString
  | String "%" (String h (String l rest)) =>
      match hexValue h, hexValue l with
      | Some a, Some b =>
          if (a <? 8)%nat
          then option_map (String (ascii_of_nat (16 * a + b))) (percentDecode rest)
          else None
      | _, _ => None
      end
  | String "%" _ => None
  | String c rest => option_map (String c) (percentDecode rest)
  end.

(** The path of an [https] URL that has a host and neither query nor
    fragment; no other string is taken for a URL. *)
Definition pathnameOf (url : string) : option string :=
  if String.prefix "https://" url
  then
    let rest := String.substring 8 (String.length url - 8) url in
    match String.index 0 "/" rest with
    | Some O => None
    | Some i => Some (String.substring i (String.length rest - i) rest)
    | None => if Js.nonEmpty rest then Some "/" else None
    end
  else None.

(** [JSON.parse] on the texts of a table; no other text is used below. *)
Definition parseTable (table : list (string * value)) (text : string) : value + string :=
  match JsValue.lookup text table with
  | Some v => inl v
  | None => inr "Unexpected token S in JSON at position 0"
  end.

Definition emptyPage : Page :=
  {| selectText := fun _ => ""; bodyText := ""; titleText := ""; h1Text := "";
     metaDescription := None |}.

(** What the outside answers, whenever it is asked. *)
Record Script : Type := mkScript {
  answer : string -> HttpAnswer;
  generated : outcome (list ContentBlock);
  people : list string -> outcome (list ApolloPerson);
  enriched : string -> string -> outcome (option ApolloPerson);
  key : option string;
  json : list (string * value)
}.

Definition httpTime : Z := 400.
Definition generationTime : Z := 2000.
Definition directoryTime : Z := 150.

(** The world is a clock, in milliseconds: a call takes its time, and
    nothing else passes. *)
Definition env (s : Script) : Env Z :=
  {| http_get := fun url t => (answer s url, t + httpTime);
     messages_create := fun _ t => (generated s, t + generationTime);
     apollo_search := fun _ _ titles t => (people s titles, t + directoryTime);
     apollo_match := fun _ first last _ t => (enriched s first last, t + directoryTime);
     sleep := fun ms t => t + ms;
     APOLLO_API_KEY := key s;
     JSON_parse := parseTable (json s);
     textToNumber := fun _ => NaN;
     cheerio_load := fun _ => emptyPage;
     URL_pathname := pathnameOf;
     decodeURIComponent := percentDecode |}.

Definition field (k v : string) : string := Js.quoted k ++ ":" ++ v.

(** The answer of Scenario A. *)
Definition acmeText : string :=
  "{" ++ field "companyName" (Js.quoted "Acme Inc") ++ ","
      ++ field "leadInvestor" (Js.quoted "Acme Ventures") ++ ","
      ++ field "followOnInvestors" "[]" ++ ","
      ++ field "amountRaised" (Js.quoted "$12M") ++ ","
      ++ field "classification" (Js.quoted "SaaS Company") ++ ","
      ++ field "isScam" "false" ++ ","
      ++ field "confidence" "85" ++ "}".

Definition acmeValue : value :=
  JObj [ ("companyName", JStr "Acme Inc");
         ("leadInvestor", JStr "Acme Ventures");
         ("followOnInvestors", JArr []);
         ("amountRaised", JStr "$12M");
         ("classification", JStr "SaaS Company");
         ("isScam", JBool false);
         ("confidence", JNum (Fin 85)) ].

(** An answer outside the schema. *)
Definition bananaText : string :=
  "{" ++ field "classification" (Js.quoted "Banana") ++ ","
      ++ field "confidence" "250" ++ "}".

Definition bananaValue : value :=
  JObj [ ("classification", JStr "Banana"); ("confidence", JNum (Fin 250)) ].

Definition proseText : string := "Sorry, I cannot help with that.".

Definition ann : ApolloPerson :=
  {| first_name := Some "Ann"; last_name := Some "Lee";
     person_title := Some "CEO"; person_email := None |}.

Definition bob : ApolloPerson :=
  {| first_name := Some "Bob"; last_name := Some "Ray";
     person_title := Some "CMO"; person_email := None |}.

Definition isCeoQuery (titles : list string) : bool :=
  match titles with
  | t :: _ => String.eqb t "CEO"
  | [] => false
  end.

Definition withEmail (p : ApolloPerson) (e : string) : ApolloPerson :=
  {| first_name := first_name p; last_name := last_name p;
     person_title := person_title p; person_email := Some e |}.

(** The page is gone (404) and the generation service answers as in
    Scenario A; the directory knows a CEO, and no CMO. *)
Definition goneButExtracted : Script :=
  {| answer := fun _ => Response 404 "Not Found";
     generated := Ok [TextBlock acmeText];
     people := fun titles => Ok (if isCeoQuery titles then [ann] else []);
     enriched := fun first _ =>
       Ok (if String.eqb first "Ann" then Some (withEmail ann "a@acme.com") else None);
     key := Some "secret";
     json := [(acmeText, acmeValue)] |}.

(** The same, with a CMO as well. *)
Definition bothFound : Script :=
  {| answer := answer goneButExtracted;
     generated := generated goneButExtracted;
     people := fun titles => Ok (if isCeoQuery titles then [ann] else [bob]);
     enriched := fun first _ =>
       Ok (if String.eqb first "Ann" then Some (withEmail ann "a@acme.com")
           else Some (withEmail bob "b@acme.com"));
     key := Some "secret";
     json := [(acmeText, acmeValue)] |}.

(** The page is gone and the generation service answers in prose: Scenario B. *)
Definition goneAndProse : Script :=
  {| answer := fun _ => Response 404 "Not Found";
     generated := Ok [TextBlock proseText];
     people := fun _ => Ok [];
     enriched := fun _ _ => Ok None;
     key := Some "secret";
     json := [] |}.

(** The generation service answers outside the schema. *)
Definition offSchema : Script :=
  {| answer := fun _ => NoResponse (Some "ENOTFOUND") "getaddrinfo ENOTFOUND";
     generated := Ok [TextBlock bananaText];
     people := fun _ => Ok [];
     enriched := fun _ _ => Ok None;
     key := Some "secret";
     json := [(bananaText, bananaValue)] |}.

Definition acmeUrl : string := "https://example.com/news/acme-raises-12m".

(** A Business Wire address whose last segment has a stray [%]. *)
Definition strayPercentUrl : string :=
  "https://www.businesswire.com/news/home/20240101/en/Acme-Raises-100%-More".

Definition service : ApolloService.Service := ApolloService.mkService "secret".

(** The record of Scenario A. *)
Definition acmeRecord : PRData :=
  {| companyName := JStr "Acme Inc";
     ceoEmail := "a@acme.com";
     cmoEmail := "EMAIL NOT FOUND";
     leadInvestor := JStr "Acme Ventures";
     followOnInvestors := [];
     amountRaised := JStr "$12M";
     classification := JStr "SaaS Company";
     isScam := false;
     confidence := Fin 85;
     extractionErrors := [] |}.

(** Two founders, in the order of the directory: for the first the title
    contains a synonym, for the second it is one. *)
Definition dana : ApolloPerson :=
  {| first_name := Some "Dana"; last_name := Some "Fox";
     person_title := Some "Founder and Chairman"; person_email := None |}.

Definition eli : ApolloPerson :=
  {| first_name := Some "Eli"; last_name := Some "Kim";
     person_title := Some "Co-Founder"; person_email := None |}.

Definition twoFounders : Script :=
  {| answer := answer goneButExtracted;
     generated := generated goneButExtracted;
     people := fun titles => Ok (if isCeoQuery titles then [dana; eli] else []);
     enriched := fun _ _ => Ok None;
     key := Some "secret";
     json := [(acmeText, acmeValue)] |}.

(** The site answers 429 to every GET. *)
Definition rateLimited : Script :=
  {| answer := fun _ => Response 429 "Too Many Requests";
     generated := generated goneButExtracted;
     people := fun _ => Ok [];
     enriched := fun _ _ => Ok None;
     key := Some "secret";
     json := [(acmeText, acmeValue)] |}.

(** What an attempt of Scenario B issues, and how it ends. *)
Definition proseCalls : list Event :=
  [EvAttempt acmeUrl; EvHttpGet acmeUrl; EvGenerate].

Definition proseError : exn :=
  Error "Claude extraction failed: Unexpected token S in JSON at position 0".

End Demo.

(* ================================================================== *)
(** ** Counting the calls of a run *)

Definition isHttpGet (ev : Event) : bool :=
  match ev with EvHttpGet _ => true | _ => false end.

Definition isGenerate (ev : Event) : bool :=
  match ev with EvGenerate => true | _ => false end.

Definition isSearch (ev : Event) : bool :=
  match ev with EvSearch _ _ => true | _ => false end.

Definition isEnrich (ev : Event) : bool :=
  match ev with EvEnrich _ _ _ => true | _ => false end.

Definition countCalls (kind : Event -> bool) (calls : list Event) : nat :=
  length (filter kind calls).

(** The calls of one lookup: the search, and the enrichment of a candidate
    if the search found one. *)
Definition LookupCalls (company : value) (role : Role) (calls : list Event) : Prop :=
  calls = [EvSearch company (ApolloService.titleQueries role)]
  \/ exists first last,
       calls = [EvSearch company (ApolloService.titleQueries role);
                EvEnrich first last company].

(** The calls of the resolver: none, or the CEO lookup then the CMO lookup. *)
Definition ResolverCalls (company : value) (calls : list Event) : Prop :=
  calls = []
  \/ exists ceoCalls cmoCalls,
       calls = (ceoCalls ++ cmoCalls)%list
       /\ LookupCalls company CEO ceoCalls
       /\ LookupCalls company CMO cmoCalls.

(** The calls of one attempt: the GET, then the generation call unless the
    acquisition threw, then the calls of the resolver. *)
Definition AttemptCalls (url : string) (calls : list Event) : Prop :=
  calls = [EvAttempt url; EvHttpGet url]
  \/ exists company resolverCalls,
       calls = EvAttempt url :: EvHttpGet url :: EvGenerate :: resolverCalls
       /\ ResolverCalls company resolverCalls.

(** The messages an attempt can fail with. *)
Definition AttemptFailureMessage (message : string) : Prop :=
  (exists reason, message = "Claude extraction failed: " ++ reason)
  \/ message = "URI malformed"
  \/ message = "Invalid URL".

(* ================================================================== *)
(** ** Clean text *)

(** Every white-space character is a single space that follows no other
    one; [afterSpace] says that the character before was a space, or that
    the text starts here. *)
Fixpoint singleSpaced (afterSpace : bool) (s : string) : bool :=
  match s with
  | EmptyString => true
  | String c s' =>
      if Js.isSpace c
      then Ascii.eqb c " "%char && negb afterSpace && singleSpaced true s'
      else singleSpaced false s'
  end.

(** The last character, if any, is not white space. *)
Fixpoint endsVisible (s : string) : bool :=
  match s with
  | EmptyString => true
  | String c EmptyString => negb (Js.isSpace c)
  | String _ s' => endsVisible s'
  end.

(** Text with no white space at either end, and inside no white space but
    single spaces: no line break, no tab, no run of spaces. *)
Definition Normalized (s : string) : Prop :=
  singleSpaced true s = true /\ endsVisible s = true.

(** The messages of the [catch] block of [fetchPRContent] for the three error
    codes it knows. *)
Definition networkMessages : list string :=
  [ "Website not found - check if URL is correct";
    "Connection refused - website may be down";
    "Request timed out - website is too slow to respond" ].

(* ================================================================== *)
(** ** More concrete worlds *)

Module Examples.

(** A page of a news site: an [article] element with enough text. *)
Definition articleText : string :=
  String.concat " " (repeat "Acme Inc raised a round led by Acme Ventures." 6).

Definition articleHtml : string :=
  "<html><head><title>Acme raises $12M</title></head><body><article>"
  ++ articleText ++ "</article></body></html>".

Definition articlePage : Page :=
  {| selectText := fun selector =>
       if String.eqb selector "article" then articleText else "";
     bodyText := articleText;
     titleText := "Acme raises $12M";
     h1Text := "";
     metaDescription := Some "Funding news" |}.

(** The world of [Demo.goneButExtracted], with the page served. *)
Definition served : Env Z :=
  let base := Demo.env Demo.goneButExtracted in
  {| http_get := fun url t => (Response 200 articleHtml, t + Demo.httpTime);
     messages_create := messages_create base;
     apollo_search := apollo_search base;
     apollo_match := apollo_match base;
     sleep := sleep base;
     APOLLO_API_KEY := APOLLO_API_KEY base;
     JSON_parse := JSON_parse base;
     textToNumber := textToNumber base;
     cheerio_load := fun _ => articlePage;
     URL_pathname := URL_pathname base;
     decodeURIComponent := decodeURIComponent base |}.

Definition servedContent : string :=
  "Title: Acme raises $12M Description: Funding news Content: " ++ articleText.

(** The generation service answers with a number. *)
Definition numberAnswer : Demo.Script :=
  {| Demo.answer := fun _ => Response 404 "Not Found";
     Demo.generated := Ok [TextBlock "42"];
     Demo.people := fun _ => Ok [];
     Demo.enriched := fun _ _ => Ok None;
     Demo.key := Some "secret";
     Demo.json := [("42", JNum (Fin 42))] |}.

(** The world of [Demo.bothFound], without the key of the directory. *)
Definition noKey : Demo.Script :=
  {| Demo.answer := Demo.answer Demo.bothFound;
     Demo.generated := Demo.generated Demo.bothFound;
     Demo.people := Demo.people Demo.bothFound;
     Demo.enriched := Demo.enriched Demo.bothFound;
     Demo.key := None;
     Demo.json := Demo.json Demo.bothFound |}.

End Examples.

(* ================================================================== *)
(** ** More of what is stated *)

From Stdlib Require Import Sorting.Permutation Sorting.Sorted.

(** What [extractWithClaude] returns when the parsed answer has none of the
    properties. *)
Definition allDefaults : PRExtractor.Extracted :=
  {| PRExtractor.x_companyName := JStr "NOT FOUND";
     PRExtractor.x_leadInvestor := JStr "NOT FOUND";
     PRExtractor.x_followOnInvestors := [];
     PRExtractor.x_amountRaised := JStr "NOT FOUND";
     PRExtractor.x_classification := JStr "Other";
     PRExtractor.x_isScam := false;
     PRExtractor.x_confidence := Fin 0 |}.

(** A value that is neither an object nor [null]. *)
Definition isPlain (v : value) : bool :=
  match v with
  | JBool _ | JNum _ | JStr _ | JArr _ => true
  | JUndefined | JNull | JObj _ => false
  end.

(** A candidate comes before another in the result of a search only if its
    score is not lower. *)
Definition notBelow (a b : ApolloService.ApolloContact) : Prop :=
  ApolloService.confidence b <= ApolloService.confidence a.

(** The number of emails of a result. *)
Definition emailsFound (result : ApolloService.ApolloResult) : Z :=
  match ApolloService.ceoEmail result with Some _ => 1 | None => 0 end
  + match ApolloService.cmoEmail result with Some _ => 1 | None => 0 end.

(* ================================================================== *)
(** ** [src/lib/prExtractor.ts]: the search of the company's own site *)

Module CompanyWebsite.

(** [s.replace(/[...]/g, '')] for a class of single characters, given by the
    characters that stay. *)
Fixpoint keepChars (keep : ascii -> bool) (s : string) : string :=
  match s with
  | EmptyString => EmptyString
  | String c s' => if keep c then String c (keepChars keep s') else keepChars keep s'
  end.

(** The class [a-z0-9]. *)
Definition isLowerAlnum (c : ascii) : bool :=
  let n := nat_of_ascii c in
  (((97 <=? n) && (n <=? 122)) || ((48 <=? n) && (n <=? 57)))%nat.

(** The words of the pattern of [generatePossibleDomains], in its order. *)
Definition commonWords : list string :=
  [ "technologies"; "tech"; "systems"; "solutions"; "labs"; "inc"; "corp";
    "ltd"; "company"; "co" ].

(** The length of the first alternative that matches at the start of [s]. *)
Fixpoint matchLength (words : list string) (s : string) : option nat :=
  match words with
  | [] => None
  | word :: rest =>
      if String.prefix word s then Some (String.length word)
      else matchLength rest s
  end.

(** [s.replace(/(w1|w2|...)/g, '')]: the text is scanned from the left; where
    an alternative matches, the first that does is removed and the scan goes
    on behind it. [skip] counts the characters of a match still to drop. *)
Fixpoint removeWordsFrom (words : list string) (skip : nat) (s : string) : string :=
  match s with
  | EmptyString => EmptyString
  | String c s' =>
      match skip with
      | S k => removeWordsFrom words k s'
      | O =>
          match matchLength words s with
          | Some (S k) => removeWordsFrom words k s'
          | _ => String c (removeWordsFrom words 0 s')
          end
      end
  end.

Definition removeWords (words : list string) (s : string) : string :=
  removeWordsFrom words 0 s.

(** [cleanName] of [generatePossibleDomains]. *)
Definition cleanName (companyName : string) : string :=
  keepChars (fun c => negb (Js.isSpace c))
    (keepChars (fun c => isLowerAlnum c || Js.isSpace c)
       (Js.toLowerCase companyName)).

Definition withSuffixes (label : string) : list string :=
  [ label ++ ".com"; label ++ ".co"; label ++ ".io" ].

Definition generatePossibleDomains (companyName : string) : list string :=
  let cleanName := cleanName companyName in
  let domains := withSuffixes cleanName in
  let withoutCommon := removeWords commonWords cleanName in
  if negb (String.eqb withoutCommon cleanName)
     && (2 <? PRExtractor.len withoutCommon)
  then (domains ++ withSuffixes withoutCommon)%list
  else domains.

(** The addresses tried for a domain, in order. *)
Definition urlsOf (domain : string) : list string :=
  [ "https://" ++ domain;
    "https://www." ++ domain;
    "https://" ++ domain ++ "/about";
    "https://" ++ domain ++ "/team";
    "https://" ++ domain ++ "/leadership";
    "https://" ++ domain ++ "/about-us";
    "https://" ++ domain ++ "/management" ].

(** The test on the text of a page. *)
Definition looksRelevant (content : string) : bool :=
  let lower := Js.toLowerCase content in
  Js.includes lower "ceo"
  || Js.includes lower "chief executive"
  || Js.includes lower "founder"
  || Js.includes lower "team"
  || Js.includes lower "leadership".

(** [{ ceoEmail?, cmoEmail? }] of [extractExecutivesWithClaude]: each email
    is a truthy value of the parsed answer, or absent. *)
Record ExecutiveEmails : Type := mkEmails {
  e_ceoEmail : option value;
  e_cmoEmail : option value
}.

(** [v || undefined] *)
Definition truthyOrAbsent (v : value) : option value :=
  if JsValue.truthy v then Some v else None.

(** The prompt of [extractExecutivesWithClaude]. *)
Definition executivesPromptSchema : list string :=
  [ "{";
    "  " ++ Js.quoted "ceoName" ++ ": "
      ++ Js.quoted "Name of CEO/Founder if found, or null" ++ ",";
    "  " ++ Js.quoted "ceoEmail" ++ ": "
      ++ Js.quoted "Email of CEO if found, or constructed email if name found, or null"
      ++ ",";
    "  " ++ Js.quoted "cmoName" ++ ": "
      ++ Js.quoted "Name of CMO/Marketing head if found, or null" ++ ", ";
    "  " ++ Js.quoted "cmoEmail" ++ ": "
      ++ Js.quoted "Email of CMO if found, or constructed email if name found, or null";
    "}" ].

Definition executivesPromptGuidelines : list string :=
  [ "IMPORTANT GUIDELINES:";
    "1. If you find a name but no direct email, construct a likely email using common patterns:";
    "   - firstname.lastname@companydomain.com";
    "   - firstname@companydomain.com";
    "   - f.lastname@companydomain.com";
    "2. Use the company domain from any email found on the site";
    "3. If no names or emails found, use null for all fields";
    "4. Be conservative - only include information you're confident about";
    "";
    "Respond with ONLY the JSON object, no additional text." ].

Definition buildExecutivesPrompt (websiteContent companyName : string) : string :=
  "You are an expert at extracting executive contact information from company website content."
  ++ Js.nl ++ Js.nl
  ++ "Company Name: " ++ companyName ++ Js.nl ++ Js.nl
  ++ "Website Content:" ++ Js.nl ++ websiteContent ++ Js.nl ++ Js.nl
  ++ "Please analyze this content and extract executive information. Look for:"
  ++ Js.nl
  ++ "1. CEO, Chief Executive Officer, Founder, Co-Founder names" ++ Js.nl
  ++ "2. CMO, Chief Marketing Officer, Head of Marketing, Marketing Director names"
  ++ Js.nl
  ++ "3. Email addresses associated with these executives" ++ Js.nl ++ Js.nl
  ++ "Respond ONLY with a valid JSON object in this exact format:" ++ Js.nl ++ Js.nl
  ++ String.concat Js.nl executivesPromptSchema ++ Js.nl ++ Js.nl
  ++ String.concat Js.nl executivesPromptGuidelines.

Section Methods.
Context {W : Type} (E : Env W).

(** [$('body').text()] of the page [cheerio] loads, once [script], [style],
    [nav], [footer] and [.advertisement] are removed. *)
Variable websiteBodyText : string -> string.

(** [axios.get(url, { timeout, headers })], with the [validateStatus] of
    axios: fulfilled for the statuses from 200 to 299. *)
Definition axios_get_default (url : string) : M W (Z * string) :=
  Monad.call (EvHttpGet url)
    (fun w =>
       let '(answer, w') := http_get E url w in
       (match answer with
        | Response status data =>
            if (200 <=? status) && (status <? 300) then Ok (status, data)
            else Throw (AxiosError (Some "ERR_BAD_RESPONSE") (Some status)
                          ("Request failed with status code " ++ Js.ofZ status))
        | NoResponse code message => Throw (AxiosError code None message)
        end, w')).

(** The body of the inner loop: [Some] is the [return], [None] the fall
    through to the next address, also by [continue]. *)
Definition visit (url : string) : M W (option string) :=
  Monad.tryCatch
    (response <- axios_get_default url ;;
     let '(status, data) := response in
     if status =? 200
     then
       let content := websiteBodyText data in
       if looksRelevant content
       then Monad.ret (Some (String.substring 0 (Z.to_nat 5000) content))
       else Monad.ret None
     else Monad.ret None)
    (fun _ => Monad.ret None).

(** The inner loop. *)
Fixpoint visitAll (urls : list string) : M W (option string) :=
  match urls with
  | [] => Monad.ret None
  | url :: rest =>
      found <- visit url ;;
      match found with
      | Some content => Monad.ret (Some content)
      | None => visitAll rest
      end
  end.

(** The outer loop, and the [return null] after it. *)
Fixpoint searchDomains (domains : list string) : M W (option string) :=
  match domains with
  | [] => Monad.ret None
  | domain :: rest =>
      found <- visitAll (urlsOf domain) ;;
      match found with
      | Some content => Monad.ret (Some content)
      | None => searchDomains rest
      end
  end.

Definition searchCompanyWebsite (companyName : string) : M W (option string) :=
  let domains := generatePossibleDomains companyName in
  searchDomains (firstn 3 domains).

Definition extractExecutivesWithClaude (websiteContent companyName : string)
  : M W ExecutiveEmails :=
  let prompt := buildExecutivesPrompt websiteContent companyName in
  Monad.tryCatch
    (response <- Monad.call EvGenerate (messages_create E prompt) ;;
     responseText <- Monad.lift (PRExtractor.responseTextOf response) ;;
     extracted <- Monad.lift (PRExtractor.parseJson E responseText) ;;
     ceo <- Monad.lift (JsValue.getProp extracted "ceoEmail") ;;
     cmo <- Monad.lift (JsValue.getProp extracted "cmoEmail") ;;
     Monad.ret {| e_ceoEmail := truthyOrAbsent ceo;
                  e_cmoEmail := truthyOrAbsent cmo |})
    (fun _ => Monad.ret (mkEmails None None)).

End Methods.

(** All the addresses [searchCompanyWebsite] may ask for, in order. *)
Definition candidateUrls (companyName : string) : list string :=
  flat_map urlsOf (withSuffixes (cleanName companyName)).

End CompanyWebsite.


(** A page that made [searchCompanyWebsite] return [content]: the last
    address visited, answered with status 200 and a relevant text, of which
    [content] is the start. *)
Definition FoundOn {W : Type} (E : Env W) (websiteBodyText : string -> string)
    (visited : list string) (content : string) : Prop :=
  exists before url data w0 w1,
    visited = (before ++ [url])%list
    /\ http_get E url w0 = (Response 200 data, w1)
    /\ CompanyWebsite.looksRelevant (websiteBodyText data) = true
    /\ content = String.substring 0 (Z.to_nat 5000) (websiteBodyText data).

(* ================================================================== *)
(** ** [src/lib/googleSheets.ts] and [src/pages/api/process-pr.ts] *)

(** The [repeatCell] request of [flagSuspiciousRow]: the range and the
    background colour. *)
Record RepeatCell : Type := mkRepeatCell {
  startRowIndex : Z;
  endRowIndex : Z;
  startColumnIndex : Z;
  endColumnIndex : Z;
  red : Q;
  green : Q;
  blue : Q
}.

(** The calls of a background task: the ones of the pipeline, and the ones
    made on the spreadsheet. *)
Inductive Call : Type :=
| Pipeline (ev : Event)
| SheetsUpdate (range : string) (values : list (list string))
| SheetsAppend (range : string) (values : list (list value))
| SheetsGet (range : string)
| SheetsBatchUpdate (request : RepeatCell).

(** What the spreadsheet service and the clock answer. *)
Record SheetsEnv (W : Type) : Type := mkSheetsEnv {
  (** [spreadsheets.values.update] *)
  values_update : string -> list (list string) -> W -> outcome unit * W;
  (** [spreadsheets.values.append] *)
  values_append : string -> list (list value) -> W -> outcome unit * W;
  (** [spreadsheets.values.get]: the length of [response.data.values], [None]
      when the answer has no [values] *)
  values_get : string -> W -> outcome (option nat) * W;
  (** [spreadsheets.batchUpdate] *)
  batchUpdate : RepeatCell -> W -> outcome unit * W;
  (** [new Date().toISOString()] *)
  now : W -> string;
  (** [String(v)] for an element of an array that is neither a string, nor
      [null], nor [undefined] *)
  textOf : value -> string;
  (** [new PRExtractor()] and then [new GoogleSheetsService()]: what the
      first of the two constructors that throws has thrown *)
  newServices : outcome unit
}.

Arguments values_update {W} _ _ _ _.
Arguments values_append {W} _ _ _ _.
Arguments values_get {W} _ _ _.
Arguments batchUpdate {W} _ _ _.
Arguments now {W} _ _.
Arguments textOf {W} _ _.
Arguments newServices {W} _.

Record TaskRun (W A : Type) : Type := mkTaskRun {
  t_out : outcome A;
  t_world : W;
  t_calls : list Call
}.
Arguments mkTaskRun {W A} _ _ _.
Arguments t_out {W A} _.
Arguments t_world {W A} _.
Arguments t_calls {W A} _.

Definition Task (W A : Type) : Type := W -> TaskRun W A.

Module TaskMonad.
Section Ops.
Context {W : Type}.

Definition ret {A} (a : A) : Task W A := fun w => mkTaskRun (Ok a) w [].

Definition lift {A} (o : outcome A) : Task W A := fun w => mkTaskRun o w [].

Definition bind {A B} (m : Task W A) (k : A -> Task W B) : Task W B :=
  fun w =>
    let r := m w in
    match t_out r with
    | Ok a =>
        let r' := k a (t_world r) in
        mkTaskRun (t_out r') (t_world r') (t_calls r ++ t_calls r')
    | Throw e => mkTaskRun (Throw e) (t_world r) (t_calls r)
    end.

Definition tryCatch {A} (m : Task W A) (h : exn -> Task W A) : Task W A :=
  fun w =>
    let r := m w in
    match t_out r with
    | Ok a => r
    | Throw e =>
        let r' := h e (t_world r) in
        mkTaskRun (t_out r') (t_world r') (t_calls r ++ t_calls r')
    end.

Definition call {A} (c : Call) (f : W -> outcome A * W) : Task W A :=
  fun w => let '(o, w') := f w in mkTaskRun o w' [c].

(** A computation of the pipeline, inside a task. *)
Definition ofPipeline {A} (m : M W A) : Task W A :=
  fun w => let r := m w in mkTaskRun (out r) (world r) (map Pipeline (events r)).

End Ops.
End TaskMonad.

Declare Scope task_scope.
Delimit Scope task_scope with task.
Notation "x <- m ;; k" := (TaskMonad.bind m (fun x => k))
  (at level 61, m at next level, right associativity) : task_scope.
Notation "m ;;; k" := (TaskMonad.bind m (fun _ => k))
  (at level 61, right associativity) : task_scope.

Module GoogleSheetsService.

Definition headers : list string :=
  [ "Company Name"; "CEO Email"; "CMO Email"; "Lead Investor";
    "Follow-on Investors"; "Amount Raised"; "Classification"; "Flags";
    "Date Processed" ].

(** The string an element of an array gives in [join]. *)
Definition elementText (textOf : value -> string) (v : value) : string :=
  match v with
  | JUndefined | JNull => ""
  | JStr s => s
  | _ => textOf v
  end.

(** [items.join(', ')] *)
Definition joinValues (textOf : value -> string) (items : list value) : string :=
  String.concat ", " (map (elementText textOf) items).

(** The row of [appendData]. *)
Definition rowOf (textOf : value -> string) (data : PRData) (timestamp : string)
  : list value :=
  [ companyName data;
    JStr (ceoEmail data);
    JStr (cmoEmail data);
    leadInvestor data;
    JStr (joinValues textOf (followOnInvestors data));
    amountRaised data;
    classification data;
    JStr (if isScam data then "FLAGGED AS SUSPICIOUS" else "");
    JStr timestamp ].

(** [response.data.values?.length || 1] *)
Definition rowCountOf (valuesLength : option nat) : Z :=
  match valuesLength with
  | Some O => 1
  | Some n => Z.of_nat n
  | None => 1
  end.

Definition highlight (rowCount : Z) : RepeatCell :=
  {| startRowIndex := rowCount - 1;
     endRowIndex := rowCount;
     startColumnIndex := 0;
     endColumnIndex := 9;
     red := 1;
     green := 1;
     blue := 8 # 10 |}.

Section Methods.
Context {W : Type} (S : SheetsEnv W).

Local Open Scope task_scope.

Definition flagSuspiciousRow : Task W unit :=
  valuesLength <- TaskMonad.call (SheetsGet "Sheet1!A:A")
                                 (values_get S "Sheet1!A:A") ;;
  let rowCount := rowCountOf valuesLength in
  TaskMonad.call (SheetsBatchUpdate (highlight rowCount))
                 (batchUpdate S (highlight rowCount)).

Definition appendData (data : PRData) : Task W unit :=
  fun w =>
    let values := [rowOf (textOf S) data (now S w)] in
    (TaskMonad.call (SheetsAppend "Sheet1!A:I" values)
                    (values_append S "Sheet1!A:I" values) ;;;
     if isScam data then flagSuspiciousRow else TaskMonad.ret tt) w.

Definition initializeSheet : Task W unit :=
  TaskMonad.tryCatch
    (TaskMonad.call (SheetsUpdate "Sheet1!A1:I1" [headers])
                    (values_update S "Sheet1!A1:I1" [headers]))
    (fun _ => TaskMonad.ret tt).

End Methods.
End GoogleSheetsService.

Module ProcessPR.


(** The answer: the status and the text of the [error] or of the [message]. *)
Record Response : Type := mkResponse {
  status : Z;
  text : string
}.

Section Handler.
Context {W : Type} (E : Env W) (S : SheetsEnv W).

Local Open Scope task_scope.


(** [processInBackground]. The record is always there: [None] is the loop of
    [extractPRData] cut short by its bound. *)
Definition processInBackground (url : string) : Task W unit :=
  TaskMonad.tryCatch
    (TaskMonad.lift (newServices S) ;;;
     GoogleSheetsService.initializeSheet S ;;;
     prData <- TaskMonad.ofPipeline (PRExtractor.extractPRData E url) ;;
     match prData with
     | Some data => GoogleSheetsService.appendData S data
     | None => TaskMonad.ret tt
     end)
    (fun _ => TaskMonad.ret tt).


End Handler.
End ProcessPR.

(** A call that is neither an append nor a call of the pipeline. *)
Definition afterAppend (c : Call) : Prop :=
  match c with
  | SheetsGet _ | SheetsBatchUpdate _ => True
  | _ => False
  end.

Module Examples2.

(** A spreadsheet with three rows that accepts everything, at a fixed time. *)
Definition sheet : SheetsEnv Z :=
  {| values_update := fun _ _ t => (Ok tt, t + 200);
     values_append := fun _ _ t => (Ok tt, t + 200);
     values_get := fun _ t => (Ok (Some 3%nat), t + 200);
     batchUpdate := fun _ t => (Ok tt, t + 200);
     now := fun _ => "2024-01-01T00:00:00.000Z";
     textOf := fun _ => "";
     newServices := Ok tt |}.


End Examples2.

(* ================================================================== *)
(** * Proofs *)

(* ================================================================== *)
(** ** Reasoning about computations *)

Section MonadFacts.
Context {W : Type}.

Lemma bind_run {A B} (m : M W A) (k : A -> M W B) w a w1 t1 :
  m w = mkRun (Ok a) w1 t1 ->
  Monad.bind m k w =
    mkRun (out (k a w1)) (world (k a w1)) (t1 ++ events (k a w1)).
Proof. intros H. unfold Monad.bind. rewrite H. reflexivity. Qed.

Lemma bind_throw {A B} (m : M W A) (k : A -> M W B) w e w1 t1 :
  m w = mkRun (Throw e) w1 t1 ->
  Monad.bind m k w = mkRun (Throw e) w1 t1.
Proof. intros H. unfold Monad.bind. rewrite H. reflexivity. Qed.

Lemma bind_Ok_inv {A B} (m : M W A) (k : A -> M W B) w b :
  out (Monad.bind m k w) = Ok b ->
  exists a, out (m w) = Ok a /\ out (k a (world (m w))) = Ok b.
Proof.
  unfold Monad.bind. destruct (out (m w)) as [a|e] eqn:Hm; simpl; intros H.
  - exists a. split; [reflexivity | exact H].
  - discriminate.
Qed.

Lemma bind_Throw_inv {A B} (m : M W A) (k : A -> M W B) w e :
  out (Monad.bind m k w) = Throw e ->
  out (m w) = Throw e
  \/ exists a, out (m w) = Ok a /\ out (k a (world (m w))) = Throw e.
Proof.
  unfold Monad.bind. destruct (out (m w)) as [a|e0] eqn:Hm; simpl; intros H.
  - right. exists a. split; [reflexivity | exact H].
  - left. congruence.
Qed.

Lemma tryCatch_Ok_inv {A} (m : M W A) (h : exn -> M W A) w a :
  out (Monad.tryCatch m h w) = Ok a ->
  out (m w) = Ok a
  \/ exists e, out (m w) = Throw e /\ out (h e (world (m w))) = Ok a.
Proof.
  unfold Monad.tryCatch. destruct (out (m w)) as [a0|e] eqn:Hm; simpl; intros H.
  - left. congruence.
  - right. exists e. split; [reflexivity | exact H].
Qed.

Lemma tryCatch_Throw_inv {A} (m : M W A) (h : exn -> M W A) w e :
  out (Monad.tryCatch m h w) = Throw e ->
  exists e0, out (m w) = Throw e0 /\ out (h e0 (world (m w))) = Throw e.
Proof.
  unfold Monad.tryCatch. destruct (out (m w)) as [a0|e0] eqn:Hm; simpl; intros H.
  - congruence.
  - exists e0. split; [reflexivity | exact H].
Qed.

Lemma bind_events {A B} (m : M W A) (k : A -> M W B) w :
  events (Monad.bind m k w) =
    (events (m w) ++ match out (m w) with
                     | Ok a => events (k a (world (m w)))
                     | Throw _ => []
                     end)%list.
Proof.
  unfold Monad.bind. destruct (out (m w)); cbn [events];
    [reflexivity | rewrite app_nil_r; reflexivity].
Qed.

Lemma NoThrow_ret {A} (a : A) : NoThrow (Monad.ret (W:=W) a).
Proof. intros w. exists a. reflexivity. Qed.

Lemma NoThrow_bind {A B} (m : M W A) (k : A -> M W B) :
  NoThrow m -> (forall a, NoThrow (k a)) -> NoThrow (Monad.bind m k).
Proof.
  intros Hm Hk w. destruct (Hm w) as [a Ha].
  destruct (Hk a (world (m w))) as [b Hb].
  exists b. unfold Monad.bind. rewrite Ha. exact Hb.
Qed.

Lemma NoThrow_tryCatch {A} (m : M W A) (h : exn -> M W A) :
  (forall e, NoThrow (h e)) -> NoThrow (Monad.tryCatch m h).
Proof.
  intros Hh w. unfold Monad.tryCatch.
  destruct (out (m w)) as [a|e] eqn:Hm.
  - exists a. exact Hm.
  - destruct (Hh e (world (m w))) as [b Hb]. exists b. exact Hb.
Qed.

Lemma Emits_ret {A} P (a : A) : Emits P (Monad.ret (W:=W) a).
Proof. intros w. constructor. Qed.

Lemma Emits_throw {A} P e : Emits P (Monad.throw (W:=W) (A:=A) e).
Proof. intros w. constructor. Qed.

Lemma Emits_lift {A} P (o : outcome A) : Emits P (Monad.lift (W:=W) o).
Proof. intros w. constructor. Qed.

Lemma Emits_call {A} (P : Event -> Prop) ev (f : W -> outcome A * W) :
  P ev -> Emits P (Monad.call ev f).
Proof.
  intros H w. unfold Monad.call. destruct (f w) as [o w'].
  simpl. constructor; [exact H | constructor].
Qed.

Lemma Emits_bind {A B} P (m : M W A) (k : A -> M W B) :
  Emits P m -> (forall a, Emits P (k a)) -> Emits P (Monad.bind m k).
Proof.
  intros Hm Hk w. unfold Monad.bind.
  destruct (out (m w)) as [a|e]; simpl.
  - apply Forall_app. split; [apply Hm | apply Hk].
  - apply Hm.
Qed.

Lemma Emits_tryCatch {A} P (m : M W A) (h : exn -> M W A) :
  Emits P m -> (forall e, Emits P (h e)) -> Emits P (Monad.tryCatch m h).
Proof.
  intros Hm Hh w. unfold Monad.tryCatch.
  destruct (out (m w)) as [a|e]; simpl.
  - apply Hm.
  - apply Forall_app. split; [apply Hm | apply Hh].
Qed.

End MonadFacts.

Create HintDb nothrow.
#[local] Hint Resolve NoThrow_ret NoThrow_bind NoThrow_tryCatch : nothrow.

(* ================================================================== *)
(** ** The retry loop *)

Section RetryFacts.
Context {W : Type} (E : Env W).

Import PRExtractor.

Local Ltac bound := unfold maxRetries; lia.

Lemma retryLoop_returns fuel url attempt lastError w r w1 t1 :
  attempt <= maxRetries ->
  performExtraction E url w = mkRun (Ok r) w1 t1 ->
  retryLoop E (S fuel) url attempt lastError w = mkRun (Ok (Some r)) w1 t1.
Proof.
  intros Ha Hp. cbn [retryLoop].
  apply Z.leb_le in Ha. rewrite Ha.
  unfold Monad.tryCatch.
  rewrite (bind_run _ _ _ _ _ _ Hp). simpl.
  rewrite app_nil_r. reflexivity.
Qed.

Lemma retryLoop_retries fuel url attempt lastError w e w1 t1 :
  attempt + 1 <= maxRetries ->
  performExtraction E url w = mkRun (Throw e) w1 t1 ->
  retryLoop E (S fuel) url attempt lastError w =
    let r := retryLoop E fuel url (attempt + 1) (errorMessage e) (sleep E 3000 w1) in
    mkRun (out r) (world r) (t1 ++ EvDelay 3000 :: events r).
Proof.
  intros Ha Hp. cbn [retryLoop].
  assert (Ha' : (attempt <=? maxRetries) = true) by (apply Z.leb_le; lia).
  apply Z.leb_le in Ha. rewrite Ha'.
  unfold Monad.tryCatch.
  rewrite (bind_throw _ _ _ _ _ _ Hp). cbn [out world events].
  rewrite Ha. unfold Monad.bind, delay, Monad.call. cbn [out world events].
  destruct (out (retryLoop E fuel url (attempt + 1) (errorMessage e) (sleep E 3000 w1)));
    reflexivity.
Qed.

Lemma retryLoop_last_failure fuel url attempt lastError w e w1 t1 :
  attempt = maxRetries ->
  performExtraction E url w = mkRun (Throw e) w1 t1 ->
  retryLoop E (S (S fuel)) url attempt lastError w =
    mkRun (Ok (Some (failureRecord (errorMessage e)))) w1 t1.
Proof.
  intros -> Hp. cbn [retryLoop].
  change (maxRetries <=? maxRetries) with true.
  change (maxRetries + 1 <=? maxRetries) with false.
  cbn iota.
  unfold Monad.tryCatch.
  rewrite (bind_throw _ _ _ _ _ _ Hp). cbn [out world events].
  unfold Monad.bind, Monad.ret. cbn [out world events].
  rewrite app_nil_r. reflexivity.
Qed.

(** Three failed attempts: the two waits, and the failure record made of the
    last message. *)
Lemma extractPRData_three_failures url w0 e1 w1 t1 e2 w2 t2 e3 w3 t3 :
  performExtraction E url w0 = mkRun (Throw e1) w1 t1 ->
  performExtraction E url (sleep E 3000 w1) = mkRun (Throw e2) w2 t2 ->
  performExtraction E url (sleep E 3000 w2) = mkRun (Throw e3) w3 t3 ->
  extractPRData E url w0 =
    mkRun (Ok (Some (failureRecord (errorMessage e3)))) w3
          (t1 ++ EvDelay 3000 :: t2 ++ EvDelay 3000 :: t3).
Proof.
  intros H1 H2 H3. unfold extractPRData, extractPRData_fuel.
  change (Z.to_nat (maxRetries + 2)) with 4%nat.
  rewrite (retryLoop_retries _ url 0 _ _ _ _ _ ltac:(bound) H1).
  change (0 + 1) with 1.
  rewrite (retryLoop_retries _ url 1 _ _ _ _ _ ltac:(bound) H2).
  change (1 + 1) with 2.
  rewrite (retryLoop_last_failure _ _ _ _ _ _ _ _ eq_refl H3).
  reflexivity.
Qed.

(** The loop always returns a record: either the failure record, or the
    result of an attempt that did not throw. *)
Lemma extractPRData_returns url w :
  exists r,
    out (extractPRData E url w) = Ok (Some r)
    /\ ((exists lastError, r = failureRecord lastError)
        \/ (exists w', out (performExtraction E url w') = Ok r)).
Proof.
  unfold extractPRData, extractPRData_fuel.
  change (Z.to_nat (maxRetries + 2)) with 4%nat.
  destruct (performExtraction E url w) as [[r1|e1] w1 t1] eqn:H1.
  { exists r1. rewrite (retryLoop_returns _ url 0 _ _ _ _ _ ltac:(bound) H1).
    split; [reflexivity|]. right. exists w. rewrite H1. reflexivity. }
  rewrite (retryLoop_retries _ url 0 _ _ _ _ _ ltac:(bound) H1).
  change (0 + 1) with 1.
  destruct (performExtraction E url (sleep E 3000 w1)) as [[r2|e2] w2 t2] eqn:H2.
  { exists r2. rewrite (retryLoop_returns _ url 1 _ _ _ _ _ ltac:(bound) H2).
    split; [reflexivity|]. right. exists (sleep E 3000 w1). rewrite H2. reflexivity. }
  rewrite (retryLoop_retries _ url 1 _ _ _ _ _ ltac:(bound) H2).
  change (1 + 1) with 2.
  destruct (performExtraction E url (sleep E 3000 w2)) as [[r3|e3] w3 t3] eqn:H3.
  { exists r3. rewrite (retryLoop_returns _ url 2 _ _ _ _ _ ltac:(bound) H3).
    split; [reflexivity|]. right. exists (sleep E 3000 w2). rewrite H3. reflexivity. }
  rewrite (retryLoop_last_failure _ _ _ _ _ _ _ _ eq_refl H3).
  exists (failureRecord (errorMessage e3)). split; [reflexivity|].
  left. exists (errorMessage e3). reflexivity.
Qed.

(** The same, with the rank of the attempt that returned and the world it
    started in: the attempts before it have thrown. *)
Lemma extractPRData_returns_at url w r :
  out (extractPRData E url w) = Ok (Some r) ->
  (exists lastError, r = failureRecord lastError)
  \/ (exists n, (n <= 2)%nat
                /\ (forall k, (k < n)%nat ->
                      exists e, out (performExtraction E url (attemptWorld E url w k))
                                = Throw e)
                /\ out (performExtraction E url (attemptWorld E url w n)) = Ok r).
Proof.
  unfold extractPRData, extractPRData_fuel.
  change (Z.to_nat (maxRetries + 2)) with 4%nat.
  destruct (performExtraction E url w) as [[r1|e1] w1 t1] eqn:H1.
  { rewrite (retryLoop_returns _ url 0 _ _ _ _ _ ltac:(bound) H1).
    cbn [out]. intros [= <-]. right. exists 0%nat. split; [lia|].
    split; [intros k Hk; lia|].
    cbn [attemptWorld]. rewrite H1. reflexivity. }
  rewrite (retryLoop_retries _ url 0 _ _ _ _ _ ltac:(bound) H1).
  change (0 + 1) with 1.
  assert (F0 : exists e, out (performExtraction E url (attemptWorld E url w 0))
                         = Throw e).
  { exists e1. cbn [attemptWorld]. rewrite H1. reflexivity. }
  destruct (performExtraction E url (sleep E 3000 w1)) as [[r2|e2] w2 t2] eqn:H2.
  { rewrite (retryLoop_returns _ url 1 _ _ _ _ _ ltac:(bound) H2).
    cbn [out]. intros [= <-]. right. exists 1%nat. split; [lia|].
    split.
    - intros k Hk. assert (k = 0%nat) as -> by lia. exact F0.
    - cbn [attemptWorld]. rewrite H1. cbn [world]. rewrite H2. reflexivity. }
  rewrite (retryLoop_retries _ url 1 _ _ _ _ _ ltac:(bound) H2).
  change (1 + 1) with 2.
  assert (F1 : exists e, out (performExtraction E url (attemptWorld E url w 1))
                         = Throw e).
  { exists e2. cbn [attemptWorld]. rewrite H1. cbn [world]. rewrite H2.
    reflexivity. }
  destruct (performExtraction E url (sleep E 3000 w2)) as [[r3|e3] w3 t3] eqn:H3.
  { rewrite (retryLoop_returns _ url 2 _ _ _ _ _ ltac:(bound) H3).
    cbn [out]. intros [= <-]. right. exists 2%nat. split; [lia|].
    split.
    - intros k Hk.
      assert (k = 0%nat \/ k = 1%nat) as [-> | ->] by lia; assumption.
    - cbn [attemptWorld]. rewrite H1. cbn [world]. rewrite H2. cbn [world].
      rewrite H3. reflexivity. }
  rewrite (retryLoop_last_failure _ _ _ _ _ _ _ _ eq_refl H3).
  cbn [out]. intros [= <-]. left. exists (errorMessage e3). reflexivity.
Qed.

End RetryFacts.

(* ================================================================== *)
(** ** The people directory *)

Section ApolloFacts.
Context {W : Type} (E : Env W).

Import ApolloService.

Lemma searchPeopleByTitle_NoThrow this company role :
  NoThrow (searchPeopleByTitle E this company role).
Proof. unfold searchPeopleByTitle. auto with nothrow. Qed.

Lemma enrichPerson_NoThrow this first last company :
  NoThrow (enrichPerson E this first last company).
Proof. unfold enrichPerson. auto with nothrow. Qed.

Lemma findExecutiveByTitle_NoThrow this company role :
  NoThrow (findExecutiveByTitle E this company role).
Proof. unfold findExecutiveByTitle. auto with nothrow. Qed.

Lemma findExecutiveContacts_NoThrow this company :
  NoThrow (findExecutiveContacts E this company).
Proof. unfold findExecutiveContacts. auto with nothrow. Qed.

(** No candidate: no enrichment, no contact. *)
Lemma findExecutiveByTitle_no_candidate this company role w :
  out (searchPeopleByTitle E this company role w) = Ok [] ->
  out (findExecutiveByTitle E this company role w) = Ok None.
Proof.
  intros Hs. unfold findExecutiveByTitle, Monad.tryCatch, Monad.bind.
  rewrite Hs. reflexivity.
Qed.

(** Candidates, and an enrichment of the first one that gives nothing. *)
Lemma findExecutiveByTitle_no_email this company role w top others :
  out (searchPeopleByTitle E this company role w) = Ok (top :: others) ->
  out (enrichPerson E this (firstName top) (lastName top) company
         (world (searchPeopleByTitle E this company role w))) = Ok None ->
  out (findExecutiveByTitle E this company role w) = Ok None.
Proof.
  intros Hs He. unfold findExecutiveByTitle, Monad.tryCatch, Monad.bind.
  rewrite Hs. cbn [out world events]. rewrite He. reflexivity.
Qed.

(** A contact comes from an enrichment, of the first candidate. *)
Lemma findExecutiveByTitle_found this company role w c :
  out (findExecutiveByTitle E this company role w) = Ok (Some c) ->
  exists top others,
    out (searchPeopleByTitle E this company role w) = Ok (top :: others)
    /\ out (enrichPerson E this (firstName top) (lastName top) company
              (world (searchPeopleByTitle E this company role w))) = Ok (Some c).
Proof.
  intros H. apply tryCatch_Ok_inv in H. destruct H as [H | (e & _ & H)].
  - apply bind_Ok_inv in H. destruct H as (l & Hs & H).
    destruct l as [|top others]; [discriminate|].
    exists top, others. split; assumption.
  - discriminate.
Qed.

Lemma enrichPerson_found this first last company w c :
  out (enrichPerson E this first last company w) = Ok (Some c) ->
  FromEnrichment E (email c).
Proof.
  intros H. apply tryCatch_Ok_inv in H. destruct H as [H | (e & _ & H)];
    [|discriminate].
  apply bind_Ok_inv in H. destruct H as (person & Hc & H).
  unfold Monad.call in Hc.
  destruct (apollo_match E (apiKey this) first last company w) as [o w'] eqn:Hm.
  cbn [out world] in Hc, H. subst o.
  destruct person as [p|]; [|discriminate].
  destruct (person_email p) as [e|] eqn:He; [|discriminate].
  destruct (Js.nonEmpty e) eqn:Hn; [|discriminate].
  cbn in H. injection H as <-. cbn [email].
  split.
  - intros ->. discriminate.
  - exists (apiKey this), first, last, company, w, p. rewrite Hm. split; [reflexivity | exact He].
Qed.

(** The CMO lookup is started in the world the CEO lookup has left; the
    calls of the first all come before the calls of the second. *)
Lemma findExecutiveContacts_sequence this company w :
  let ceoRun := findExecutiveByTitle E this company CEO w in
  let cmoRun := findExecutiveByTitle E this company CMO (world ceoRun) in
  exists ceo cmo result,
    out ceoRun = Ok ceo /\ out cmoRun = Ok cmo
    /\ ceoEmail result = emailOf ceo /\ cmoEmail result = emailOf cmo
    /\ findExecutiveContacts E this company w =
         mkRun (Ok result) (world cmoRun) (events ceoRun ++ events cmoRun).
Proof.
  intros ceoRun cmoRun.
  destruct (findExecutiveByTitle_NoThrow this company CEO w) as [ceo Hceo].
  destruct (findExecutiveByTitle_NoThrow this company CMO (world ceoRun)) as [cmo Hcmo].
  fold ceoRun in Hceo. fold cmoRun in Hcmo.
  unfold findExecutiveContacts, Monad.tryCatch, Monad.bind.
  fold ceoRun. rewrite Hceo. cbn [out world events].
  fold cmoRun. rewrite Hcmo. cbn [out world events].
  rewrite app_nil_r.
  destruct ceo as [k1|], cmo as [k2|];
    eexists _, _, _; (split; [reflexivity|]); (split; [reflexivity|]);
    (split; [|split; [|reflexivity]]); reflexivity.
Qed.

End ApolloFacts.

(* ================================================================== *)
(** ** Content acquisition *)

Section AcquireFacts.
Context {W : Type} (E : Env W).

Import PRExtractor.

Lemma nonEmpty_true_iff (s : string) : Js.nonEmpty s = true <-> s <> "".
Proof. destruct s; simpl; split; congruence. Qed.

Lemma trimEnd_keeps_head c s :
  Js.isSpace c = false -> Js.trimEnd (String c s) <> "".
Proof.
  intros Hc. cbn [Js.trimEnd]. destruct (Js.trimEnd s).
  - rewrite Hc. discriminate.
  - discriminate.
Qed.

(** Text that starts with a visible character survives the clean-up. *)
Lemma cleaned_nonempty c s :
  Js.isSpace c = false -> Js.trim (Js.collapseSpaces (String c s)) <> "".
Proof.
  intros Hc. unfold Js.collapseSpaces, Js.trim. cbn [Js.collapseFrom].
  rewrite Hc. cbn [Js.trimStart]. rewrite Hc.
  apply trimEnd_keeps_head. exact Hc.
Qed.

Lemma contentOfHtml_nonempty page_of html content :
  contentOfHtml page_of html = Ok content -> content <> "".
Proof.
  unfold contentOfHtml.
  destruct (negb (Js.nonEmpty html) || (len html <? 100)); [discriminate|].
  match goal with |- context [if ?b then Throw _ else _] => destruct b end;
    [discriminate|].
  intros H. injection H as <-.
  apply cleaned_nonempty. reflexivity.
Qed.

Lemma businessWireContent_nonempty t : businessWireContent t <> "".
Proof. discriminate. Qed.

Lemma prNewswireContent_nonempty t : prNewswireContent t <> "".
Proof. discriminate. Qed.

Lemma genericContent_nonempty t url : genericContent t url <> "".
Proof. discriminate. Qed.

(** The fallback, when it returns, returns text. *)
Lemma tryUrlBasedExtraction_nonempty url w content :
  out (tryUrlBasedExtraction E url w) = Ok content -> content <> "".
Proof.
  unfold tryUrlBasedExtraction.
  destruct (Js.includes url "businesswire.com").
  - unfold Monad.lift, extractFromBusinessWireUrl. cbn [out].
    destruct (decodeURIComponent E _); [|discriminate].
    intros H. injection H as <-. apply businessWireContent_nonempty.
  - destruct (Js.includes url "prnewswire.com").
    + cbn. intros H. injection H as <-. apply prNewswireContent_nonempty.
    + unfold Monad.lift, extractFromGenericUrl. cbn [out].
      destruct (URL_pathname E url); [|discriminate].
      intros H. injection H as <-. apply genericContent_nonempty.
Qed.

(** What the fallback throws. *)
Lemma tryUrlBasedExtraction_throws url w e :
  out (tryUrlBasedExtraction E url w) = Throw e ->
  e = Error "URI malformed" \/ e = Error "Invalid URL".
Proof.
  unfold tryUrlBasedExtraction.
  destruct (Js.includes url "businesswire.com").
  - unfold Monad.lift, extractFromBusinessWireUrl. cbn [out].
    destruct (decodeURIComponent E _); [discriminate|].
    intros H. injection H as <-. left. reflexivity.
  - destruct (Js.includes url "prnewswire.com").
    + cbn. discriminate.
    + unfold Monad.lift, extractFromGenericUrl. cbn [out].
      destruct (URL_pathname E url); [discriminate|].
      intros H. injection H as <-. right. reflexivity.
Qed.

Lemma tryUrlBasedExtraction_silent url w :
  events (tryUrlBasedExtraction E url w) = []
  /\ world (tryUrlBasedExtraction E url w) = w.
Proof.
  unfold tryUrlBasedExtraction.
  destruct (Js.includes url "businesswire.com"); [split; reflexivity|].
  destruct (Js.includes url "prnewswire.com"); split; reflexivity.
Qed.

(** One GET per call of [fetchPRContent], whatever the answer. *)
Lemma axios_get_events url w : events (axios_get E url w) = [EvHttpGet url].
Proof.
  unfold axios_get, Monad.call. destruct (http_get E url w) as [a w'].
  reflexivity.
Qed.

Lemma fetchPRContent_events url w : events (fetchPRContent E url w) = [EvHttpGet url].
Proof.
  unfold fetchPRContent, Monad.tryCatch, Monad.bind.
  pose proof (axios_get_events url w) as Hev.
  destruct (axios_get E url w) as [[[status html]|e] w1 t1]; cbn [out world events] in *.
  - subst t1. unfold Monad.lift. cbn [out world events].
    destruct (checkStatus status); cbn [out world events].
    + destruct (contentOfHtml (cheerio_load E) html); reflexivity.
    + reflexivity.
  - subst t1. reflexivity.
Qed.

Lemma fetchPRContent_returns_text url w content :
  out (fetchPRContent E url w) = Ok content -> content <> "".
Proof.
  intros H. apply tryCatch_Ok_inv in H. destruct H as [H | (e & _ & H)];
    [|discriminate].
  apply bind_Ok_inv in H. destruct H as ([status html] & _ & H).
  apply bind_Ok_inv in H. destruct H as (_ & _ & H).
  unfold Monad.lift in H. cbn [out] in H.
  eapply contentOfHtml_nonempty. exact H.
Qed.

(** The content step 3 receives is never the empty string. *)
Lemma acquire_returns_text url w content method :
  out (acquire E url w) = Ok (content, method) -> content <> "".
Proof.
  intros H. apply tryCatch_Ok_inv in H. destruct H as [H | (e & _ & H)].
  - apply bind_Ok_inv in H. destruct H as (c & Hf & H).
    cbn in H. injection H as <- _. eapply fetchPRContent_returns_text, Hf.
  - apply bind_Ok_inv in H. destruct H as (c & Hf & H).
    cbn in H. injection H as <- _. eapply tryUrlBasedExtraction_nonempty, Hf.
Qed.

Lemma acquire_throws url w e :
  out (acquire E url w) = Throw e ->
  e = Error "URI malformed" \/ e = Error "Invalid URL".
Proof.
  intros H. apply tryCatch_Throw_inv in H. destruct H as (e0 & _ & H).
  apply bind_Throw_inv in H. destruct H as [H | (c & _ & H)].
  - eapply tryUrlBasedExtraction_throws, H.
  - discriminate.
Qed.

Lemma acquire_events url w : events (acquire E url w) = [EvHttpGet url].
Proof.
  unfold acquire, Monad.tryCatch.
  pose proof (fetchPRContent_events url w) as Hev.
  unfold Monad.bind.
  destruct (fetchPRContent E url w) as [[c|e] w1 t1]; cbn [out world events] in *.
  - subst t1. reflexivity.
  - subst t1.
    destruct (tryUrlBasedExtraction_silent url w1) as [Hev _].
    destruct (out (tryUrlBasedExtraction E url w1)); cbn [out world events];
      rewrite Hev; reflexivity.
Qed.

End AcquireFacts.

(* ================================================================== *)
(** ** One attempt *)

Section AttemptFacts.
Context {W : Type} (E : Env W).

Import PRExtractor.

Lemma andThen_Ok_inv {A B} (o : outcome A) (k : A -> outcome B) b :
  andThen o k = Ok b -> exists a, o = Ok a /\ k a = Ok b.
Proof. destruct o as [a|e]; simpl; [eauto | discriminate]. Qed.

Lemma sanitize_inv extracted x :
  sanitize E extracted = Ok x ->
  exists name class conf,
    JsValue.getProp extracted "companyName" = Ok name
    /\ JsValue.getProp extracted "classification" = Ok class
    /\ JsValue.getProp extracted "confidence" = Ok conf
    /\ x_companyName x = JsValue.orElse name (JStr "NOT FOUND")
    /\ x_classification x = JsValue.orElse class (JStr "Other")
    /\ x_confidence x = JsValue.numberOrZero (JsValue.toNumber (textToNumber E) conf).
Proof.
  unfold sanitize. intros H.
  apply andThen_Ok_inv in H. destruct H as (name & Hn & H).
  apply andThen_Ok_inv in H. destruct H as (lead & _ & H).
  apply andThen_Ok_inv in H. destruct H as (followOn & _ & H).
  apply andThen_Ok_inv in H. destruct H as (amount & _ & H).
  apply andThen_Ok_inv in H. destruct H as (class & Hc & H).
  apply andThen_Ok_inv in H. destruct H as (scam & _ & H).
  apply andThen_Ok_inv in H. destruct H as (conf & Hf & H).
  injection H as <-. exists name, class, conf. cbn. auto 10.
Qed.

(** A result of [extractWithClaude] is the sanitized parse of a text. *)
Lemma extractWithClaude_returns content url w x :
  out (extractWithClaude E content url w) = Ok x ->
  exists text extracted,
    JSON_parse E text = inl extracted /\ sanitize E extracted = Ok x.
Proof.
  intros H. apply tryCatch_Ok_inv in H. destruct H as [H | (e & _ & H)];
    [|discriminate].
  apply bind_Ok_inv in H. destruct H as (response & _ & H).
  apply bind_Ok_inv in H. destruct H as (text & _ & H).
  apply bind_Ok_inv in H. destruct H as (extracted & Hp & H).
  unfold Monad.lift, parseJson in Hp, H. cbn [out] in Hp, H.
  exists text, extracted. split; [|exact H].
  destruct (JSON_parse E text) as [v|m]; [|discriminate].
  injection Hp as ->. reflexivity.
Qed.

(** The text that is parsed is the one of the first block of the answer that
    the generation service gave to the prompt made of the content. *)
Lemma extractWithClaude_answer content url w x :
  out (extractWithClaude E content url w) = Ok x ->
  exists response w' text extracted,
    messages_create E (buildPrompt content url) w = (Ok response, w')
    /\ responseTextOf response = Ok text
    /\ JSON_parse E text = inl extracted
    /\ sanitize E extracted = Ok x.
Proof.
  unfold extractWithClaude, Monad.tryCatch, Monad.bind, Monad.call, Monad.lift,
    Monad.throw, parseJson.
  destruct (messages_create E (buildPrompt content url) w) as [[response|e] w1];
    cbn [out world events]; [|discriminate].
  destruct (responseTextOf response) as [text|e] eqn:Ht; cbn [out world events];
    [|discriminate].
  destruct (JSON_parse E text) as [v|m] eqn:Hj; cbn [out world events];
    [|discriminate].
  destruct (sanitize E v) as [x'|e] eqn:Hs; cbn [out world events];
    [|discriminate].
  intros [= <-]. exists response, w1, text, v.
  repeat split; reflexivity || assumption.
Qed.

Lemma extractWithClaude_throws content url w e :
  out (extractWithClaude E content url w) = Throw e ->
  exists m, e = Error ("Claude extraction failed: " ++ m).
Proof.
  intros H. apply tryCatch_Throw_inv in H. destruct H as (e0 & _ & H).
  cbn in H. injection H as <-. eexists. reflexivity.
Qed.

Lemma extractWithClaude_events content url w :
  events (extractWithClaude E content url w) = [EvGenerate].
Proof.
  unfold extractWithClaude, Monad.tryCatch, Monad.bind, Monad.call, Monad.lift,
    Monad.throw.
  destruct (messages_create E (buildPrompt content url) w) as [[response|e] w1];
    cbn [out world events]; [|reflexivity].
  destruct (responseTextOf response) as [text|e]; cbn [out world events];
    [|reflexivity].
  destruct (parseJson E text) as [v|e]; cbn [out world events]; [|reflexivity].
  destruct (sanitize E v); reflexivity.
Qed.

(** An answer that does not parse makes the stage throw. *)
Lemma extractWithClaude_parse_failure content url w text others w1 message :
  messages_create E (buildPrompt content url) w = (Ok (TextBlock text :: others), w1) ->
  JSON_parse E text = inr message ->
  out (extractWithClaude E content url w)
  = Throw (Error ("Claude extraction failed: " ++ message)).
Proof.
  intros Hc Hp.
  unfold extractWithClaude, Monad.tryCatch, Monad.bind, Monad.call, Monad.lift,
    Monad.throw, parseJson.
  rewrite Hc. cbn [out world events responseTextOf]. rewrite Hp. reflexivity.
Qed.

Lemma findExecutiveContactsWithApollo_NoThrow company :
  NoThrow (findExecutiveContactsWithApollo E company).
Proof.
  unfold findExecutiveContactsWithApollo.
  destruct (_ || _).
  - apply NoThrow_ret.
  - apply NoThrow_tryCatch. intros e. apply NoThrow_ret.
Qed.

Lemma resolveContacts_NoThrow x : NoThrow (resolveContacts E x).
Proof.
  unfold resolveContacts. destruct (_ && _).
  - apply findExecutiveContactsWithApollo_NoThrow.
  - apply NoThrow_ret.
Qed.

Local Ltac emits :=
  repeat first
    [ apply Emits_ret | apply Emits_throw | apply Emits_lift
    | apply Emits_call; split; reflexivity
    | apply Emits_bind | apply Emits_tryCatch
    | match goal with
      | |- Emits _ (match ?t with _ => _ end) => destruct t
      | |- forall _, Emits _ _ => intro
      end ].

Lemma resolveContacts_calls x : Emits StageCall (resolveContacts E x).
Proof.
  unfold resolveContacts, findExecutiveContactsWithApollo,
    ApolloService.findExecutiveContacts, ApolloService.findExecutiveByTitle,
    ApolloService.searchPeopleByTitle, ApolloService.enrichPerson.
  emits.
Qed.

(** An attempt: the mark, one GET, then calls of the later stages only. *)
Lemma performExtraction_events url w :
  exists later,
    events (performExtraction E url w) = EvAttempt url :: EvHttpGet url :: later
    /\ Forall StageCall later.
Proof.
  unfold performExtraction.
  rewrite bind_events.
  change (Monad.call (EvAttempt url) (fun w0 : W => (Ok tt, w0)) w)
    with (mkRun (W:=W) (Ok tt) w [EvAttempt url]).
  cbn [out world events app].
  rewrite bind_events, acquire_events. cbn [app].
  destruct (acquire E url w) as [[[content method]|e] w1 t1]; cbn [out world].
  2:{ exists []. split; [reflexivity | constructor]. }
  eexists. split; [reflexivity|].
  destruct (negb (Js.nonEmpty content)); [constructor|].
  rewrite bind_events, extractWithClaude_events.
  repeat constructor.
  destruct (out (extractWithClaude E content url w1)) as [x|e]; [|constructor].
  apply (Emits_bind StageCall (resolveContacts E x)
           (fun c => Monad.ret (assemble x c))).
  - apply resolveContacts_calls.
  - intros c. apply Emits_ret.
Qed.

(** A record an attempt returns is assembled from a sanitized answer and
    from what the resolver returned for it. *)
Lemma performExtraction_returns url w r :
  out (performExtraction E url w) = Ok r ->
  exists content w1 x contacts,
    out (extractWithClaude E content url w1) = Ok x
    /\ out (resolveContacts E x (world (extractWithClaude E content url w1)))
       = Ok contacts
    /\ r = assemble x contacts.
Proof.
  unfold performExtraction. intros H.
  apply bind_Ok_inv in H. destruct H as ([] & _ & H).
  apply bind_Ok_inv in H. destruct H as ([content method] & _ & H).
  cbn [world Monad.call] in H.
  destruct (negb (Js.nonEmpty content)); [discriminate|].
  apply bind_Ok_inv in H. destruct H as (x & Hx & H).
  apply bind_Ok_inv in H. destruct H as (contacts & Hc & H).
  cbn in H. injection H as <-.
  eexists content, _, x, contacts. repeat split; eassumption.
Qed.

(** The same, with the content the attempt acquired and the world the
    generation service is called in. *)
Lemma performExtraction_returns_from url w r :
  out (performExtraction E url w) = Ok r ->
  exists content method x contacts,
    out (acquire E url w) = Ok (content, method)
    /\ out (extractWithClaude E content url (world (acquire E url w))) = Ok x
    /\ r = assemble x contacts.
Proof.
  unfold performExtraction. intros H.
  apply bind_Ok_inv in H. destruct H as ([] & _ & H).
  cbn [world Monad.call] in H.
  apply bind_Ok_inv in H. destruct H as ([content method] & Ha & H).
  destruct (negb (Js.nonEmpty content)); [discriminate|].
  apply bind_Ok_inv in H. destruct H as (x & Hx & H).
  apply bind_Ok_inv in H. destruct H as (contacts & Hc & H).
  cbn in H. injection H as <-.
  exists content, method, x, contacts. repeat split; assumption.
Qed.

(** What an attempt throws: the message for empty content is not among it. *)
Lemma performExtraction_throws url w e :
  out (performExtraction E url w) = Throw e ->
  (exists m, e = Error ("Claude extraction failed: " ++ m))
  \/ e = Error "URI malformed" \/ e = Error "Invalid URL".
Proof.
  unfold performExtraction. intros H.
  apply bind_Throw_inv in H. destruct H as [H | ([] & _ & H)].
  { unfold Monad.call in H. discriminate. }
  apply bind_Throw_inv in H. destruct H as [H | ([content method] & Ha & H)].
  { right. eapply acquire_throws, H. }
  apply acquire_returns_text in Ha. apply nonEmpty_true_iff in Ha.
  rewrite Ha in H. cbn [negb] in H.
  apply bind_Throw_inv in H. destruct H as [H | (x & _ & H)].
  { left. eapply extractWithClaude_throws, H. }
  apply bind_Throw_inv in H. destruct H as [H | (c & _ & H)].
  - destruct (resolveContacts_NoThrow x
                (world (extractWithClaude E content url
                          (world (acquire E url (world (Monad.call (EvAttempt url)
                             (fun w0 => (Ok tt, w0)) w))))))) as [c Hc].
    congruence.
  - discriminate.
Qed.

End AttemptFacts.

(* ================================================================== *)
(** ** The orchestrator: claims on [extractPRData] *)

Section OrchestratorFacts.
Context {W : Type} (E : Env W).

Import PRExtractor.

Lemma failureRecord_sentinel message :
  IsTerminalSentinel (failureRecord message) message.
Proof. repeat split. Qed.

Lemma ThreeFailures_run url w0 e3 w3 t1 t2 t3 :
  ThreeFailures E url w0 e3 w3 t1 t2 t3 ->
  extractPRData E url w0 =
    mkRun (Ok (Some (failureRecord (errorMessage e3)))) w3
          (t1 ++ EvDelay 3000 :: t2 ++ EvDelay 3000 :: t3).
Proof.
  intros (e1 & w1 & e2 & w2 & H1 & H2 & H3).
  eapply extractPRData_three_failures; eassumption.
Qed.

(** The bound on the loop is not felt: more fuel gives the same run. *)
Lemma extractPRData_fuel_enough fuel url w :
  (4 <= fuel)%nat -> extractPRData_fuel E fuel url w = extractPRData E url w.
Proof.
  intros Hf.
  destruct fuel as [|[|[|[|fuel]]]]; try lia. clear Hf.
  unfold extractPRData, extractPRData_fuel.
  change (Z.to_nat (maxRetries + 2)) with 4%nat.
  assert (B0 : 0 <= maxRetries) by (unfold maxRetries; lia).
  assert (B1 : 0 + 1 <= maxRetries) by (unfold maxRetries; lia).
  assert (B2 : 1 <= maxRetries) by (unfold maxRetries; lia).
  assert (B3 : 1 + 1 <= maxRetries) by (unfold maxRetries; lia).
  assert (B4 : 2 <= maxRetries) by (unfold maxRetries; lia).
  destruct (performExtraction E url w) as [[r1|e1] w1 t1] eqn:H1.
  { rewrite !(retryLoop_returns E _ url 0 _ _ _ _ _ B0 H1). reflexivity. }
  rewrite !(retryLoop_retries E _ url 0 _ _ _ _ _ B1 H1).
  change (0 + 1) with 1.
  destruct (performExtraction E url (sleep E 3000 w1)) as [[r2|e2] w2 t2] eqn:H2.
  { rewrite !(retryLoop_returns E _ url 1 _ _ _ _ _ B2 H2). reflexivity. }
  rewrite !(retryLoop_retries E _ url 1 _ _ _ _ _ B3 H2).
  change (1 + 1) with 2.
  destruct (performExtraction E url (sleep E 3000 w2)) as [[r3|e3] w3 t3] eqn:H3.
  { rewrite !(retryLoop_returns E _ url 2 _ _ _ _ _ B4 H3). reflexivity. }
  rewrite !(retryLoop_last_failure E _ url 2 _ _ _ _ _ eq_refl H3).
  reflexivity.
Qed.

Lemma StageCall_filters later :
  Forall StageCall later ->
  filter isAttempt later = [] /\ filter isDelay later = [].
Proof.
  induction 1 as [|ev l [Ha Hd] _ [IHa IHd]]; [split; reflexivity|].
  cbn [filter]. rewrite Ha, Hd. split; assumption.
Qed.

(** In the calls of one attempt: one mark, no wait. *)
Lemma attempt_calls_filters url w :
  filter isAttempt (events (performExtraction E url w)) = [EvAttempt url]
  /\ filter isDelay (events (performExtraction E url w)) = [].
Proof.
  destruct (performExtraction_events E url w) as (later & -> & Hl).
  destruct (StageCall_filters later Hl) as [Ha Hd].
  cbn [filter isAttempt isDelay]. rewrite Ha, Hd. split; reflexivity.
Qed.

(** Under [NeverJson] no attempt returns. *)
Lemma NeverJson_attempt_fails url w :
  NeverJson E -> exists e, out (performExtraction E url w) = Throw e.
Proof.
  intros HB.
  destruct (out (performExtraction E url w)) as [r|e] eqn:Hr; [|eauto].
  exfalso.
  apply performExtraction_returns in Hr.
  destruct Hr as (content & w1 & x & contacts & Hx & _ & _).
  destruct (HB (buildPrompt content url) w1) as (text & others & w' & message & Hc & Hp).
  rewrite (extractWithClaude_parse_failure E _ _ _ _ _ _ _ Hc Hp) in Hx.
  discriminate.
Qed.

Lemma NeverJson_three_failures url w0 :
  NeverJson E -> exists e3 w3 t1 t2 t3, ThreeFailures E url w0 e3 w3 t1 t2 t3.
Proof.
  intros HB. unfold ThreeFailures.
  destruct (NeverJson_attempt_fails url w0 HB) as [e1 H1].
  destruct (performExtraction E url w0) as [o1 w1 t1] eqn:R1.
  cbn [out] in H1. subst o1.
  destruct (NeverJson_attempt_fails url (sleep E 3000 w1) HB) as [e2 H2].
  destruct (performExtraction E url (sleep E 3000 w1)) as [o2 w2 t2] eqn:R2.
  cbn [out] in H2. subst o2.
  destruct (NeverJson_attempt_fails url (sleep E 3000 w2) HB) as [e3 H3].
  destruct (performExtraction E url (sleep E 3000 w2)) as [o3 w3 t3] eqn:R3.
  cbn [out] in H3. subst o3.
  exists e3, w3, t1, t2, t3, e1, w1, e2, w2. rewrite R3. auto.
Qed.

(** The calls of a run of three failed attempts, counted. *)
Lemma ThreeFailures_counts url w0 e3 w3 t1 t2 t3 :
  ThreeFailures E url w0 e3 w3 t1 t2 t3 ->
  let calls := (t1 ++ EvDelay 3000 :: t2 ++ EvDelay 3000 :: t3)%list in
  attemptsIn calls = 3%nat
  /\ delaysIn calls = [EvDelay 3000; EvDelay 3000]
  /\ (forall t, In t [t1; t2; t3] ->
        exists later,
          t = EvAttempt url :: EvHttpGet url :: later /\ Forall StageCall later).
Proof.
  intros (e1 & w1 & e2 & w2 & H1 & H2 & H3) calls.
  pose proof (attempt_calls_filters url w0) as F1.
  pose proof (attempt_calls_filters url (sleep E 3000 w1)) as F2.
  pose proof (attempt_calls_filters url (sleep E 3000 w2)) as F3.
  pose proof (performExtraction_events E url w0) as S1.
  pose proof (performExtraction_events E url (sleep E 3000 w1)) as S2.
  pose proof (performExtraction_events E url (sleep E 3000 w2)) as S3.
  rewrite H1 in F1, S1. rewrite H2 in F2, S2. rewrite H3 in F3, S3.
  cbn [events] in *.
  destruct F1 as [A1 D1], F2 as [A2 D2], F3 as [A3 D3].
  unfold attemptsIn, delaysIn, calls.
  rewrite !filter_app. cbn [filter isAttempt isDelay].
  rewrite !filter_app. cbn [filter isAttempt isDelay].
  rewrite A1, A2, A3, D1, D2, D3.
  split; [reflexivity|]. split; [reflexivity|].
  intros t [<-|[<-|[<-|[]]]]; assumption.
Qed.

End OrchestratorFacts.

(** C2. [extractPRData] never ends in an exception: from every world it
    returns a record, within the bound of its loop. When its three attempts
    all fail, the record is the terminal one, with the three "EXTRACTION
    FAILED", the two "EMAIL NOT FOUND", no follow-on investor, "UNKNOWN",
    no scam flag, confidence 0, and as only error the message of the last
    attempt. *)
Theorem extractPRData_never_raises :
  forall (W : Type) (E : Env W) (url : string) (w : W),
    (exists r, out (PRExtractor.extractPRData E url w) = Ok (Some r))
    /\ (forall e3 w3 t1 t2 t3,
          ThreeFailures E url w e3 w3 t1 t2 t3 ->
          exists r,
            out (PRExtractor.extractPRData E url w) = Ok (Some r)
            /\ IsTerminalSentinel r (errorMessage e3)).
Proof.
  intros W E url w. split.
  - destruct (extractPRData_returns E url w) as (r & Hr & _). eauto.
  - intros e3 w3 t1 t2 t3 H3.
    rewrite (ThreeFailures_run E _ _ _ _ _ _ _ H3). cbn [out].
    eexists. split; [reflexivity | apply failureRecord_sentinel].
Qed.

Lemma goneAndProse_three_failures :
  ThreeFailures (Demo.env Demo.goneAndProse) Demo.acmeUrl 0
    Demo.proseError 13200 Demo.proseCalls Demo.proseCalls Demo.proseCalls.
Proof.
  exists Demo.proseError, 2400, Demo.proseError, 7800.
  repeat split; vm_compute; reflexivity.
Defined.

Lemma extractPRData_never_raises_witness :
  ThreeFailures (Demo.env Demo.goneAndProse) Demo.acmeUrl 0
    Demo.proseError 13200 Demo.proseCalls Demo.proseCalls Demo.proseCalls
  /\ exists r,
       out (PRExtractor.extractPRData (Demo.env Demo.goneAndProse) Demo.acmeUrl 0)
       = Ok (Some r)
       /\ IsTerminalSentinel r (errorMessage Demo.proseError).
Proof.
  split.
  - exact goneAndProse_three_failures.
  - exact (proj2 (extractPRData_never_raises Z (Demo.env Demo.goneAndProse)
                    Demo.acmeUrl 0)
                 Demo.proseError 13200 Demo.proseCalls Demo.proseCalls
                 Demo.proseCalls goneAndProse_three_failures).
Defined.

(** C3, as stated, fails in Scenario B: the page is gone, the generation
    service answers in prose at each attempt; the run makes three attempts
    and waits twice, not three times. *)
Lemma scenario_B_waits_twice :
  let run := PRExtractor.extractPRData (Demo.env Demo.goneAndProse) Demo.acmeUrl 0 in
  NeverJson (Demo.env Demo.goneAndProse)
  /\ attemptsIn (events run) = 3%nat
  /\ length (delaysIn (events run)) <> 3%nat.
Proof.
  cbv zeta. split; [|split].
  - intros prompt w. exists Demo.proseText, [], (w + Demo.generationTime).
    eexists. split; reflexivity.
  - vm_compute. reflexivity.
  - vm_compute. discriminate.
Qed.

(** C3, amended. When the three attempts of a run all fail, the run is made
    of exactly three attempts and exactly two waits of 3000 ms, one before
    each retry and none after the last attempt; each attempt starts again
    with the mark and the GET of content acquisition; the terminal record is
    returned. Under [NeverJson] (Scenario B) the three attempts do fail. *)
Theorem three_attempts_two_delays :
  forall (W : Type) (E : Env W) (url : string) (w0 : W),
    (forall e3 w3 t1 t2 t3,
        ThreeFailures E url w0 e3 w3 t1 t2 t3 ->
        let run := PRExtractor.extractPRData E url w0 in
        events run = (t1 ++ EvDelay 3000 :: t2 ++ EvDelay 3000 :: t3)%list
        /\ attemptsIn (events run) = 3%nat
        /\ delaysIn (events run) = [EvDelay 3000; EvDelay 3000]
        /\ (forall t, In t [t1; t2; t3] ->
              exists later,
                t = EvAttempt url :: EvHttpGet url :: later
                /\ Forall StageCall later)
        /\ world run = w3
        /\ exists r, out run = Ok (Some r)
                     /\ IsTerminalSentinel r (errorMessage e3))
    /\ (NeverJson E ->
        exists e3 w3 t1 t2 t3, ThreeFailures E url w0 e3 w3 t1 t2 t3).
Proof.
  intros W E url w0. split.
  - intros e3 w3 t1 t2 t3 H3 run. subst run.
    destruct (ThreeFailures_counts E _ _ _ _ _ _ _ H3) as (Ha & Hd & Hs).
    rewrite (ThreeFailures_run E _ _ _ _ _ _ _ H3). cbn [out world events].
    repeat (split; [assumption || reflexivity|]).
    eexists. split; [reflexivity | apply failureRecord_sentinel].
  - apply NeverJson_three_failures.
Qed.

Lemma three_attempts_two_delays_witness :
  ThreeFailures (Demo.env Demo.goneAndProse) Demo.acmeUrl 0
    Demo.proseError 13200 Demo.proseCalls Demo.proseCalls Demo.proseCalls
  /\ attemptsIn
       (events (PRExtractor.extractPRData (Demo.env Demo.goneAndProse)
                  Demo.acmeUrl 0)) = 3%nat
  /\ delaysIn
       (events (PRExtractor.extractPRData (Demo.env Demo.goneAndProse)
                  Demo.acmeUrl 0)) = [EvDelay 3000; EvDelay 3000].
Proof.
  split; [exact goneAndProse_three_failures|].
  pose proof (proj1 (three_attempts_two_delays Z (Demo.env Demo.goneAndProse)
                       Demo.acmeUrl 0)
                Demo.proseError 13200 Demo.proseCalls Demo.proseCalls
                Demo.proseCalls goneAndProse_three_failures) as H.
  cbv zeta in H. destruct H as (_ & Ha & Hd & _).
  split; [exact Ha | exact Hd].
Defined.

(* ================================================================== *)
(** ** The direct fetch: claims on [fetchPRContent] *)

Section FetchFacts.
Context {W : Type} (E : Env W).

Import PRExtractor.

(** A status below 500 that the checks refuse: the message of the check,
    thrown inside the [try], comes out of the [catch] with a prefix. *)
Lemma fetchPRContent_refused url w status data w' message :
  http_get E url w = (Response status data, w') ->
  status < 500 ->
  checkStatus status = Throw (Error message) ->
  fetchPRContent E url w =
    mkRun (Throw (Error ("Unable to access this link: " ++ message))) w'
          [EvHttpGet url].
Proof.
  intros Hg Hs Hc.
  unfold fetchPRContent, Monad.tryCatch, Monad.bind, axios_get, Monad.call,
    Monad.lift, Monad.throw.
  rewrite Hg. unfold validateStatus.
  apply Z.ltb_lt in Hs. rewrite Hs. cbn [out world events].
  rewrite Hc. reflexivity.
Qed.

(** A status of 500 or more: axios rejects, and the [catch] finds none of the
    codes and statuses it looks for. *)
Lemma fetchPRContent_server_error url w status data w' :
  http_get E url w = (Response status data, w') ->
  500 <= status ->
  fetchPRContent E url w =
    mkRun (Throw (Error ("Unable to access this link: "
                         ++ "Request failed with status code " ++ Js.ofZ status)))
          w' [EvHttpGet url].
Proof.
  intros Hg Hs.
  unfold fetchPRContent, Monad.tryCatch, Monad.bind, axios_get, Monad.call,
    Monad.lift, Monad.throw.
  rewrite Hg. unfold validateStatus.
  assert (Hf : (status <? 500) = false) by (apply Z.ltb_ge; lia).
  rewrite Hf. cbn [out world events fetchErrorOf codeIs statusIs].
  change (String.eqb "ERR_BAD_RESPONSE" "ENOTFOUND") with false.
  change (String.eqb "ERR_BAD_RESPONSE" "ECONNREFUSED") with false.
  change (String.eqb "ERR_BAD_RESPONSE" "ETIMEDOUT") with false.
  cbn iota.
  assert (H403 : (status =? 403) = false) by (apply Z.eqb_neq; lia).
  assert (H404 : (status =? 404) = false) by (apply Z.eqb_neq; lia).
  assert (H429 : (status =? 429) = false) by (apply Z.eqb_neq; lia).
  rewrite H403, H404, H429. reflexivity.
Qed.

(** What [fetchPRContent] throws is made by [fetchErrorOf], from an axios
    error that carries a status only if the status is 500 or more, or from
    an error thrown in the [try] block. *)
Lemma fetchPRContent_throws url w e :
  out (fetchPRContent E url w) = Throw e ->
  exists e0,
    e = fetchErrorOf e0
    /\ match e0 with
       | AxiosError _ (Some status) _ => 500 <= status
       | _ => True
       end.
Proof.
  intros H. apply tryCatch_Throw_inv in H. destruct H as (e0 & H0 & H).
  cbn in H. injection H as <-. exists e0. split; [reflexivity|].
  apply bind_Throw_inv in H0. destruct H0 as [H0 | ([status html] & _ & H0)].
  - unfold axios_get, Monad.call in H0.
    destruct (http_get E url w) as [[status data|code message] w1]; cbn [out] in H0.
    + destruct (validateStatus status) eqn:Hv; [discriminate|].
      injection H0 as <-. unfold validateStatus in Hv.
      apply Z.ltb_ge in Hv. exact Hv.
    + injection H0 as <-. exact I.
  - apply bind_Throw_inv in H0. destruct H0 as [H0 | ([] & _ & H0)].
    + unfold Monad.lift, checkStatus in H0. cbn [out] in H0.
      repeat match type of H0 with
             | (if ?b then _ else _) = _ => destruct b
             end; try discriminate; injection H0 as <-; exact I.
    + unfold Monad.lift, contentOfHtml in H0. cbn [out] in H0.
      repeat match type of H0 with
             | (if ?b then _ else _) = _ => destruct b
             end; try discriminate; injection H0 as <-; exact I.
Qed.

(** When the direct fetch throws, the content is the one of the fallback. *)
Lemma acquire_falls_back url w e :
  out (fetchPRContent E url w) = Throw e ->
  out (acquire E url w) =
    match out (tryUrlBasedExtraction E url (world (fetchPRContent E url w))) with
    | Ok content => Ok (content, "url_based")
    | Throw e' => Throw e'
    end.
Proof.
  intros Hf. unfold acquire, Monad.tryCatch, Monad.bind.
  destruct (fetchPRContent E url w) as [o w1 t1].
  cbn [out] in Hf. subst o. cbn [out world events].
  destruct (out (tryUrlBasedExtraction E url w1)); reflexivity.
Qed.

Lemma attempt_message_is_not_404 url w e :
  out (performExtraction E url w) = Throw e ->
  errorMessage e <> "Article not found (404)".
Proof.
  intros H. apply performExtraction_throws in H.
  destruct H as [(m & ->) | [-> | ->]]; cbn; discriminate.
Qed.

End FetchFacts.

(** C4, as stated, fails. The page is gone (404 at every GET) and the
    generation service answers as in Scenario A: the first attempt returns
    the record of Acme Inc, with no error. And when it answers in prose, so
    that the three attempts fail, the only error of the terminal record is
    the one of the generation stage, not the one of the 404. *)
Lemma gone_page_is_not_a_failure :
  (forall w, fst (http_get (Demo.env Demo.goneButExtracted) Demo.acmeUrl w)
             = Response 404 "Not Found")
  /\ (exists r,
        out (PRExtractor.extractPRData (Demo.env Demo.goneButExtracted)
               Demo.acmeUrl 0) = Ok (Some r)
        /\ companyName r = JStr "Acme Inc"
        /\ companyName r <> JStr "EXTRACTION FAILED"
        /\ extractionErrors r = []
        /\ attemptsIn (events (PRExtractor.extractPRData
                                 (Demo.env Demo.goneButExtracted)
                                 Demo.acmeUrl 0)) = 1%nat)
  /\ (forall w, fst (http_get (Demo.env Demo.goneAndProse) Demo.acmeUrl w)
                = Response 404 "Not Found")
  /\ (exists r,
        out (PRExtractor.extractPRData (Demo.env Demo.goneAndProse)
               Demo.acmeUrl 0) = Ok (Some r)
        /\ extractionErrors r <> ["Article not found (404)"]).
Proof.
  split; [reflexivity|]. split.
  - eexists. split; [vm_compute; reflexivity|].
    repeat split; try reflexivity. discriminate.
  - split; [reflexivity|].
    eexists. split; [vm_compute; reflexivity|]. discriminate.
Qed.

(** C4, amended. For a URL whose GET is always answered with 404, the direct
    fetch throws "Unable to access this link: Article not found (404)" and
    the attempt goes on with the content of the URL-based fallback. If the
    three attempts fail nonetheless, the run is made of three attempts and
    two waits of 3000 ms and returns the terminal record, whose only error is
    the message of the last attempt; that message is never "Article not
    found (404)". *)
Theorem not_found_falls_back :
  forall (W : Type) (E : Env W) (url : string),
    (forall w, exists data w', http_get E url w = (Response 404 data, w')) ->
    (forall w,
        out (PRExtractor.fetchPRContent E url w)
        = Throw (Error "Unable to access this link: Article not found (404)")
        /\ out (PRExtractor.acquire E url w)
           = match out (PRExtractor.tryUrlBasedExtraction E url
                          (world (PRExtractor.fetchPRContent E url w))) with
             | Ok content => Ok (content, "url_based")
             | Throw e => Throw e
             end)
    /\ (forall w0 e3 w3 t1 t2 t3,
          ThreeFailures E url w0 e3 w3 t1 t2 t3 ->
          let run := PRExtractor.extractPRData E url w0 in
          attemptsIn (events run) = 3%nat
          /\ delaysIn (events run) = [EvDelay 3000; EvDelay 3000]
          /\ errorMessage e3 <> "Article not found (404)"
          /\ exists r, out run = Ok (Some r)
                       /\ IsTerminalSentinel r (errorMessage e3)).
Proof.
  intros W E url H404. split.
  - intros w. destruct (H404 w) as (data & w' & Hg).
    assert (Hf : out (PRExtractor.fetchPRContent E url w)
                 = Throw (Error "Unable to access this link: Article not found (404)")).
    { rewrite (fetchPRContent_refused E url w 404 data w' "Article not found (404)" Hg);
        [reflexivity | lia | reflexivity]. }
    split; [exact Hf|]. eapply acquire_falls_back, Hf.
  - intros w0 e3 w3 t1 t2 t3 H3 run. subst run.
    destruct (ThreeFailures_counts E _ _ _ _ _ _ _ H3) as (Ha & Hd & _).
    rewrite (ThreeFailures_run E _ _ _ _ _ _ _ H3). cbn [out world events].
    split; [exact Ha|]. split; [exact Hd|]. split.
    + destruct H3 as (e1 & w1 & e2 & w2 & _ & _ & H3).
      apply (attempt_message_is_not_404 E url (sleep E 3000 w2)).
      rewrite H3. reflexivity.
    + eexists. split; [reflexivity | apply failureRecord_sentinel].
Qed.

Lemma not_found_falls_back_witness :
  (forall w, exists data w',
      http_get (Demo.env Demo.goneAndProse) Demo.acmeUrl w = (Response 404 data, w'))
  /\ ThreeFailures (Demo.env Demo.goneAndProse) Demo.acmeUrl 0
       Demo.proseError 13200 Demo.proseCalls Demo.proseCalls Demo.proseCalls
  /\ out (PRExtractor.fetchPRContent (Demo.env Demo.goneAndProse) Demo.acmeUrl 0)
     = Throw (Error "Unable to access this link: Article not found (404)")
  /\ errorMessage Demo.proseError <> "Article not found (404)".
Proof.
  assert (H404 : forall w, exists data w',
             http_get (Demo.env Demo.goneAndProse) Demo.acmeUrl w
             = (Response 404 data, w')).
  { intros w. exists "Not Found", (w + Demo.httpTime). reflexivity. }
  split; [exact H404|]. split; [exact goneAndProse_three_failures|].
  pose proof (not_found_falls_back Z (Demo.env Demo.goneAndProse) Demo.acmeUrl H404)
    as [Hfetch Hrun].
  split.
  - exact (proj1 (Hfetch 0)).
  - pose proof (Hrun 0 Demo.proseError 13200 Demo.proseCalls Demo.proseCalls
                  Demo.proseCalls goneAndProse_three_failures) as H.
    cbv zeta in H. exact (proj1 (proj2 (proj2 H))).
Defined.

Section StatusFacts.
Context {W : Type} (E : Env W).

Import PRExtractor.

(** The branch of the [catch] block for 429 is never taken. *)
Lemma fetchPRContent_never_rate_limited url w :
  out (fetchPRContent E url w) <> Throw (Error "Rate limited - too many requests").
Proof.
  intros H. apply fetchPRContent_throws in H.
  destruct H as (e0 & He & Hs).
  destruct e0 as [m|code status m|]; cbn [fetchErrorOf] in He; try discriminate.
  destruct (codeIs code "ENOTFOUND"); [discriminate|].
  destruct (codeIs code "ECONNREFUSED"); [discriminate|].
  destruct (codeIs code "ETIMEDOUT"); [discriminate|].
  destruct (statusIs status 403); [discriminate|].
  destruct (statusIs status 404); [discriminate|].
  destruct (statusIs status 429) eqn:H429; [|discriminate].
  destruct status as [k|]; [|discriminate].
  cbn [statusIs] in H429. apply Z.eqb_eq in H429. lia.
Qed.

End StatusFacts.

(** C8. What [fetchPRContent] does with the status of the answer: one GET,
    never repeated; 401 and 403 give the access-denied message, 404 the
    not-found message, every other status from 400 to 499 the message "HTTP
    <status>: Unable to access article", each behind the prefix of the
    [catch] block; a status of 500 or more is rejected by axios and thrown
    to the caller. 429 is one of the other statuses: it gives "HTTP 429:
    Unable to access article", and the message "Rate limited - too many
    requests" of the [catch] block is never thrown. *)
Theorem status_429_is_not_rate_limited :
  forall (W : Type) (E : Env W) (url : string) (w : W) status data w',
    http_get E url w = (Response status data, w') ->
    let run := PRExtractor.fetchPRContent E url w in
    events run = [EvHttpGet url]
    /\ (status = 401 \/ status = 403 ->
        out run = Throw (Error "Unable to access this link: Access denied - site requires authentication or blocks bots"))
    /\ (status = 404 ->
        out run = Throw (Error "Unable to access this link: Article not found (404)"))
    /\ (400 <= status < 500 -> status <> 401 -> status <> 403 -> status <> 404 ->
        out run = Throw (Error ("Unable to access this link: "
                                ++ "HTTP " ++ Js.ofZ status
                                ++ ": Unable to access article")))
    /\ (status = 429 ->
        out run = Throw (Error "Unable to access this link: HTTP 429: Unable to access article"))
    /\ (500 <= status ->
        out run = Throw (Error ("Unable to access this link: "
                                ++ "Request failed with status code "
                                ++ Js.ofZ status)))
    /\ out run <> Throw (Error "Rate limited - too many requests").
Proof.
  intros W E url w status data w' Hg run. subst run.
  split; [apply fetchPRContent_events|].
  split.
  { intros Hs.
    rewrite (fetchPRContent_refused E url w status data w'
               "Access denied - site requires authentication or blocks bots" Hg);
      [reflexivity | lia |].
    destruct Hs as [-> | ->]; reflexivity. }
  split.
  { intros ->.
    rewrite (fetchPRContent_refused E url w 404 data w' "Article not found (404)" Hg);
      [reflexivity | lia | reflexivity]. }
  split.
  { intros Hr H1 H3 H4.
    rewrite (fetchPRContent_refused E url w status data w'
               ("HTTP " ++ Js.ofZ status ++ ": Unable to access article") Hg);
      [reflexivity | lia |].
    unfold PRExtractor.checkStatus.
    assert (E403 : (status =? 403) = false) by (apply Z.eqb_neq; lia).
    assert (E401 : (status =? 401) = false) by (apply Z.eqb_neq; lia).
    assert (E404 : (status =? 404) = false) by (apply Z.eqb_neq; lia).
    assert (E400 : (400 <=? status) = true) by (apply Z.leb_le; lia).
    rewrite E403, E401, E404, E400. reflexivity. }
  split.
  { intros ->.
    rewrite (fetchPRContent_refused E url w 429 data w'
               "HTTP 429: Unable to access article" Hg);
      [reflexivity | lia | reflexivity]. }
  split.
  { intros Hs. rewrite (fetchPRContent_server_error E url w status data w' Hg Hs).
    reflexivity. }
  apply fetchPRContent_never_rate_limited.
Qed.

Lemma status_429_is_not_rate_limited_witness :
  http_get (Demo.env Demo.rateLimited) Demo.acmeUrl 0
  = (Response 429 "Too Many Requests", 400)
  /\ out (PRExtractor.fetchPRContent (Demo.env Demo.rateLimited) Demo.acmeUrl 0)
     = Throw (Error "Unable to access this link: HTTP 429: Unable to access article").
Proof.
  split; [reflexivity|].
  pose proof (status_429_is_not_rate_limited Z (Demo.env Demo.rateLimited)
                Demo.acmeUrl 0 429 "Too Many Requests" 400 eq_refl) as H.
  cbv zeta in H.
  exact (proj1 (proj2 (proj2 (proj2 (proj2 H)))) eq_refl).
Defined.

(* ================================================================== *)
(** ** Contact resolution: claims on the resolver *)

Section ResolverFacts.
Context {W : Type} (E : Env W).

Import PRExtractor.

Lemma searchPeopleByTitle_no_candidate this company role w :
  NoCandidate (fst (apollo_search E (ApolloService.apiKey this) company (ApolloService.titleQueries role) w)) ->
  out (ApolloService.searchPeopleByTitle E this company role w) = Ok [].
Proof.
  unfold ApolloService.searchPeopleByTitle, Monad.tryCatch, Monad.bind, Monad.call.
  destruct (apollo_search E (ApolloService.apiKey this) company (ApolloService.titleQueries role) w) as [[l|e] w1];
    cbn [fst NoCandidate out world events].
  - intros ->. reflexivity.
  - reflexivity.
Qed.

Lemma enrichPerson_no_email this first last company w :
  NoEmail (fst (apollo_match E (ApolloService.apiKey this) first last company w)) ->
  out (ApolloService.enrichPerson E this first last company w) = Ok None.
Proof.
  unfold ApolloService.enrichPerson, Monad.tryCatch, Monad.bind, Monad.call.
  destruct (apollo_match E (ApolloService.apiKey this) first last company w) as [[[p|]|e] w1];
    cbn [fst NoEmail out world events]; try reflexivity.
  destruct (person_email p) as [e|]; [|reflexivity].
  cbn [Js.optOr]. unfold Js.orElse.
  destruct (Js.nonEmpty e) eqn:Hn; [|reflexivity].
  intros ->. discriminate.
Qed.

Lemma findExecutiveContacts_emails this company w result :
  out (ApolloService.findExecutiveContacts E this company w) = Ok result ->
  (forall e, ApolloService.ceoEmail result = Some e -> FromEnrichment E e)
  /\ (forall e, ApolloService.cmoEmail result = Some e -> FromEnrichment E e).
Proof.
  destruct (findExecutiveContacts_sequence E this company w)
    as (ceo & cmo & result' & Hceo & Hcmo & Hce & Hcm & Hrun).
  rewrite Hrun. cbn [out]. intros H. injection H as <-.
  rewrite Hce, Hcm. split; intros e He.
  - destruct ceo as [k|]; [|discriminate]. injection He as <-.
    apply findExecutiveByTitle_found in Hceo.
    destruct Hceo as (top & others & _ & Hen).
    eapply enrichPerson_found, Hen.
  - destruct cmo as [k|]; [|discriminate]. injection He as <-.
    apply findExecutiveByTitle_found in Hcmo.
    destruct Hcmo as (top & others & _ & Hen).
    eapply enrichPerson_found, Hen.
Qed.

(** The run of the resolver when the constructor succeeds and the company is
    not a sentinel. *)
Lemma findExecutiveContactsWithApollo_run this company w :
  ApolloService.new E = Ok this ->
  JsValue.isString company "NOT FOUND" = false ->
  JsValue.isString company "EXTRACTION FAILED" = false ->
  exists result,
    out (ApolloService.findExecutiveContacts E this company w) = Ok result
    /\ out (findExecutiveContactsWithApollo E company w)
       = Ok {| c_ceoEmail := ApolloService.ceoEmail result;
               c_cmoEmail := ApolloService.cmoEmail result |}.
Proof.
  intros Hnew H1 H2.
  destruct (findExecutiveContacts_NoThrow E this company w) as [result Hr].
  exists result. split; [exact Hr|].
  unfold findExecutiveContactsWithApollo. rewrite H1, H2. cbn [orb].
  unfold Monad.tryCatch, Monad.bind, Monad.lift. rewrite Hnew.
  cbn [out world events]. rewrite Hr. reflexivity.
Qed.

Lemma findExecutiveContactsWithApollo_emails company w contacts :
  out (findExecutiveContactsWithApollo E company w) = Ok contacts ->
  (forall e, c_ceoEmail contacts = Some e -> FromEnrichment E e)
  /\ (forall e, c_cmoEmail contacts = Some e -> FromEnrichment E e).
Proof.
  unfold findExecutiveContactsWithApollo.
  destruct (_ || _).
  { cbn. intros H. injection H as <-. split; intros e He; discriminate. }
  intros H. apply tryCatch_Ok_inv in H. destruct H as [H | (e0 & _ & H)].
  - apply bind_Ok_inv in H. destruct H as (this & _ & H).
    apply bind_Ok_inv in H. destruct H as (result & Hr & H).
    cbn in H. injection H as <-. cbn [c_ceoEmail c_cmoEmail].
    eapply findExecutiveContacts_emails, Hr.
  - cbn in H. injection H as <-. split; intros e He; discriminate.
Qed.

Lemma resolveContacts_emails x w contacts :
  out (resolveContacts E x w) = Ok contacts ->
  (forall e, c_ceoEmail contacts = Some e -> FromEnrichment E e)
  /\ (forall e, c_cmoEmail contacts = Some e -> FromEnrichment E e).
Proof.
  unfold resolveContacts. destruct (_ && _).
  - apply findExecutiveContactsWithApollo_emails.
  - cbn. intros H. injection H as <-. split; intros e He; discriminate.
Qed.

Lemma isString_eq v s : v = JStr s -> JsValue.isString v s = true.
Proof. intros ->. cbn. apply String.eqb_refl. Qed.

(** The resolver is skipped on the two sentinels. *)
Lemma resolveContacts_skipped x w :
  x_companyName x = JStr "NOT FOUND" \/ x_companyName x = JStr "EXTRACTION FAILED" ->
  resolveContacts E x w = mkRun (Ok (mkContacts None None)) w [].
Proof.
  unfold resolveContacts, findExecutiveContactsWithApollo.
  intros [H | H]; rewrite H; reflexivity.
Qed.

(** A lookup that gave nothing leaves the sentinel in the record. *)
Lemma absent_contact_gives_sentinel this x w contacts :
  ApolloService.new E = Ok this ->
  out (resolveContacts E x w) = Ok contacts ->
  let company := x_companyName x in
  let ceoRun := ApolloService.findExecutiveByTitle E this company CEO w in
  let cmoRun := ApolloService.findExecutiveByTitle E this company CMO (world ceoRun) in
  (out ceoRun = Ok None -> ceoEmail (assemble x contacts) = "EMAIL NOT FOUND")
  /\ (out cmoRun = Ok None -> cmoEmail (assemble x contacts) = "EMAIL NOT FOUND").
Proof.
  intros Hnew Hc company ceoRun cmoRun.
  unfold resolveContacts in Hc. fold company in Hc.
  destruct (JsValue.truthy company && negb (JsValue.isString company "NOT FOUND")).
  2:{ cbn in Hc. injection Hc as <-. split; reflexivity. }
  destruct (JsValue.isString company "NOT FOUND") eqn:H1.
  { unfold findExecutiveContactsWithApollo in Hc. rewrite H1 in Hc.
    cbn in Hc. injection Hc as <-. split; reflexivity. }
  destruct (JsValue.isString company "EXTRACTION FAILED") eqn:H2.
  { unfold findExecutiveContactsWithApollo in Hc. rewrite H1, H2 in Hc.
    cbn in Hc. injection Hc as <-. split; reflexivity. }
  destruct (findExecutiveContactsWithApollo_run this company w Hnew H1 H2)
    as (result & Hr & Hrun).
  rewrite Hrun in Hc. injection Hc as <-.
  destruct (findExecutiveContacts_sequence E this company w)
    as (ceo & cmo & result' & Hceo & Hcmo & Hce & Hcm & Hseq).
  rewrite Hseq in Hr. cbn [out] in Hr. injection Hr as <-.
  cbn [assemble ceoEmail cmoEmail c_ceoEmail c_cmoEmail].
  rewrite Hce, Hcm. unfold cmoRun, ceoRun.
  split; intros Hn.
  - assert (Hnone : ceo = None) by congruence. rewrite Hnone. reflexivity.
  - assert (Hnone : cmo = None) by congruence. rewrite Hnone. reflexivity.
Qed.

Lemma latency_app duration t1 t2 :
  latency duration (t1 ++ t2) = latency duration t1 + latency duration t2.
Proof.
  induction t1 as [|ev t1 IH]; cbn [latency fold_right app].
  - reflexivity.
  - fold (latency duration (t1 ++ t2)). fold (latency duration t1).
    rewrite IH. lia.
Qed.

End ResolverFacts.

(** C5. Nothing is thrown out of contact resolution, whatever the directory,
    the enrichment and the constructor of the client do. Resolution is
    skipped, with no call and both roles absent, when the company name is
    "NOT FOUND" or "EXTRACTION FAILED". For each role, a search that gives no
    candidate, or an enrichment of the first candidate that gives no email,
    makes the lookup return nothing; and a lookup that returned nothing
    leaves "EMAIL NOT FOUND" in the field of that role in the record
    assembled for the attempt. *)
Theorem resolver_absence_law :
  forall (W : Type) (E : Env W),
    (forall company, NoThrow (PRExtractor.findExecutiveContactsWithApollo E company))
    /\ (forall x, NoThrow (PRExtractor.resolveContacts E x))
    /\ (forall x w,
          PRExtractor.x_companyName x = JStr "NOT FOUND"
          \/ PRExtractor.x_companyName x = JStr "EXTRACTION FAILED" ->
          PRExtractor.resolveContacts E x w
          = mkRun (Ok (PRExtractor.mkContacts None None)) w [])
    /\ (forall e company w,
          ApolloService.new E = Throw e ->
          out (PRExtractor.findExecutiveContactsWithApollo E company w)
          = Ok (PRExtractor.mkContacts None None))
    /\ (forall this company role w,
          NoCandidate (fst (apollo_search E (ApolloService.apiKey this) company
                              (ApolloService.titleQueries role) w)) ->
          out (ApolloService.findExecutiveByTitle E this company role w) = Ok None)
    /\ (forall this company role w top others,
          let search := ApolloService.searchPeopleByTitle E this company role w in
          out search = Ok (top :: others) ->
          NoEmail (fst (apollo_match E (ApolloService.apiKey this)
                          (ApolloService.firstName top) (ApolloService.lastName top)
                          company (world search))) ->
          out (ApolloService.findExecutiveByTitle E this company role w) = Ok None)
    /\ (forall this x w contacts,
          ApolloService.new E = Ok this ->
          out (PRExtractor.resolveContacts E x w) = Ok contacts ->
          let company := PRExtractor.x_companyName x in
          let ceoRun := ApolloService.findExecutiveByTitle E this company CEO w in
          let cmoRun :=
            ApolloService.findExecutiveByTitle E this company CMO (world ceoRun) in
          (out ceoRun = Ok None ->
           ceoEmail (PRExtractor.assemble x contacts) = "EMAIL NOT FOUND")
          /\ (out cmoRun = Ok None ->
              cmoEmail (PRExtractor.assemble x contacts) = "EMAIL NOT FOUND")).
Proof.
  intros W E.
  split; [apply findExecutiveContactsWithApollo_NoThrow|].
  split; [apply resolveContacts_NoThrow|].
  split; [apply resolveContacts_skipped|].
  split.
  { intros e company w Hnew.
    unfold PRExtractor.findExecutiveContactsWithApollo.
    destruct (_ || _); [reflexivity|].
    unfold Monad.tryCatch, Monad.bind, Monad.lift. rewrite Hnew. reflexivity. }
  split.
  { intros this company role w Hn.
    apply findExecutiveByTitle_no_candidate.
    apply searchPeopleByTitle_no_candidate, Hn. }
  split.
  { intros this company role w top others search Hs Hn.
    eapply findExecutiveByTitle_no_email; [exact Hs|].
    apply enrichPerson_no_email, Hn. }
  intros this x w contacts Hnew Hc.
  exact (absent_contact_gives_sentinel E this x w contacts Hnew Hc).
Qed.

Lemma resolver_absence_law_witness :
  NoCandidate (fst (apollo_search (Demo.env Demo.goneButExtracted)
                      (ApolloService.apiKey Demo.service) (JStr "Acme Inc")
                      (ApolloService.titleQueries CMO) 2700))
  /\ out (ApolloService.findExecutiveByTitle (Demo.env Demo.goneButExtracted)
            Demo.service (JStr "Acme Inc") CMO 2700) = Ok None.
Proof.
  assert (Hn : NoCandidate (fst (apollo_search (Demo.env Demo.goneButExtracted)
                      (ApolloService.apiKey Demo.service) (JStr "Acme Inc")
                      (ApolloService.titleQueries CMO) 2700))) by reflexivity.
  split; [exact Hn|].
  exact (proj1 (proj2 (proj2 (proj2 (proj2
           (resolver_absence_law Z (Demo.env Demo.goneButExtracted))))))
         Demo.service (JStr "Acme Inc") CMO 2700 Hn).
Defined.

(** C7, as stated, fails. The directory knows a CEO and a CMO, and each of
    its answers takes 150 ms of the clock. The CEO lookup takes 300 ms, the
    CMO lookup takes 300 ms and is started at 300, when the CEO lookup is
    over; the two together take 600 ms, the sum, and not the 300 ms of the
    slower one. *)
Lemma resolver_latency_is_a_sum :
  let E := Demo.env Demo.bothFound in
  let company := JStr "Acme Inc" in
  let ceoRun := ApolloService.findExecutiveByTitle E Demo.service company CEO 0 in
  let cmoRun :=
    ApolloService.findExecutiveByTitle E Demo.service company CMO (world ceoRun) in
  let both := ApolloService.findExecutiveContacts E Demo.service company 0 in
  world ceoRun = 300
  /\ world cmoRun - world ceoRun = 300
  /\ world both = 600
  /\ events both
     = [ EvSearch company (ApolloService.titleQueries CEO);
         EvEnrich "Ann" "Lee" company;
         EvSearch company (ApolloService.titleQueries CMO);
         EvEnrich "Bob" "Ray" company ]
  /\ ~ (world both - 0 <= Z.max (world ceoRun - 0) (world cmoRun - world ceoRun)).
Proof.
  cbv zeta. repeat split; try (vm_compute; reflexivity).
  vm_compute. intros H. apply H. reflexivity.
Qed.

(** C7, amended. Within one call of the resolver the two lookups run one
    after the other: the CMO lookup is started in the world the CEO lookup
    has left, every call of the CEO lookup is issued before every call of
    the CMO lookup, and the time of the calls of the resolver is the sum of
    the times of the two lookups. *)
Theorem lookups_run_one_after_the_other :
  forall (W : Type) (E : Env W) this company w (duration : Event -> Z),
    let ceoRun := ApolloService.findExecutiveByTitle E this company CEO w in
    let cmoRun :=
      ApolloService.findExecutiveByTitle E this company CMO (world ceoRun) in
    let both := ApolloService.findExecutiveContacts E this company w in
    events both = (events ceoRun ++ events cmoRun)%list
    /\ world both = world cmoRun
    /\ latency duration (events both)
       = latency duration (events ceoRun) + latency duration (events cmoRun).
Proof.
  intros W E this company w duration ceoRun cmoRun both.
  destruct (findExecutiveContacts_sequence E this company w)
    as (ceo & cmo & result & _ & _ & _ & _ & Hrun).
  unfold both. rewrite Hrun. cbn [events world].
  split; [reflexivity|]. split; [reflexivity|]. apply latency_app.
Qed.

(** C10. In a record returned by [extractPRData] neither email is the empty
    string: each is "EMAIL NOT FOUND", or a non-empty email that an answer
    of the enrichment endpoint carried. *)
Theorem emails_are_never_empty :
  forall (W : Type) (E : Env W) (url : string) (w : W) (r : PRData),
    out (PRExtractor.extractPRData E url w) = Ok (Some r) ->
    ceoEmail r <> "" /\ cmoEmail r <> ""
    /\ (ceoEmail r = "EMAIL NOT FOUND" \/ FromEnrichment E (ceoEmail r))
    /\ (cmoEmail r = "EMAIL NOT FOUND" \/ FromEnrichment E (cmoEmail r)).
Proof.
  intros W E url w r Hr.
  assert (Hc : ceoEmail r = "EMAIL NOT FOUND" \/ FromEnrichment E (ceoEmail r)).
  { destruct (extractPRData_returns E url w) as (r' & Hr' & Hcase).
    rewrite Hr in Hr'. injection Hr' as <-.
    destruct Hcase as [(m & ->) | (w' & Hp)]; [left; reflexivity|].
    apply performExtraction_returns in Hp.
    destruct Hp as (content & w1 & x & contacts & _ & Hres & ->).
    apply resolveContacts_emails in Hres. destruct Hres as [Hceo _].
    cbn [PRExtractor.assemble ceoEmail].
    destruct (PRExtractor.c_ceoEmail contacts) as [e|]; [|left; reflexivity].
    specialize (Hceo e eq_refl). right. cbn [Js.optOr]. unfold Js.orElse.
    destruct Hceo as [Hne Hfrom].
    apply nonEmpty_true_iff in Hne. rewrite Hne.
    split; [apply nonEmpty_true_iff, Hne | exact Hfrom]. }
  assert (Hm : cmoEmail r = "EMAIL NOT FOUND" \/ FromEnrichment E (cmoEmail r)).
  { destruct (extractPRData_returns E url w) as (r' & Hr' & Hcase).
    rewrite Hr in Hr'. injection Hr' as <-.
    destruct Hcase as [(m & ->) | (w' & Hp)]; [left; reflexivity|].
    apply performExtraction_returns in Hp.
    destruct Hp as (content & w1 & x & contacts & _ & Hres & ->).
    apply resolveContacts_emails in Hres. destruct Hres as [_ Hcmo].
    cbn [PRExtractor.assemble cmoEmail].
    destruct (PRExtractor.c_cmoEmail contacts) as [e|]; [|left; reflexivity].
    specialize (Hcmo e eq_refl). right. cbn [Js.optOr]. unfold Js.orElse.
    destruct Hcmo as [Hne Hfrom].
    apply nonEmpty_true_iff in Hne. rewrite Hne.
    split; [apply nonEmpty_true_iff, Hne | exact Hfrom]. }
  split.
  { destruct Hc as [-> | [Hne _]]; [discriminate | exact Hne]. }
  split.
  { destruct Hm as [-> | [Hne _]]; [discriminate | exact Hne]. }
  split; assumption.
Qed.

Lemma emails_are_never_empty_witness :
  out (PRExtractor.extractPRData (Demo.env Demo.goneButExtracted) Demo.acmeUrl 0)
  = Ok (Some Demo.acmeRecord)
  /\ ceoEmail Demo.acmeRecord <> "" /\ cmoEmail Demo.acmeRecord <> ""
  /\ (ceoEmail Demo.acmeRecord = "EMAIL NOT FOUND"
      \/ FromEnrichment (Demo.env Demo.goneButExtracted) (ceoEmail Demo.acmeRecord))
  /\ (cmoEmail Demo.acmeRecord = "EMAIL NOT FOUND"
      \/ FromEnrichment (Demo.env Demo.goneButExtracted) (cmoEmail Demo.acmeRecord)).
Proof.
  assert (H : out (PRExtractor.extractPRData (Demo.env Demo.goneButExtracted)
                     Demo.acmeUrl 0) = Ok (Some Demo.acmeRecord))
    by (vm_compute; reflexivity).
  split; [exact H|].
  exact (emails_are_never_empty Z (Demo.env Demo.goneButExtracted) Demo.acmeUrl 0
           Demo.acmeRecord H).
Defined.

(* ================================================================== *)
(** ** Candidates: claims on the scores and on the selection *)

Section TitleFacts.

Import ApolloService.

(** Where no synonym is the title itself, the loop gives what the
    specification says. *)
Lemma titleMatchLoop_no_exact lowerTitle targets :
  existsb (fun s => String.eqb lowerTitle (Js.toLowerCase s)) targets = false ->
  titleMatchLoop lowerTitle targets =
    if existsb (fun s => Js.includes lowerTitle (Js.toLowerCase s)) targets
    then 80 else 50.
Proof.
  induction targets as [|t rest IH]; [reflexivity|].
  cbn [existsb titleMatchLoop]. intros H.
  apply orb_false_iff in H. destruct H as [Ht Hrest].
  rewrite Ht. destruct (Js.includes lowerTitle (Js.toLowerCase t)); [reflexivity|].
  cbn [orb]. apply IH, Hrest.
Qed.

(** The code and the specification differ on one title only. *)
Lemma calculateTitleMatch_differs role personTitle :
  calculateTitleMatch personTitle (titleQueries role)
  <> Spec.titleScore personTitle (titleQueries role) ->
  role = CEO /\ Js.toLowerCase personTitle = "co-founder".
Proof.
  unfold calculateTitleMatch, Spec.titleScore.
  remember (Js.toLowerCase personTitle) as lowerTitle eqn:Hl. clear Hl.
  destruct (existsb (fun s => String.eqb lowerTitle (Js.toLowerCase s))
              (titleQueries role)) eqn:Hex.
  2:{ rewrite (titleMatchLoop_no_exact _ _ Hex). intros H. contradiction H.
      reflexivity. }
  apply existsb_exists in Hex. destruct Hex as (t & Hin & Heq).
  apply String.eqb_eq in Heq. subst lowerTitle.
  destruct role; cbn [titleQueries In] in Hin;
    repeat (destruct Hin as [<- | Hin]);
    try contradiction;
    try (intros H; contradiction H; vm_compute; reflexivity).
  intros _. split; reflexivity.
Qed.

Lemma insertSorted_head (x : ApolloContact) top rest :
  exists rest',
    insertSorted byConfidenceDesc x (top :: rest)
    = (if confidence top <=? confidence x then x else top) :: rest'.
Proof.
  cbn [insertSorted]. unfold byConfidenceDesc.
  destruct (confidence top - confidence x <=? 0) eqn:Hc.
  - apply Z.leb_le in Hc.
    assert (Hle : (confidence top <=? confidence x) = true) by (apply Z.leb_le; lia).
    rewrite Hle. eauto.
  - apply Z.leb_gt in Hc.
    assert (Hle : (confidence top <=? confidence x) = false) by (apply Z.leb_gt; lia).
    rewrite Hle. eauto.
Qed.

(** The first element after the sort is the first of the best candidates, in
    the order of the search. *)
Lemma sort_head_is_first_best (l : list ApolloContact) :
  l <> [] ->
  exists before top after rest,
    l = (before ++ top :: after)%list
    /\ sort byConfidenceDesc l = top :: rest
    /\ (forall c, In c before -> confidence c < confidence top)
    /\ (forall c, In c after -> confidence c <= confidence top).
Proof.
  induction l as [|x xs IH]; [congruence|]. intros _.
  destruct xs as [|y ys].
  { exists [], x, [], []. repeat split; intros c []. }
  destruct IH as (before & top & after & rest & Hl & Hs & Hb & Ha); [discriminate|].
  cbn [sort] in *. rewrite Hs.
  destruct (insertSorted_head x top rest) as (rest' & Hi). rewrite Hi.
  destruct (confidence top <=? confidence x) eqn:Hc.
  - apply Z.leb_le in Hc.
    exists [], x, (y :: ys), rest'. rewrite Hl.
    split; [reflexivity|]. split; [reflexivity|]. split; [intros c []|].
    intros c Hin. apply in_app_or in Hin. destruct Hin as [Hin | [<- | Hin]].
    + specialize (Hb c Hin). lia.
    + exact Hc.
    + specialize (Ha c Hin). lia.
  - apply Z.leb_gt in Hc.
    exists (x :: before), top, after, rest'. rewrite Hl.
    split; [reflexivity|]. split; [reflexivity|]. split; [|exact Ha].
    intros c [<- | Hin]; [exact Hc | apply Hb, Hin].
Qed.

End TitleFacts.

(** C6. The title "Co-Founder" is, case apart, the fourth synonym of the CEO
    role: the specification scores it 100. [calculateTitleMatch] returns at
    the first synonym the title contains, which is "Founder", and scores it
    80. It is the only title on which the two differ. So of two founders the
    directory returns, the second a "Co-Founder", the first is kept for
    enrichment. *)
Theorem co_founder_scores_80 :
  ApolloService.calculateTitleMatch "Co-Founder" (ApolloService.titleQueries CEO) = 80
  /\ Spec.titleScore "Co-Founder" (ApolloService.titleQueries CEO) = 100
  /\ (forall role personTitle,
        ApolloService.calculateTitleMatch personTitle (ApolloService.titleQueries role)
        <> Spec.titleScore personTitle (ApolloService.titleQueries role) ->
        role = CEO /\ Js.toLowerCase personTitle = "co-founder")
  /\ out (ApolloService.searchPeopleByTitle (Demo.env Demo.twoFounders)
            Demo.service (JStr "Acme Inc") CEO 0)
     = Ok [ ApolloService.toCandidate (ApolloService.titleQueries CEO) Demo.dana;
            ApolloService.toCandidate (ApolloService.titleQueries CEO) Demo.eli ]
  /\ ApolloService.confidence
       (ApolloService.toCandidate (ApolloService.titleQueries CEO) Demo.dana) = 80
  /\ ApolloService.confidence
       (ApolloService.toCandidate (ApolloService.titleQueries CEO) Demo.eli) = 80.
Proof.
  split; [vm_compute; reflexivity|].
  split; [vm_compute; reflexivity|].
  split; [apply calculateTitleMatch_differs|].
  repeat split; vm_compute; reflexivity.
Qed.

Lemma co_founder_scores_80_witness :
  ApolloService.calculateTitleMatch "Co-Founder" (ApolloService.titleQueries CEO)
  <> Spec.titleScore "Co-Founder" (ApolloService.titleQueries CEO)
  /\ CEO = CEO /\ Js.toLowerCase "Co-Founder" = "co-founder".
Proof.
  assert (H : ApolloService.calculateTitleMatch "Co-Founder"
                (ApolloService.titleQueries CEO)
              <> Spec.titleScore "Co-Founder" (ApolloService.titleQueries CEO))
    by (vm_compute; discriminate).
  split; [exact H|].
  exact (proj1 (proj2 (proj2 co_founder_scores_80)) CEO "Co-Founder" H).
Defined.

(* ================================================================== *)
(** ** The fallback and the sanitization: claims on the content and on the
       fields of the record *)

Section FallbackFacts.
Context {W : Type} (E : Env W).

Import PRExtractor.

(** The fallback returns when the address parses, unless it is a Business
    Wire address whose last segment does not decode: the two other paths do
    not decode anything. *)
Lemma tryUrlBasedExtraction_returns url w pathname :
  URL_pathname E url = Some pathname ->
  Js.includes url "businesswire.com" = false
  \/ (exists decoded,
        decodeURIComponent E (lastOrEmpty (Js.split "/" url)) = Some decoded) ->
  exists content, out (tryUrlBasedExtraction E url w) = Ok content.
Proof.
  intros Hp Hd. unfold tryUrlBasedExtraction.
  destruct (Js.includes url "businesswire.com").
  - destruct Hd as [Hd | (decoded & Hd)]; [discriminate|].
    unfold Monad.lift, extractFromBusinessWireUrl. cbn [out].
    rewrite Hd. eauto.
  - destruct (Js.includes url "prnewswire.com").
    + cbn. eauto.
    + unfold Monad.lift, extractFromGenericUrl. cbn [out].
      rewrite Hp. eauto.
Qed.

(** On a Business Wire address whose last segment does not decode, the
    exception of [decodeURIComponent] leaves the fallback, and the
    acquisition with it once the direct fetch has failed. *)
Lemma tryUrlBasedExtraction_malformed url w :
  Js.includes url "businesswire.com" = true ->
  decodeURIComponent E (lastOrEmpty (Js.split "/" url)) = None ->
  out (tryUrlBasedExtraction E url w) = Throw (Error "URI malformed").
Proof.
  intros Hb Hd. unfold tryUrlBasedExtraction. rewrite Hb.
  unfold Monad.lift, extractFromBusinessWireUrl. cbn [out].
  rewrite Hd. reflexivity.
Qed.

Lemma acquire_malformed url w e :
  out (fetchPRContent E url w) = Throw e ->
  Js.includes url "businesswire.com" = true ->
  decodeURIComponent E (lastOrEmpty (Js.split "/" url)) = None ->
  out (acquire E url w) = Throw (Error "URI malformed").
Proof.
  intros Hf Hb Hd.
  pose proof (tryUrlBasedExtraction_malformed url
                (world (fetchPRContent E url w)) Hb Hd) as Ht.
  unfold acquire, Monad.tryCatch, Monad.bind.
  rewrite Hf. cbn [out world events]. rewrite Ht. reflexivity.
Qed.

Lemma empty_content_branch_is_dead url w :
  out (performExtraction E url w)
  <> Throw (Error "Unable to access content from this URL with any method").
Proof.
  intros H. apply performExtraction_throws in H.
  destruct H as [(m & H) | [H | H]]; discriminate.
Qed.

End FallbackFacts.

(** The address below is one the [URL] constructor parses; it is a Business
    Wire address, and its last segment has a [%] that no two hexadecimal
    digits follow: [decodeURIComponent] throws, and so does the fallback,
    which returns no string. *)
Lemma stray_percent_makes_the_fallback_throw :
  URL_pathname (Demo.env Demo.offSchema) Demo.strayPercentUrl
  = Some "/news/home/20240101/en/Acme-Raises-100%-More"
  /\ out (PRExtractor.tryUrlBasedExtraction (Demo.env Demo.offSchema)
            Demo.strayPercentUrl 0)
     = Throw (Error "URI malformed")
  /\ ~ (exists content,
          out (PRExtractor.tryUrlBasedExtraction (Demo.env Demo.offSchema)
                 Demo.strayPercentUrl 0) = Ok content
          /\ content <> "").
Proof.
  split; [vm_compute; reflexivity|].
  split; [vm_compute; reflexivity|].
  intros (content & H & _). vm_compute in H. discriminate.
Qed.

(** C9. The fallback has three paths. The PR Newswire one and the generic
    one decode nothing, and return a non-empty text for every address that
    the [URL] constructor parses. The Business Wire one calls
    [decodeURIComponent] on the last segment of the address outside any
    [try]: on a segment with a malformed escape the fallback throws "URI
    malformed", where the claim has it return a text. On every other address
    that parses the fallback does return, and whatever either method
    returns is not empty, so that the error "Unable to access content from
    this URL with any method" is never thrown. The address of the first part
    is a Business Wire one with a stray [%]: once its direct fetch has
    failed, each of the three attempts ends on the exception of the
    fallback, in a world whose generation service would have answered. *)
Theorem business_wire_fallback_throws_on_a_malformed_escape :
  (URL_pathname (Demo.env Demo.offSchema) Demo.strayPercentUrl
   = Some "/news/home/20240101/en/Acme-Raises-100%-More"
   /\ out (PRExtractor.tryUrlBasedExtraction (Demo.env Demo.offSchema)
             Demo.strayPercentUrl 0)
      = Throw (Error "URI malformed")
   /\ out (PRExtractor.extractPRData (Demo.env Demo.offSchema)
             Demo.strayPercentUrl 0)
      = Ok (Some (PRExtractor.failureRecord "URI malformed")))
  /\ forall (W : Type) (E : Env W) (url : string) (w : W),
      (Js.includes url "businesswire.com" = true ->
       decodeURIComponent E (PRExtractor.lastOrEmpty (Js.split "/" url)) = None ->
       out (PRExtractor.tryUrlBasedExtraction E url w) = Throw (Error "URI malformed")
       /\ forall e, out (PRExtractor.fetchPRContent E url w) = Throw e ->
                    out (PRExtractor.acquire E url w) = Throw (Error "URI malformed"))
      /\ (forall pathname,
            URL_pathname E url = Some pathname ->
            Js.includes url "businesswire.com" = false
            \/ (exists decoded,
                  decodeURIComponent E (PRExtractor.lastOrEmpty (Js.split "/" url))
                  = Some decoded) ->
            exists content,
              out (PRExtractor.tryUrlBasedExtraction E url w) = Ok content
              /\ content <> "")
      /\ (forall content,
            out (PRExtractor.tryUrlBasedExtraction E url w) = Ok content ->
            content <> "")
      /\ (forall content method,
            out (PRExtractor.acquire E url w) = Ok (content, method) ->
            content <> "")
      /\ out (PRExtractor.performExtraction E url w)
         <> Throw (Error "Unable to access content from this URL with any method").
Proof.
  split.
  { split; [vm_compute; reflexivity|].
    split; vm_compute; reflexivity. }
  intros W E url w.
  split.
  { intros Hb Hd. split.
    - apply tryUrlBasedExtraction_malformed; assumption.
    - intros e He. eapply acquire_malformed; eassumption. }
  split.
  { intros pathname Hp Hd.
    destruct (tryUrlBasedExtraction_returns E url w pathname Hp Hd)
      as (content & Hc).
    exists content. split; [exact Hc|].
    eapply tryUrlBasedExtraction_nonempty, Hc. }
  split; [apply tryUrlBasedExtraction_nonempty|].
  split; [apply acquire_returns_text|].
  apply empty_content_branch_is_dead.
Qed.

Lemma business_wire_fallback_throws_on_a_malformed_escape_witness :
  (Js.includes Demo.strayPercentUrl "businesswire.com" = true
   /\ decodeURIComponent (Demo.env Demo.offSchema)
        (PRExtractor.lastOrEmpty (Js.split "/" Demo.strayPercentUrl)) = None
   /\ out (PRExtractor.tryUrlBasedExtraction (Demo.env Demo.offSchema)
             Demo.strayPercentUrl 0)
      = Throw (Error "URI malformed"))
  /\ (URL_pathname (Demo.env Demo.offSchema)
        "https://www.prnewswire.com/news-releases/acme-raises-100%-more"
      = Some "/news-releases/acme-raises-100%-more"
      /\ Js.includes "https://www.prnewswire.com/news-releases/acme-raises-100%-more"
           "businesswire.com" = false
      /\ exists content,
           out (PRExtractor.tryUrlBasedExtraction (Demo.env Demo.offSchema)
                  "https://www.prnewswire.com/news-releases/acme-raises-100%-more" 0)
           = Ok content
           /\ content <> "").
Proof.
  assert (Hb : Js.includes Demo.strayPercentUrl "businesswire.com" = true)
    by (vm_compute; reflexivity).
  assert (Hd : decodeURIComponent (Demo.env Demo.offSchema)
                 (PRExtractor.lastOrEmpty (Js.split "/" Demo.strayPercentUrl)) = None)
    by (vm_compute; reflexivity).
  assert (Hp : URL_pathname (Demo.env Demo.offSchema)
                 "https://www.prnewswire.com/news-releases/acme-raises-100%-more"
               = Some "/news-releases/acme-raises-100%-more")
    by (vm_compute; reflexivity).
  assert (Hn : Js.includes
                 "https://www.prnewswire.com/news-releases/acme-raises-100%-more"
                 "businesswire.com" = false)
    by (vm_compute; reflexivity).
  split.
  - split; [exact Hb|]. split; [exact Hd|].
    exact (proj1 (proj1 (proj2 business_wire_fallback_throws_on_a_malformed_escape
                           Z (Demo.env Demo.offSchema) Demo.strayPercentUrl 0)
                    Hb Hd)).
  - split; [exact Hp|]. split; [exact Hn|].
    exact (proj1 (proj2 (proj2 business_wire_fallback_throws_on_a_malformed_escape
                           Z (Demo.env Demo.offSchema)
                           "https://www.prnewswire.com/news-releases/acme-raises-100%-more"
                           0))
             "/news-releases/acme-raises-100%-more" Hp (or_introl Hn)).
Defined.

Section SanitizeFacts.
Context {W : Type} (E : Env W).

Import PRExtractor.

Lemma closedEnum_truthy class :
  InClosedEnum class -> JsValue.orElse class (JStr "Other") = class.
Proof.
  intros (s & -> & Hin). unfold JsValue.orElse. cbn [JsValue.truthy].
  cbn [closedEnum In] in Hin.
  repeat (destruct Hin as [<- | Hin]; [reflexivity|]). contradiction.
Qed.

Lemma integer_in_range_kept z :
  0 <= z <= 100 ->
  IntegerInRange (JsValue.numberOrZero (Fin (inject_Z z))).
Proof.
  intros Hz. unfold JsValue.numberOrZero.
  destruct (JsValue.numberTruthy (Fin (inject_Z z))).
  - exists (inject_Z z), z. split; [reflexivity|]. split; [reflexivity | exact Hz].
  - exists 0%Q, 0. split; [reflexivity|]. split; [reflexivity | lia].
Qed.

End SanitizeFacts.

(** C1, as stated, fails. The generation service answers with the
    classification "Banana" and the confidence 250: the record has both, as
    they came. And the terminal record has the classification "UNKNOWN",
    which the closed enum does not list. *)
Lemma off_schema_answer_is_passed_through :
  (exists r,
      out (PRExtractor.extractPRData (Demo.env Demo.offSchema) Demo.acmeUrl 0)
      = Ok (Some r)
      /\ classification r = JStr "Banana"
      /\ confidence r = Fin 250
      /\ ~ InClosedEnum (classification r)
      /\ ~ IntegerInRange (confidence r))
  /\ (exists r,
        out (PRExtractor.extractPRData (Demo.env Demo.goneAndProse) Demo.acmeUrl 0)
        = Ok (Some r)
        /\ classification r = JStr "UNKNOWN"
        /\ ~ InClosedEnum (classification r)).
Proof.
  split.
  - eexists. split; [vm_compute; reflexivity|].
    split; [reflexivity|]. split; [reflexivity|]. split.
    + intros (s & H & Hin). cbn in H. injection H as <-.
      cbn [closedEnum In] in Hin.
      repeat (destruct Hin as [Hin | Hin]; [discriminate|]). contradiction.
    + intros (q & z & H & Hq & Hz). cbn in H. injection H as <-.
      unfold Qeq in Hq. cbn in Hq. lia.
  - eexists. split; [vm_compute; reflexivity|].
    split; [reflexivity|].
    intros (s & H & Hin). cbn in H. injection H as <-.
    cbn [closedEnum In] in Hin.
    repeat (destruct Hin as [Hin | Hin]; [discriminate|]). contradiction.
Qed.

(** C1, amended. A record returned by [extractPRData] is the terminal one,
    with the classification "UNKNOWN" and the confidence 0, or it carries the
    answer of the generation service: one of the three attempts, the ones
    before it having thrown, acquired a content, the generation service
    answered the prompt made of that content,
    the text of the first block of its answer was parsed, and the
    classification of the record is the one of the parsed answer, "Other"
    standing for a missing or falsy one only, and its confidence is [Number]
    of the one of the parsed answer, 0 standing for NaN. Nothing is checked
    against the closed enum or against the range: the record has a
    classification of the enum, and an integer confidence from 0 to 100, when
    the answer of the generation service has. *)
Theorem classification_and_confidence_are_passed_through :
  forall (W : Type) (E : Env W) (url : string) (w : W) (r : PRData),
    out (PRExtractor.extractPRData E url w) = Ok (Some r) ->
    (exists lastError,
        r = PRExtractor.failureRecord lastError
        /\ classification r = JStr "UNKNOWN" /\ confidence r = Fin 0)
    \/ (exists n content method response w' text extracted class conf,
          (n <= 2)%nat
          /\ (forall k, (k < n)%nat ->
                exists e,
                  out (PRExtractor.performExtraction E url (attemptWorld E url w k))
                  = Throw e)
          /\ out (PRExtractor.acquire E url (attemptWorld E url w n))
             = Ok (content, method)
          /\ messages_create E (PRExtractor.buildPrompt content url)
               (world (PRExtractor.acquire E url (attemptWorld E url w n)))
             = (Ok response, w')
          /\ PRExtractor.responseTextOf response = Ok text
          /\ JSON_parse E text = inl extracted
          /\ JsValue.getProp extracted "classification" = Ok class
          /\ JsValue.getProp extracted "confidence" = Ok conf
          /\ classification r = JsValue.orElse class (JStr "Other")
          /\ confidence r
             = JsValue.numberOrZero (JsValue.toNumber (textToNumber E) conf)
          /\ (InClosedEnum class -> classification r = class)
          /\ (forall z, conf = JNum (Fin (inject_Z z)) -> 0 <= z <= 100 ->
              IntegerInRange (confidence r))).
Proof.
  intros W E url w r Hr.
  apply extractPRData_returns_at in Hr.
  destruct Hr as [(m & ->) | (n & Hn & Hk & Hp)].
  { left. exists m. repeat split. }
  right.
  apply performExtraction_returns_from in Hp.
  destruct Hp as (content & method & x & contacts & Ha & Hx & ->).
  apply extractWithClaude_answer in Hx.
  destruct Hx as (response & w' & text & extracted & Hm & Ht & Hj & Hs).
  apply sanitize_inv in Hs.
  destruct Hs as (name & class & conf & _ & Hc & Hf & _ & Hxc & Hxf).
  exists n, content, method, response, w', text, extracted, class, conf.
  cbn [PRExtractor.assemble classification confidence].
  rewrite Hxc, Hxf.
  repeat (split; [assumption || reflexivity|]).
  split.
  - apply closedEnum_truthy.
  - intros z -> Hz. cbn [JsValue.toNumber]. apply integer_in_range_kept, Hz.
Qed.

Lemma classification_and_confidence_are_passed_through_witness :
  out (PRExtractor.extractPRData (Demo.env Demo.goneButExtracted) Demo.acmeUrl 0)
  = Ok (Some Demo.acmeRecord)
  /\ ((exists lastError,
         Demo.acmeRecord = PRExtractor.failureRecord lastError
         /\ classification Demo.acmeRecord = JStr "UNKNOWN"
         /\ confidence Demo.acmeRecord = Fin 0)
      \/ (exists n content method response w' text extracted class conf,
            (n <= 2)%nat
            /\ (forall k, (k < n)%nat ->
                  exists e,
                    out (PRExtractor.performExtraction (Demo.env Demo.goneButExtracted)
                           Demo.acmeUrl
                           (attemptWorld (Demo.env Demo.goneButExtracted)
                              Demo.acmeUrl 0 k))
                    = Throw e)
            /\ out (PRExtractor.acquire (Demo.env Demo.goneButExtracted) Demo.acmeUrl
                      (attemptWorld (Demo.env Demo.goneButExtracted) Demo.acmeUrl 0 n))
               = Ok (content, method)
            /\ messages_create (Demo.env Demo.goneButExtracted)
                 (PRExtractor.buildPrompt content Demo.acmeUrl)
                 (world (PRExtractor.acquire (Demo.env Demo.goneButExtracted)
                           Demo.acmeUrl
                           (attemptWorld (Demo.env Demo.goneButExtracted)
                              Demo.acmeUrl 0 n)))
               = (Ok response, w')
            /\ PRExtractor.responseTextOf response = Ok text
            /\ JSON_parse (Demo.env Demo.goneButExtracted) text = inl extracted
            /\ JsValue.getProp extracted "classification" = Ok class
            /\ JsValue.getProp extracted "confidence" = Ok conf
            /\ classification Demo.acmeRecord = JsValue.orElse class (JStr "Other")
            /\ confidence Demo.acmeRecord
               = JsValue.numberOrZero
                   (JsValue.toNumber (textToNumber (Demo.env Demo.goneButExtracted)) conf)
            /\ (InClosedEnum class -> classification Demo.acmeRecord = class)
            /\ (forall z, conf = JNum (Fin (inject_Z z)) -> 0 <= z <= 100 ->
                IntegerInRange (confidence Demo.acmeRecord)))).
Proof.
  assert (H : out (PRExtractor.extractPRData (Demo.env Demo.goneButExtracted)
                     Demo.acmeUrl 0) = Ok (Some Demo.acmeRecord))
    by (vm_compute; reflexivity).
  split; [exact H|].
  exact (classification_and_confidence_are_passed_through Z
           (Demo.env Demo.goneButExtracted) Demo.acmeUrl 0 Demo.acmeRecord H).
Defined.

(* ================================================================== *)
(** * Further properties of the program *)

(** ** The shape of a run of [extractPRData] *)

Section RunShape.
Context {W : Type} (E : Env W).

Import PRExtractor.

Lemma retryLoop_attempt_returns fuel url attempt lastError w r :
  attempt <= maxRetries ->
  out (performExtraction E url w) = Ok r ->
  retryLoop E (S fuel) url attempt lastError w =
    mkRun (Ok (Some r)) (world (performExtraction E url w))
          (events (performExtraction E url w)).
Proof.
  intros Ha Hr.
  destruct (performExtraction E url w) as [o w1 t1] eqn:Hp.
  cbn [out world events] in *. subst o.
  apply (retryLoop_returns E fuel url attempt lastError w r w1 t1 Ha Hp).
Qed.

Lemma retryLoop_attempt_retries fuel url attempt lastError w e :
  attempt + 1 <= maxRetries ->
  out (performExtraction E url w) = Throw e ->
  retryLoop E (S fuel) url attempt lastError w =
    let next := retryLoop E fuel url (attempt + 1) (errorMessage e)
                  (sleep E 3000 (world (performExtraction E url w))) in
    mkRun (out next) (world next)
          (events (performExtraction E url w) ++ EvDelay 3000 :: events next).
Proof.
  intros Ha Hr.
  destruct (performExtraction E url w) as [o w1 t1] eqn:Hp.
  cbn [out world events] in *. subst o.
  apply (retryLoop_retries E fuel url attempt lastError w e w1 t1 Ha Hp).
Qed.

Lemma retryLoop_attempt_fails_last fuel url attempt lastError w e :
  attempt = maxRetries ->
  out (performExtraction E url w) = Throw e ->
  retryLoop E (S (S fuel)) url attempt lastError w =
    mkRun (Ok (Some (failureRecord (errorMessage e))))
          (world (performExtraction E url w))
          (events (performExtraction E url w)).
Proof.
  intros Ha Hr.
  destruct (performExtraction E url w) as [o w1 t1] eqn:Hp.
  cbn [out world events] in *. subst o.
  apply (retryLoop_last_failure E fuel url attempt lastError w e w1 t1 Ha Hp).
Qed.

(** The loop, unrolled: the record of the first attempt that returns, each
    attempt after the first being started once the wait is over in the world
    the attempt before has left, or the failure record after the third. *)
Lemma extractPRData_unrolled url w0 :
  let a1 := performExtraction E url w0 in
  let a2 := performExtraction E url (sleep E 3000 (world a1)) in
  let a3 := performExtraction E url (sleep E 3000 (world a2)) in
  extractPRData E url w0 =
    match out a1 with
    | Ok r => mkRun (Ok (Some r)) (world a1) (events a1)
    | Throw _ =>
        match out a2 with
        | Ok r =>
            mkRun (Ok (Some r)) (world a2) (events a1 ++ EvDelay 3000 :: events a2)
        | Throw _ =>
            let calls :=
              (events a1 ++ EvDelay 3000 :: events a2 ++ EvDelay 3000 :: events a3)%list in
            match out a3 with
            | Ok r => mkRun (Ok (Some r)) (world a3) calls
            | Throw e =>
                mkRun (Ok (Some (failureRecord (errorMessage e)))) (world a3) calls
            end
        end
    end.
Proof.
  intros a1 a2 a3. unfold extractPRData, extractPRData_fuel.
  change (Z.to_nat (maxRetries + 2)) with 4%nat.
  assert (B0 : 0 <= maxRetries) by (unfold maxRetries; lia).
  assert (B1 : 0 + 1 <= maxRetries) by (unfold maxRetries; lia).
  assert (B2 : 1 <= maxRetries) by (unfold maxRetries; lia).
  assert (B3 : 1 + 1 <= maxRetries) by (unfold maxRetries; lia).
  destruct (out a1) as [r1|e1] eqn:H1.
  { exact (retryLoop_attempt_returns 3 url 0 "" w0 r1 B0 H1). }
  rewrite (retryLoop_attempt_retries 3 url 0 "" w0 e1 B1 H1).
  cbv zeta. change (0 + 1) with 1. fold a1.
  destruct (out a2) as [r2|e2] eqn:H2.
  { rewrite (retryLoop_attempt_returns 2 url 1 (errorMessage e1) _ r2 B2 H2).
    reflexivity. }
  rewrite (retryLoop_attempt_retries 2 url 1 (errorMessage e1) _ e2 B3 H2).
  cbv zeta. change (1 + 1) with 2. fold a2.
  destruct (out a3) as [r3|e3] eqn:H3.
  { rewrite (retryLoop_attempt_returns 1 url 2 (errorMessage e2) _ r3
               ltac:(unfold maxRetries; lia) H3).
    reflexivity. }
  rewrite (retryLoop_attempt_fails_last 0 url 2 (errorMessage e2) _ e3 eq_refl H3).
  reflexivity.
Qed.

End RunShape.

Section CallShape.
Context {W : Type} (E : Env W).

Import PRExtractor.

Lemma findExecutiveByTitle_calls this company role w :
  LookupCalls company role
    (events (ApolloService.findExecutiveByTitle E this company role w)).
Proof.
  unfold ApolloService.findExecutiveByTitle, ApolloService.searchPeopleByTitle,
    ApolloService.enrichPerson, Monad.tryCatch, Monad.bind, Monad.call, Monad.ret.
  destruct (apollo_search E (ApolloService.apiKey this) company
              (ApolloService.titleQueries role) w) as [[people|e] w1];
    cbn [out world events app]; [|left; reflexivity].
  destruct people as [|p ps]; cbn [out world events app]; [left; reflexivity|].
  destruct (ApolloService.sort _ _) as [|top others];
    cbn [out world events app]; [left; reflexivity|].
  right. exists (ApolloService.firstName top), (ApolloService.lastName top).
  destruct (apollo_match E (ApolloService.apiKey this) (ApolloService.firstName top)
              (ApolloService.lastName top) company w1) as [[[q|]|e] w2];
    cbn [out world events app]; try reflexivity.
  destruct (person_email q) as [m|]; [|reflexivity].
  destruct (Js.nonEmpty m); reflexivity.
Qed.

Lemma tryCatch_silent_handler_events {A} (m : M W A) (a : A) w :
  (exists x, out (m w) = Ok x) ->
  events (Monad.tryCatch m (fun _ => Monad.ret a) w) = events (m w).
Proof.
  intros (x & Hx). unfold Monad.tryCatch. rewrite Hx. reflexivity.
Qed.

Lemma resolveContacts_shape x w :
  ResolverCalls (x_companyName x) (events (resolveContacts E x w)).
Proof.
  unfold resolveContacts.
  destruct (_ && _); [|left; reflexivity].
  unfold findExecutiveContactsWithApollo.
  destruct (_ || _); [left; reflexivity|].
  destruct (ApolloService.new E) as [this|e].
  2:{ left. reflexivity. }
  destruct (findExecutiveContacts_sequence E this (x_companyName x) w)
    as (ceo & cmo & result & _ & _ & _ & _ & Hrun).
  assert (Hl : Monad.lift (W:=W) (Ok this) w = mkRun (Ok this) w [])
    by reflexivity.
  rewrite tryCatch_silent_handler_events.
  - rewrite (bind_run _ _ w this w [] Hl). cbn [events app].
    rewrite (bind_run _ _ w result _ _ Hrun). cbn [events Monad.ret].
    rewrite app_nil_r. right. eexists _, _. split; [reflexivity|].
    split; apply findExecutiveByTitle_calls.
  - rewrite (bind_run _ _ w this w [] Hl). cbn [out].
    rewrite (bind_run _ _ w result _ _ Hrun). cbn [out Monad.ret]. eauto.
Qed.

Lemma performExtraction_shape url w :
  AttemptCalls url (events (performExtraction E url w)).
Proof.
  unfold performExtraction.
  rewrite bind_events.
  change (Monad.call (EvAttempt url) (fun w0 : W => (Ok tt, w0)) w)
    with (mkRun (W:=W) (Ok tt) w [EvAttempt url]).
  cbn [out world events app].
  rewrite bind_events, acquire_events. cbn [app].
  destruct (acquire E url w) as [[[content method]|e] w1 t1]; cbn [out world];
    [|left; reflexivity].
  destruct (negb (Js.nonEmpty content)); [left; reflexivity|].
  rewrite bind_events, extractWithClaude_events. cbn [app].
  destruct (extractWithClaude E content url w1) as [[x|e] w2 t2]; cbn [out world].
  2:{ right. exists JUndefined, []. split; [reflexivity | left; reflexivity]. }
  right. exists (x_companyName x). eexists. split; [reflexivity|].
  rewrite bind_events.
  destruct (resolveContacts_NoThrow E x w2) as [c Hc]. rewrite Hc.
  cbn [events Monad.ret]. rewrite app_nil_r. apply resolveContacts_shape.
Qed.

Lemma LookupCalls_counts company role calls :
  LookupCalls company role calls ->
  countCalls isSearch calls = 1%nat
  /\ (countCalls isEnrich calls <= 1)%nat
  /\ countCalls isHttpGet calls = 0%nat
  /\ countCalls isGenerate calls = 0%nat.
Proof.
  intros [-> | (f & l & ->)]; cbn; repeat split; lia.
Qed.

Lemma countCalls_app kind t1 t2 :
  countCalls kind (t1 ++ t2) = (countCalls kind t1 + countCalls kind t2)%nat.
Proof. unfold countCalls. rewrite filter_app, length_app. reflexivity. Qed.

Lemma ResolverCalls_counts company calls :
  ResolverCalls company calls ->
  (countCalls isSearch calls <= 2)%nat
  /\ (countCalls isEnrich calls <= countCalls isSearch calls)%nat
  /\ countCalls isHttpGet calls = 0%nat
  /\ countCalls isGenerate calls = 0%nat.
Proof.
  intros [-> | (t1 & t2 & -> & H1 & H2)].
  - cbn. repeat split; lia.
  - apply LookupCalls_counts in H1, H2.
    rewrite !countCalls_app. lia.
Qed.

Lemma AttemptCalls_counts url calls :
  AttemptCalls url calls ->
  countCalls isHttpGet calls = 1%nat
  /\ (countCalls isGenerate calls <= 1)%nat
  /\ (countCalls isSearch calls <= 2)%nat
  /\ (countCalls isEnrich calls <= countCalls isSearch calls)%nat.
Proof.
  intros [-> | (c & rc & -> & Hr)].
  - cbn. repeat split; lia.
  - apply ResolverCalls_counts in Hr.
    change (EvAttempt url :: EvHttpGet url :: EvGenerate :: rc)
      with ([EvAttempt url; EvHttpGet url; EvGenerate] ++ rc)%list.
    rewrite !countCalls_app.
    change (countCalls isHttpGet [EvAttempt url; EvHttpGet url; EvGenerate]) with 1%nat.
    change (countCalls isGenerate [EvAttempt url; EvHttpGet url; EvGenerate]) with 1%nat.
    change (countCalls isSearch [EvAttempt url; EvHttpGet url; EvGenerate]) with 0%nat.
    change (countCalls isEnrich [EvAttempt url; EvHttpGet url; EvGenerate]) with 0%nat.
    lia.
Qed.

End CallShape.


(** X2. An attempt issues its calls in a fixed order: one GET, then one
    generation call unless the acquisition threw, then for the CEO and then
    for the CMO one search followed by the enrichment of one candidate at
    most. So an attempt makes exactly one GET, at most one generation call,
    at most two searches, and never more enrichments than searches. *)
Theorem attempt_call_budget :
  forall (W : Type) (E : Env W) (url : string) (w : W),
    let calls := events (PRExtractor.performExtraction E url w) in
    AttemptCalls url calls
    /\ countCalls isHttpGet calls = 1%nat
    /\ (countCalls isGenerate calls <= 1)%nat
    /\ (countCalls isSearch calls <= 2)%nat
    /\ (countCalls isEnrich calls <= countCalls isSearch calls)%nat.
Proof.
  intros W E url w calls.
  pose proof (performExtraction_shape E url w) as H. fold calls in H.
  split; [exact H|]. apply (AttemptCalls_counts url), H.
Qed.

(** X3. The list of errors of a returned record tells how the run ended: it
    is empty exactly for a record that an attempt returned, and for the
    failure record it holds one message, which is the one of the generation
    stage or of the URL-based fallback ("URI malformed", "Invalid URL");
    nothing the direct fetch throws is ever reported. *)
Theorem errors_tell_how_the_run_ended :
  forall (W : Type) (E : Env W) (url : string) (w : W) (r : PRData),
    out (PRExtractor.extractPRData E url w) = Ok (Some r) ->
    (extractionErrors r = []
     /\ exists w', out (PRExtractor.performExtraction E url w') = Ok r)
    \/ (exists message,
          r = PRExtractor.failureRecord message
          /\ extractionErrors r = [message]
          /\ AttemptFailureMessage message).
Proof.
  intros W E url w r Hr.
  rewrite (extractPRData_unrolled E url w) in Hr. cbv zeta in Hr.
  set (a1 := PRExtractor.performExtraction E url w) in *.
  set (a2 := PRExtractor.performExtraction E url (sleep E 3000 (world a1))) in *.
  set (a3 := PRExtractor.performExtraction E url (sleep E 3000 (world a2))) in *.
  assert (Hok : forall w' r', out (PRExtractor.performExtraction E url w') = Ok r' ->
                extractionErrors r' = []).
  { intros w' r' H. apply performExtraction_returns in H.
    destruct H as (? & ? & ? & ? & _ & _ & ->). reflexivity. }
  destruct (out a1) as [r1|e1] eqn:H1.
  { cbn in Hr. injection Hr as <-. left. split; [eapply Hok, H1 | eauto]. }
  destruct (out a2) as [r2|e2] eqn:H2.
  { cbn in Hr. injection Hr as <-. left. split; [eapply Hok, H2 | eauto]. }
  destruct (out a3) as [r3|e3] eqn:H3.
  { cbn in Hr. injection Hr as <-. left. split; [eapply Hok, H3 | eauto]. }
  cbn in Hr. injection Hr as <-. right.
  exists (errorMessage e3). split; [reflexivity|]. split; [reflexivity|].
  apply performExtraction_throws in H3.
  destruct H3 as [(m & ->) | [-> | ->]].
  - left. exists m. reflexivity.
  - right. left. reflexivity.
  - right. right. reflexivity.
Qed.

Lemma errors_tell_how_the_run_ended_witness :
  out (PRExtractor.extractPRData (Demo.env Demo.goneAndProse) Demo.acmeUrl 0)
  = Ok (Some (PRExtractor.failureRecord (errorMessage Demo.proseError)))
  /\ ((extractionErrors (PRExtractor.failureRecord (errorMessage Demo.proseError)) = []
       /\ exists w',
            out (PRExtractor.performExtraction (Demo.env Demo.goneAndProse)
                   Demo.acmeUrl w')
            = Ok (PRExtractor.failureRecord (errorMessage Demo.proseError)))
      \/ (exists message,
            PRExtractor.failureRecord (errorMessage Demo.proseError)
            = PRExtractor.failureRecord message
            /\ extractionErrors (PRExtractor.failureRecord (errorMessage Demo.proseError))
               = [message]
            /\ AttemptFailureMessage message)).
Proof.
  assert (H : out (PRExtractor.extractPRData (Demo.env Demo.goneAndProse)
                     Demo.acmeUrl 0)
              = Ok (Some (PRExtractor.failureRecord (errorMessage Demo.proseError))))
    by (vm_compute; reflexivity).
  split; [exact H|].
  exact (errors_tell_how_the_run_ended Z (Demo.env Demo.goneAndProse) Demo.acmeUrl 0
           _ H).
Defined.

(* ================================================================== *)
(** ** The direct fetch *)

Section FetchMore.
Context {W : Type} (E : Env W).

Import PRExtractor.

Lemma fetchErrorOf_message e0 :
  (match e0 with
   | AxiosError _ (Some status) _ => 500 <= status
   | _ => True
   end) ->
  exists m,
    fetchErrorOf e0 = Error m
    /\ (In m networkMessages \/ exists detail, m = "Unable to access this link: " ++ detail).
Proof.
  intros Hs. destruct e0 as [m|code status m|]; cbn [fetchErrorOf].
  - eexists. split; [reflexivity|]. right. eauto.
  - destruct (codeIs code "ENOTFOUND").
    { eexists. split; [reflexivity|]. left. cbn. auto. }
    destruct (codeIs code "ECONNREFUSED").
    { eexists. split; [reflexivity|]. left. cbn. auto. }
    destruct (codeIs code "ETIMEDOUT").
    { eexists. split; [reflexivity|]. left. cbn. auto. }
    destruct status as [k|]; cbn [statusIs].
    + assert (H403 : (k =? 403) = false) by (apply Z.eqb_neq; lia).
      assert (H404 : (k =? 404) = false) by (apply Z.eqb_neq; lia).
      assert (H429 : (k =? 429) = false) by (apply Z.eqb_neq; lia).
      rewrite H403, H404, H429. eexists. split; [reflexivity|]. right. eauto.
    + eexists. split; [reflexivity|]. right. eauto.
  - eexists. split; [reflexivity|]. right. eauto.
Qed.

Lemma fetchPRContent_no_response url w code message w' :
  http_get E url w = (NoResponse code message, w') ->
  fetchPRContent E url w =
    mkRun (Throw (fetchErrorOf (AxiosError code None message))) w' [EvHttpGet url].
Proof.
  intros Hg.
  unfold fetchPRContent, Monad.tryCatch, Monad.bind, axios_get, Monad.call,
    Monad.throw.
  rewrite Hg. reflexivity.
Qed.

End FetchMore.

(** X4. What [fetchPRContent] throws is always an [Error] whose message is
    one of the three messages for the codes ENOTFOUND, ECONNREFUSED and
    ETIMEDOUT, or starts with "Unable to access this link: ". The codes give
    their message when no response came, in that order of precedence. The
    messages that the [catch] block has for the statuses 403, 404 and 429 are
    never thrown as such. *)
Theorem fetch_error_messages :
  forall (W : Type) (E : Env W) (url : string) (w : W),
    (forall e,
        out (PRExtractor.fetchPRContent E url w) = Throw e ->
        exists m,
          e = Error m
          /\ (In m networkMessages
              \/ exists detail, m = "Unable to access this link: " ++ detail))
    /\ (forall code message w',
          http_get E url w = (NoResponse code message, w') ->
          out (PRExtractor.fetchPRContent E url w)
          = Throw (Error
              (if PRExtractor.codeIs code "ENOTFOUND"
               then "Website not found - check if URL is correct"
               else if PRExtractor.codeIs code "ECONNREFUSED"
               then "Connection refused - website may be down"
               else if PRExtractor.codeIs code "ETIMEDOUT"
               then "Request timed out - website is too slow to respond"
               else "Unable to access this link: " ++ message)))
    /\ out (PRExtractor.fetchPRContent E url w)
       <> Throw (Error "Access forbidden - website blocks automated access")
    /\ out (PRExtractor.fetchPRContent E url w)
       <> Throw (Error "Article not found (404)").
Proof.
  intros W E url w.
  assert (Hall : forall e,
             out (PRExtractor.fetchPRContent E url w) = Throw e ->
             exists m,
               e = Error m
               /\ (In m networkMessages
                   \/ exists detail, m = "Unable to access this link: " ++ detail)).
  { intros e H. apply fetchPRContent_throws in H.
    destruct H as (e0 & -> & Hs). apply fetchErrorOf_message, Hs. }
  split; [exact Hall|]. split.
  { intros code message w' Hg.
    rewrite (fetchPRContent_no_response E url w code message w' Hg).
    cbn [out PRExtractor.fetchErrorOf PRExtractor.statusIs].
    repeat match goal with
           | |- context [if ?b then _ else _] => destruct b
           end; reflexivity. }
  split.
  - intros H. destruct (Hall _ H) as (m & Hm & [Hin | (d & Hd)]).
    + injection Hm as <-. cbn in Hin.
      repeat (destruct Hin as [Hin | Hin]; [discriminate|]). contradiction.
    + injection Hm as <-. discriminate.
  - intros H. destruct (Hall _ H) as (m & Hm & [Hin | (d & Hd)]).
    + injection Hm as <-. cbn in Hin.
      repeat (destruct Hin as [Hin | Hin]; [discriminate|]). contradiction.
    + injection Hm as <-. discriminate.
Qed.

Lemma fetch_error_messages_witness :
  http_get (Demo.env Demo.offSchema) Demo.acmeUrl 0
  = (NoResponse (Some "ENOTFOUND") "getaddrinfo ENOTFOUND", 400)
  /\ out (PRExtractor.fetchPRContent (Demo.env Demo.offSchema) Demo.acmeUrl 0)
     = Throw (Error "Website not found - check if URL is correct").
Proof.
  split; [reflexivity|].
  exact (proj1 (proj2 (fetch_error_messages Z (Demo.env Demo.offSchema)
                         Demo.acmeUrl 0))
           (Some "ENOTFOUND") "getaddrinfo ENOTFOUND" 400 eq_refl).
Defined.

Section CleanText.

Lemma singleSpaced_collapseFrom inRun s :
  singleSpaced inRun (Js.collapseFrom inRun s) = true.
Proof.
  revert inRun. induction s as [|c s IH]; intros inRun; [reflexivity|].
  cbn [Js.collapseFrom]. destruct (Js.isSpace c) eqn:Hc.
  - destruct inRun; [apply IH|].
    cbn [singleSpaced]. change (Js.isSpace " ") with true.
    cbn. apply IH.
  - cbn [singleSpaced]. rewrite Hc. apply IH.
Qed.

(** Text that follows a character is well spaced whatever stood before the
    text, once it starts with a visible character. *)
Lemma singleSpaced_weaken b s :
  singleSpaced true s = true -> singleSpaced b s = true.
Proof.
  destruct s as [|c s]; [reflexivity|]. cbn [singleSpaced].
  destruct (Js.isSpace c); [|trivial].
  rewrite andb_false_r. discriminate.
Qed.

Lemma singleSpaced_tail b c s :
  singleSpaced b (String c s) = true -> exists b', singleSpaced b' s = true.
Proof.
  cbn [singleSpaced]. destruct (Js.isSpace c); intros H.
  - apply andb_true_iff in H. destruct H as [_ H]. eauto.
  - eauto.
Qed.

Lemma singleSpaced_trimStart b s :
  singleSpaced b s = true -> singleSpaced true (Js.trimStart s) = true.
Proof.
  revert b. induction s as [|c s IH]; intros b H; [reflexivity|].
  cbn [Js.trimStart]. destruct (Js.isSpace c) eqn:Hc.
  - destruct (singleSpaced_tail b c s H) as [b' H']. eapply IH, H'.
  - cbn [singleSpaced] in *. rewrite Hc in *. exact H.
Qed.

Lemma trimEnd_visible_head c s :
  Js.isSpace c = false -> Js.trimEnd (String c s) = String c (Js.trimEnd s).
Proof.
  intros Hc. cbn [Js.trimEnd]. destruct (Js.trimEnd s); [|reflexivity].
  rewrite Hc. reflexivity.
Qed.

Lemma singleSpaced_trimEnd b s :
  singleSpaced b s = true -> singleSpaced b (Js.trimEnd s) = true.
Proof.
  revert b. induction s as [|c s IH]; intros b H; [reflexivity|].
  destruct (Js.isSpace c) eqn:Hc.
  - cbn [Js.trimEnd]. cbn [singleSpaced] in H. rewrite Hc in H.
    apply andb_true_iff in H. destruct H as [H1 H2].
    specialize (IH true H2).
    destruct (Js.trimEnd s) as [|d t]; [rewrite Hc; reflexivity|].
    cbn [singleSpaced]. rewrite Hc. rewrite H1. exact IH.
  - rewrite (trimEnd_visible_head c s Hc).
    cbn [singleSpaced] in *. rewrite Hc in *. apply IH, H.
Qed.

Lemma endsVisible_trimEnd s : endsVisible (Js.trimEnd s) = true.
Proof.
  induction s as [|c s IH]; [reflexivity|].
  cbn [Js.trimEnd]. destruct (Js.trimEnd s) as [|d t] eqn:Ht.
  - destruct (Js.isSpace c) eqn:Hc; [reflexivity|].
    cbn [endsVisible]. rewrite Hc. reflexivity.
  - change (endsVisible (String c (String d t))) with (endsVisible (String d t)).
    exact IH.
Qed.

(** The clean-up of [fetchPRContent] normalizes any text. *)
Lemma cleaned_Normalized s : Normalized (Js.trim (Js.collapseSpaces s)).
Proof.
  unfold Js.trim, Js.collapseSpaces. split.
  - apply singleSpaced_trimEnd.
    eapply singleSpaced_trimStart, singleSpaced_collapseFrom.
  - apply endsVisible_trimEnd.
Qed.

Lemma cleaned_Title rest :
  exists text,
    Js.trim (Js.collapseSpaces ("Title:" ++ rest)) = "Title:" ++ text.
Proof.
  unfold Js.trim, Js.collapseSpaces.
  cbn [append Js.collapseFrom].
  change (Js.isSpace "T") with false. change (Js.isSpace "i") with false.
  change (Js.isSpace "t") with false. change (Js.isSpace "l") with false.
  change (Js.isSpace "e") with false. change (Js.isSpace ":") with false.
  cbn iota. cbn [Js.trimStart].
  change (Js.isSpace "T") with false. cbn iota.
  rewrite !trimEnd_visible_head by reflexivity.
  eexists. reflexivity.
Qed.

End CleanText.

Section FetchSuccess.
Context {W : Type} (E : Env W).

Import PRExtractor.

Lemma firstLongText_spec page selectors :
  (firstLongText page selectors = ""
   /\ forall s, In s selectors -> len (selectText page s) <= 200)
  \/ (exists before selector after,
        selectors = (before ++ selector :: after)%list
        /\ firstLongText page selectors = selectText page selector
        /\ 200 < len (selectText page selector)
        /\ forall s, In s before -> len (selectText page s) <= 200).
Proof.
  induction selectors as [|sel rest IH]; [left; split; [reflexivity | intros ? []]|].
  cbn [firstLongText].
  destruct (Js.nonEmpty (selectText page sel) && (200 <? len (selectText page sel)))
    eqn:Hc.
  - right. exists [], sel, rest. apply andb_true_iff in Hc. destruct Hc as [_ Hc].
    apply Z.ltb_lt in Hc. split; [reflexivity|]. split; [reflexivity|].
    split; [exact Hc | intros ? []].
  - assert (Hle : len (selectText page sel) <= 200).
    { apply andb_false_iff in Hc. destruct Hc as [Hc | Hc].
      - destruct (selectText page sel); [cbn; lia | discriminate].
      - apply Z.ltb_ge in Hc. exact Hc. }
    destruct IH as [[He Hall] | (before & s & after & -> & Hs & Hl & Hb)].
    + left. split; [exact He|]. intros s [<- | Hin]; [exact Hle | apply Hall, Hin].
    + right. exists (sel :: before), s, after.
      split; [reflexivity|]. split; [exact Hs|]. split; [exact Hl|].
      intros t [<- | Hin]; [exact Hle | apply Hb, Hin].
Qed.

Lemma checkStatus_Ok status : checkStatus status = Ok tt -> status < 400.
Proof.
  unfold checkStatus.
  destruct ((status =? 403) || (status =? 401)); [discriminate|].
  destruct (status =? 404); [discriminate|].
  destruct (400 <=? status) eqn:H; [discriminate|].
  intros _. apply Z.leb_gt in H. exact H.
Qed.

End FetchSuccess.

Lemma fetchPRContent_success :
  forall (W : Type) (E : Env W) (url : string) (w : W) (content : string),
    out (PRExtractor.fetchPRContent E url w) = Ok content ->
    exists status html w' main,
      http_get E url w = (Response status html, w')
      /\ status < 400
      /\ 100 <= PRExtractor.len html
      /\ ((exists before selector after,
              PRExtractor.contentSelectors = (before ++ selector :: after)%list
              /\ main = selectText (cheerio_load E html) selector
              /\ 200 < PRExtractor.len main
              /\ forall s, In s before ->
                   PRExtractor.len (selectText (cheerio_load E html) s) <= 200)
          \/ (main = bodyText (cheerio_load E html)
              /\ 100 <= PRExtractor.len main
              /\ forall s, In s PRExtractor.contentSelectors ->
                   PRExtractor.len (selectText (cheerio_load E html) s) <= 200))
      /\ exists title description,
           content = Js.trim (Js.collapseSpaces
                       ("Title: " ++ title ++ Js.nl ++ Js.nl
                        ++ "Description: " ++ description ++ Js.nl ++ Js.nl
                        ++ "Content: " ++ main)).
Proof.
  intros W E url w content H.
  apply tryCatch_Ok_inv in H. destruct H as [H | (e & _ & H)]; [|discriminate].
  apply bind_Ok_inv in H. destruct H as ([status html] & Hget & H).
  apply bind_Ok_inv in H. destruct H as ([] & Hst & H).
  unfold PRExtractor.axios_get, Monad.call in Hget, Hst, H.
  destruct (http_get E url w) as [[status' html'|code message] w'] eqn:Hg;
    cbn [out world] in Hget, Hst, H; [|discriminate].
  destruct (PRExtractor.validateStatus status'); [|discriminate].
  injection Hget as -> ->.
  unfold Monad.lift in Hst, H. cbn [out world] in Hst, H.
  apply checkStatus_Ok in Hst.
  exists status, html, w'.
  unfold PRExtractor.contentOfHtml in H.
  destruct (negb (Js.nonEmpty html) || (PRExtractor.len html <? 100)) eqn:Hh;
    [discriminate|].
  apply orb_false_iff in Hh. destruct Hh as [_ Hh]. apply Z.ltb_ge in Hh.
  set (page := cheerio_load E html) in *.
  destruct (firstLongText_spec page PRExtractor.contentSelectors)
    as [[He Hall] | (before & sel & after & Hsplit & Hs & Hl & Hb)].
  - rewrite He in H. cbn [Js.nonEmpty negb orb] in H.
    destruct (negb (Js.nonEmpty (bodyText page)) || (PRExtractor.len (bodyText page) <? 100))
      eqn:Hb; [discriminate|].
    apply orb_false_iff in Hb. destruct Hb as [_ Hb]. apply Z.ltb_ge in Hb.
    injection H as <-.
    exists (bodyText page). repeat (split; [assumption || reflexivity|]).
    split; [right; repeat split; assumption|].
    eexists _, _. reflexivity.
  - rewrite Hs in H.
    assert (Hn : Js.nonEmpty (selectText page sel) = true).
    { destruct (selectText page sel); [cbn in Hl; lia | reflexivity]. }
    assert (H200 : (PRExtractor.len (selectText page sel) <? 200) = false)
      by (apply Z.ltb_ge; lia).
    assert (H100 : (PRExtractor.len (selectText page sel) <? 100) = false)
      by (apply Z.ltb_ge; lia).
    rewrite Hn, H200 in H. cbn [negb orb] in H. rewrite Hn, H100 in H.
    cbn [negb orb] in H. injection H as <-.
    exists (selectText page sel). repeat (split; [assumption || reflexivity|]).
    split; [left; exists before, sel, after; repeat split; assumption|].
    eexists _, _. reflexivity.
Qed.

(** X5. [fetchPRContent] returns only for an answer with a status below 400
    and a body of 100 bytes at least. The main content it keeps is the text
    of the first selector of its list that gives more than 200 bytes, and
    else the text of [body], which must have 100 bytes at least. *)
Theorem fetch_returns_only_for_real_pages :
  forall (W : Type) (E : Env W) (url : string) (w : W) (content : string),
    out (PRExtractor.fetchPRContent E url w) = Ok content ->
    exists status html w' main,
      http_get E url w = (Response status html, w')
      /\ status < 400
      /\ 100 <= PRExtractor.len html
      /\ ((exists before selector after,
              PRExtractor.contentSelectors = (before ++ selector :: after)%list
              /\ main = selectText (cheerio_load E html) selector
              /\ 200 < PRExtractor.len main
              /\ forall s, In s before ->
                   PRExtractor.len (selectText (cheerio_load E html) s) <= 200)
          \/ (main = bodyText (cheerio_load E html)
              /\ 100 <= PRExtractor.len main
              /\ forall s, In s PRExtractor.contentSelectors ->
                   PRExtractor.len (selectText (cheerio_load E html) s) <= 200))
      /\ exists title description,
           content = Js.trim (Js.collapseSpaces
                       ("Title: " ++ title ++ Js.nl ++ Js.nl
                        ++ "Description: " ++ description ++ Js.nl ++ Js.nl
                        ++ "Content: " ++ main)).
Proof. exact @fetchPRContent_success. Qed.

Lemma fetch_returns_only_for_real_pages_witness :
  out (PRExtractor.fetchPRContent Examples.served Demo.acmeUrl 0)
  = Ok Examples.servedContent
  /\ exists status html w' main,
       http_get Examples.served Demo.acmeUrl 0 = (Response status html, w')
       /\ status < 400
       /\ 100 <= PRExtractor.len html
       /\ ((exists before selector after,
               PRExtractor.contentSelectors = (before ++ selector :: after)%list
               /\ main = selectText (cheerio_load Examples.served html) selector
               /\ 200 < PRExtractor.len main
               /\ forall s, In s before ->
                    PRExtractor.len (selectText (cheerio_load Examples.served html) s)
                    <= 200)
           \/ (main = bodyText (cheerio_load Examples.served html)
               /\ 100 <= PRExtractor.len main
               /\ forall s, In s PRExtractor.contentSelectors ->
                    PRExtractor.len (selectText (cheerio_load Examples.served html) s)
                    <= 200))
       /\ exists title description,
            Examples.servedContent
            = Js.trim (Js.collapseSpaces
                        ("Title: " ++ title ++ Js.nl ++ Js.nl
                         ++ "Description: " ++ description ++ Js.nl ++ Js.nl
                         ++ "Content: " ++ main)).
Proof.
  assert (H : out (PRExtractor.fetchPRContent Examples.served Demo.acmeUrl 0)
              = Ok Examples.servedContent) by (vm_compute; reflexivity).
  split; [exact H|].
  exact (fetch_returns_only_for_real_pages Z Examples.served Demo.acmeUrl 0 _ H).
Defined.

(** X6. The content [fetchPRContent] returns starts with "Title:" and is
    normalized: no white space at its ends, and inside no white space other
    than single spaces; the line breaks of the page and the ones put
    between title, description and content are gone. *)
Theorem fetched_content_is_normalized :
  forall (W : Type) (E : Env W) (url : string) (w : W) (content : string),
    out (PRExtractor.fetchPRContent E url w) = Ok content ->
    Normalized content /\ exists text, content = "Title:" ++ text.
Proof.
  intros W E url w content H.
  destruct (fetchPRContent_success W E url w content H)
    as (status & html & w' & main & _ & _ & _ & _ & title & description & ->).
  split; [apply cleaned_Normalized|].
  apply (cleaned_Title (" " ++ title ++ Js.nl ++ Js.nl
                        ++ "Description: " ++ description ++ Js.nl ++ Js.nl
                        ++ "Content: " ++ main)).
Qed.

Lemma fetched_content_is_normalized_witness :
  out (PRExtractor.fetchPRContent Examples.served Demo.acmeUrl 0)
  = Ok Examples.servedContent
  /\ Normalized Examples.servedContent
  /\ exists text, Examples.servedContent = "Title:" ++ text.
Proof.
  assert (H : out (PRExtractor.fetchPRContent Examples.served Demo.acmeUrl 0)
              = Ok Examples.servedContent) by (vm_compute; reflexivity).
  split; [exact H|].
  exact (fetched_content_is_normalized Z Examples.served Demo.acmeUrl 0 _ H).
Defined.

(* ================================================================== *)
(** ** The answer of the generation service *)

Section AnswerShape.
Context {W : Type} (E : Env W).

Import PRExtractor.

Lemma sanitize_plain v : isPlain v = true -> sanitize E v = Ok allDefaults.
Proof. destruct v; try discriminate; reflexivity. Qed.

Lemma extractWithClaude_run content url w text others w1 v :
  messages_create E (buildPrompt content url) w = (Ok (TextBlock text :: others), w1) ->
  JSON_parse E text = inl v ->
  extractWithClaude E content url w =
    match sanitize E v with
    | Ok x => mkRun (Ok x) w1 [EvGenerate]
    | Throw e =>
        mkRun (Throw (Error ("Claude extraction failed: " ++ errorMessage e))) w1
              [EvGenerate]
    end.
Proof.
  intros Hc Hp.
  unfold extractWithClaude, Monad.tryCatch, Monad.bind, Monad.call, Monad.lift,
    Monad.throw, parseJson.
  rewrite Hc. cbn [out world events responseTextOf]. rewrite Hp.
  cbn [out world events]. destruct (sanitize E v); reflexivity.
Qed.

End AnswerShape.

(** X7. An answer of the generation service that parses to a number, a
    string, a boolean or an array is not refused: the extraction returns the
    defaults ("NOT FOUND" three times, no follow-on investor, "Other", no scam
    flag, confidence 0), and the resolver is then skipped with no call. An
    answer that parses to [null] makes the stage throw "Claude extraction
    failed: Cannot read properties of null (reading 'companyName')". *)
Theorem plain_answer_gives_the_defaults :
  forall (W : Type) (E : Env W) content url w text others w1 v,
    messages_create E (PRExtractor.buildPrompt content url) w
    = (Ok (TextBlock text :: others), w1) ->
    JSON_parse E text = inl v ->
    (isPlain v = true ->
     PRExtractor.extractWithClaude E content url w = mkRun (Ok allDefaults) w1 [EvGenerate]
     /\ PRExtractor.resolveContacts E allDefaults w1
        = mkRun (Ok (PRExtractor.mkContacts None None)) w1 [])
    /\ (v = JNull ->
        out (PRExtractor.extractWithClaude E content url w)
        = Throw (Error "Claude extraction failed: Cannot read properties of null (reading 'companyName')")).
Proof.
  intros W E content url w text others w1 v Hc Hp. split.
  - intros Hv. split.
    + rewrite (extractWithClaude_run E _ _ _ _ _ _ _ Hc Hp).
      rewrite (sanitize_plain E v Hv). reflexivity.
    + reflexivity.
  - intros ->. rewrite (extractWithClaude_run E _ _ _ _ _ _ _ Hc Hp). reflexivity.
Qed.

Lemma plain_answer_gives_the_defaults_witness :
  messages_create (Demo.env Examples.numberAnswer)
    (PRExtractor.buildPrompt "content" Demo.acmeUrl) 0
  = (Ok [TextBlock "42"], 2000)
  /\ JSON_parse (Demo.env Examples.numberAnswer) "42" = inl (JNum (Fin 42))
  /\ isPlain (JNum (Fin 42)) = true
  /\ PRExtractor.extractWithClaude (Demo.env Examples.numberAnswer)
       "content" Demo.acmeUrl 0
     = mkRun (Ok allDefaults) 2000 [EvGenerate].
Proof.
  split; [reflexivity|]. split; [reflexivity|]. split; [reflexivity|].
  exact (proj1 (proj1 (plain_answer_gives_the_defaults Z
                         (Demo.env Examples.numberAnswer) "content" Demo.acmeUrl 0
                         "42" [] 2000 (JNum (Fin 42)) eq_refl eq_refl)
                  eq_refl)).
Defined.

(* ================================================================== *)
(** ** Scores, candidates and contacts *)

Section ScoreFacts.

Lemma lowerChar_idempotent c : Js.lowerChar (Js.lowerChar c) = Js.lowerChar c.
Proof. destruct c as [[] [] [] [] [] [] [] []]; reflexivity. Qed.

Lemma toLowerCase_idempotent s : Js.toLowerCase (Js.toLowerCase s) = Js.toLowerCase s.
Proof.
  induction s as [|c s IH]; [reflexivity|].
  cbn [Js.toLowerCase]. rewrite lowerChar_idempotent, IH. reflexivity.
Qed.

Lemma titleMatchLoop_values lowerTitle targets :
  let score := ApolloService.titleMatchLoop lowerTitle targets in
  (score = 50 \/ score = 80 \/ score = 100)
  /\ (score = 50 <->
      forall t, In t targets -> Js.includes lowerTitle (Js.toLowerCase t) = false)
  /\ (score = 100 -> exists t, In t targets /\ lowerTitle = Js.toLowerCase t).
Proof.
  induction targets as [|t rest IH]; cbn [ApolloService.titleMatchLoop].
  { split; [auto|]. split; [split; [intros _ ? [] | reflexivity] | discriminate]. }
  cbv zeta in *. destruct IH as (Hv & H50 & H100).
  destruct (Js.includes lowerTitle (Js.toLowerCase t)) eqn:Hi.
  - destruct (String.eqb lowerTitle (Js.toLowerCase t)) eqn:He.
    + split; [auto|]. split.
      * split; [discriminate|]. intros H. specialize (H t (or_introl eq_refl)).
        congruence.
      * intros _. exists t. apply String.eqb_eq in He. split; [left; reflexivity | exact He].
    + split; [auto|]. split; [|discriminate].
      split; [discriminate|]. intros H. specialize (H t (or_introl eq_refl)).
      congruence.
  - split; [exact Hv|]. split.
    + rewrite H50. split.
      * intros H s [<- | Hin]; [exact Hi | apply H, Hin].
      * intros H s Hin. apply H. right. exact Hin.
    + intros H. destruct (H100 H) as (s & Hin & Hs). exists s. split; [right|]; assumption.
Qed.

End ScoreFacts.

(** X8. [calculateTitleMatch] gives 50, 80 or 100, whatever the list of
    synonyms. It gives 50 exactly when the title contains none of them, case
    apart, and 100 only when the title is one of them, case apart; and the
    case of the title does not matter. *)
Theorem title_score_meaning :
  forall (personTitle : string) (targets : list string),
    let score := ApolloService.calculateTitleMatch personTitle targets in
    (score = 50 \/ score = 80 \/ score = 100)
    /\ (score = 50 <->
        forall t, In t targets ->
          Js.includes (Js.toLowerCase personTitle) (Js.toLowerCase t) = false)
    /\ (score = 100 ->
        exists t, In t targets /\ Js.toLowerCase personTitle = Js.toLowerCase t)
    /\ ApolloService.calculateTitleMatch (Js.toLowerCase personTitle) targets = score.
Proof.
  intros personTitle targets score. subst score.
  unfold ApolloService.calculateTitleMatch.
  destruct (titleMatchLoop_values (Js.toLowerCase personTitle) targets)
    as (Hv & H50 & H100).
  split; [exact Hv|]. split; [exact H50|]. split; [exact H100|].
  rewrite toLowerCase_idempotent. reflexivity.
Qed.

Section CandidateFacts.

Lemma notBelow_trans a b c : notBelow a b -> notBelow b c -> notBelow a c.
Proof. unfold notBelow. lia. Qed.

Lemma insertSorted_perm (x : ApolloService.ApolloContact) l :
  Permutation (ApolloService.insertSorted ApolloService.byConfidenceDesc x l) (x :: l).
Proof.
  induction l as [|y ys IH]; cbn [ApolloService.insertSorted]; [reflexivity|].
  destruct (ApolloService.byConfidenceDesc x y <=? 0); [reflexivity|].
  rewrite IH. apply perm_swap.
Qed.

Lemma sort_perm (l : list ApolloService.ApolloContact) :
  Permutation (ApolloService.sort ApolloService.byConfidenceDesc l) l.
Proof.
  induction l as [|x xs IH]; cbn [ApolloService.sort]; [reflexivity|].
  rewrite insertSorted_perm. apply perm_skip, IH.
Qed.

Lemma insertSorted_sorted (x : ApolloService.ApolloContact) l :
  StronglySorted notBelow l ->
  StronglySorted notBelow (ApolloService.insertSorted ApolloService.byConfidenceDesc x l).
Proof.
  induction 1 as [|y ys Hs IH Hall]; cbn [ApolloService.insertSorted].
  { repeat constructor. }
  unfold ApolloService.byConfidenceDesc at 1.
  destruct (ApolloService.confidence y - ApolloService.confidence x <=? 0) eqn:Hc.
  - apply Z.leb_le in Hc. constructor; [constructor; assumption|].
    constructor; [unfold notBelow; lia|].
    eapply Forall_impl; [|exact Hall]. intros c Hyc. unfold notBelow in *. lia.
  - apply Z.leb_gt in Hc. constructor; [exact IH|].
    apply (Permutation_Forall (Permutation_sym (insertSorted_perm x ys))).
    constructor; [unfold notBelow; lia | exact Hall].
Qed.

Lemma sort_sorted (l : list ApolloService.ApolloContact) :
  StronglySorted notBelow (ApolloService.sort ApolloService.byConfidenceDesc l).
Proof.
  induction l as [|x xs IH]; cbn [ApolloService.sort]; [constructor|].
  apply insertSorted_sorted, IH.
Qed.

Lemma toCandidate_fields queries person :
  ApolloService.email (ApolloService.toCandidate queries person) = ""
  /\ In (ApolloService.confidence (ApolloService.toCandidate queries person))
        [50; 80; 100].
Proof.
  split; [reflexivity|]. cbn [ApolloService.toCandidate ApolloService.confidence].
  unfold ApolloService.calculateTitleMatch.
  destruct (titleMatchLoop_values
              (Js.toLowerCase (Js.optOr (person_title person) "")) queries)
    as ([H | [H | H]] & _); rewrite H; cbn; auto.
Qed.

End CandidateFacts.

Section SearchFacts.
Context {W : Type} (E : Env W).

Lemma searchPeopleByTitle_run this company role w people w1 :
  apollo_search E (ApolloService.apiKey this) company
    (ApolloService.titleQueries role) w = (Ok people, w1) ->
  ApolloService.searchPeopleByTitle E this company role w =
    mkRun (Ok (ApolloService.sort ApolloService.byConfidenceDesc
                 (map (ApolloService.toCandidate (ApolloService.titleQueries role))
                      people)))
          w1 [EvSearch company (ApolloService.titleQueries role)].
Proof.
  intros Hs.
  unfold ApolloService.searchPeopleByTitle, Monad.tryCatch, Monad.bind, Monad.call.
  rewrite Hs. cbn [out world events].
  destruct people; reflexivity.
Qed.

Lemma findExecutiveByTitle_run this company role w people w1 top others :
  apollo_search E (ApolloService.apiKey this) company
    (ApolloService.titleQueries role) w = (Ok people, w1) ->
  ApolloService.sort ApolloService.byConfidenceDesc
    (map (ApolloService.toCandidate (ApolloService.titleQueries role)) people)
  = top :: others ->
  let enrichment :=
    ApolloService.enrichPerson E this (ApolloService.firstName top)
      (ApolloService.lastName top) company w1 in
  out (ApolloService.findExecutiveByTitle E this company role w) = out enrichment
  /\ world (ApolloService.findExecutiveByTitle E this company role w) = world enrichment
  /\ events (ApolloService.findExecutiveByTitle E this company role w)
     = [EvSearch company (ApolloService.titleQueries role);
        EvEnrich (ApolloService.firstName top) (ApolloService.lastName top) company].
Proof.
  intros Hs Hsort enrichment.
  unfold ApolloService.findExecutiveByTitle, Monad.tryCatch, Monad.bind.
  rewrite (searchPeopleByTitle_run this company role w people w1 Hs).
  cbn [out world events]. rewrite Hsort. fold enrichment.
  destruct (enrichPerson_NoThrow E this (ApolloService.firstName top)
              (ApolloService.lastName top) company w1) as [c Hc].
  fold enrichment in Hc. rewrite Hc. cbn [out world events].
  split; [reflexivity|]. split; [reflexivity|].
  assert (He : events enrichment
               = [EvEnrich (ApolloService.firstName top) (ApolloService.lastName top)
                    company]).
  { unfold enrichment, ApolloService.enrichPerson, Monad.tryCatch, Monad.bind,
      Monad.call.
    destruct (apollo_match E _ _ _ _ w1) as [[[q|]|e] w2];
      cbn [out world events app]; try reflexivity.
    destruct (person_email q) as [m|]; [|reflexivity].
    destruct (Js.nonEmpty m); reflexivity. }
  rewrite He. reflexivity.
Qed.

End SearchFacts.

(** X9. When the directory answers a search with people,
    [searchPeopleByTitle] returns one candidate for each of them and no
    other, ordered so that no candidate comes after one of a lower score;
    every candidate has the empty email and a score of 50, 80 or 100. *)
Theorem search_result_is_sorted :
  forall (W : Type) (E : Env W) this company role w people w1,
    apollo_search E (ApolloService.apiKey this) company
      (ApolloService.titleQueries role) w = (Ok people, w1) ->
    exists candidates,
      out (ApolloService.searchPeopleByTitle E this company role w) = Ok candidates
      /\ Permutation candidates
           (map (ApolloService.toCandidate (ApolloService.titleQueries role)) people)
      /\ StronglySorted notBelow candidates
      /\ Forall (fun c => ApolloService.email c = ""
                          /\ In (ApolloService.confidence c) [50; 80; 100])
                candidates.
Proof.
  intros W E this company role w people w1 Hs.
  rewrite (searchPeopleByTitle_run E this company role w people w1 Hs).
  eexists. split; [reflexivity|].
  split; [apply sort_perm|]. split; [apply sort_sorted|].
  apply (Permutation_Forall (Permutation_sym (sort_perm _))).
  apply Forall_forall. intros c Hin. apply in_map_iff in Hin.
  destruct Hin as (p & <- & _). apply toCandidate_fields.
Qed.

Lemma search_result_is_sorted_witness :
  apollo_search (Demo.env Demo.twoFounders) (ApolloService.apiKey Demo.service)
    (JStr "Acme Inc") (ApolloService.titleQueries CEO) 0
  = (Ok [Demo.dana; Demo.eli], 150)
  /\ exists candidates,
       out (ApolloService.searchPeopleByTitle (Demo.env Demo.twoFounders)
              Demo.service (JStr "Acme Inc") CEO 0) = Ok candidates
       /\ Permutation candidates
            (map (ApolloService.toCandidate (ApolloService.titleQueries CEO))
                 [Demo.dana; Demo.eli])
       /\ StronglySorted notBelow candidates
       /\ Forall (fun c => ApolloService.email c = ""
                           /\ In (ApolloService.confidence c) [50; 80; 100])
                 candidates.
Proof.
  split; [reflexivity|].
  exact (search_result_is_sorted Z (Demo.env Demo.twoFounders) Demo.service
           (JStr "Acme Inc") CEO 0 [Demo.dana; Demo.eli] 150 eq_refl).
Defined.

(** X10. When the directory answers a search with people, the person sent to
    enrichment is the first, in the order of the directory, of those with the
    highest score: everyone before scores strictly less, no one after scores
    more. The lookup issues the search and that one enrichment, and returns
    what the enrichment returns. *)
Theorem first_best_candidate_is_enriched :
  forall (W : Type) (E : Env W) this company role w person others w1,
    apollo_search E (ApolloService.apiKey this) company
      (ApolloService.titleQueries role) w = (Ok (person :: others), w1) ->
    exists before top after,
      map (ApolloService.toCandidate (ApolloService.titleQueries role))
          (person :: others)
      = (before ++ top :: after)%list
      /\ (forall c, In c before ->
            ApolloService.confidence c < ApolloService.confidence top)
      /\ (forall c, In c after ->
            ApolloService.confidence c <= ApolloService.confidence top)
      /\ events (ApolloService.findExecutiveByTitle E this company role w)
         = [EvSearch company (ApolloService.titleQueries role);
            EvEnrich (ApolloService.firstName top) (ApolloService.lastName top)
              company]
      /\ out (ApolloService.findExecutiveByTitle E this company role w)
         = out (ApolloService.enrichPerson E this (ApolloService.firstName top)
                  (ApolloService.lastName top) company w1).
Proof.
  intros W E this company role w person others w1 Hs.
  destruct (sort_head_is_first_best
              (map (ApolloService.toCandidate (ApolloService.titleQueries role))
                   (person :: others)))
    as (before & top & after & rest & Hsplit & Hsort & Hb & Ha); [discriminate|].
  exists before, top, after.
  split; [exact Hsplit|]. split; [exact Hb|]. split; [exact Ha|].
  destruct (findExecutiveByTitle_run E this company role w (person :: others) w1
              top rest Hs Hsort) as (Ho & _ & He).
  split; [exact He | exact Ho].
Qed.

Lemma first_best_candidate_is_enriched_witness :
  apollo_search (Demo.env Demo.twoFounders) (ApolloService.apiKey Demo.service)
    (JStr "Acme Inc") (ApolloService.titleQueries CEO) 0
  = (Ok [Demo.dana; Demo.eli], 150)
  /\ exists before top after,
       map (ApolloService.toCandidate (ApolloService.titleQueries CEO))
           [Demo.dana; Demo.eli]
       = (before ++ top :: after)%list
       /\ (forall c, In c before ->
             ApolloService.confidence c < ApolloService.confidence top)
       /\ (forall c, In c after ->
             ApolloService.confidence c <= ApolloService.confidence top)
       /\ events (ApolloService.findExecutiveByTitle (Demo.env Demo.twoFounders)
                    Demo.service (JStr "Acme Inc") CEO 0)
          = [EvSearch (JStr "Acme Inc") (ApolloService.titleQueries CEO);
             EvEnrich (ApolloService.firstName top) (ApolloService.lastName top)
               (JStr "Acme Inc")]
       /\ out (ApolloService.findExecutiveByTitle (Demo.env Demo.twoFounders)
                 Demo.service (JStr "Acme Inc") CEO 0)
          = out (ApolloService.enrichPerson (Demo.env Demo.twoFounders) Demo.service
                   (ApolloService.firstName top) (ApolloService.lastName top)
                   (JStr "Acme Inc") 150).
Proof.
  split; [reflexivity|].
  exact (first_best_candidate_is_enriched Z (Demo.env Demo.twoFounders) Demo.service
           (JStr "Acme Inc") CEO 0 Demo.dana [Demo.eli] 150 eq_refl).
Defined.

Section ResultFacts.
Context {W : Type} (E : Env W).

(** The result of [findExecutiveContacts], from what the lookups return. *)
Lemma findExecutiveContacts_result this company w :
  let ceoRun := ApolloService.findExecutiveByTitle E this company CEO w in
  let cmoRun := ApolloService.findExecutiveByTitle E this company CMO (world ceoRun) in
  let start :=
    {| ApolloService.ceoEmail := None; ApolloService.cmoEmail := None;
       ApolloService.ceoName := None; ApolloService.cmoName := None;
       ApolloService.searchDetails :=
         {| ApolloService.companySearched := company;
            ApolloService.creditsUsed := 0;
            ApolloService.totalResultsFound := 0 |} |} in
  exists ceo cmo,
    out ceoRun = Ok ceo /\ out cmoRun = Ok cmo
    /\ out (ApolloService.findExecutiveContacts E this company w)
       = Ok (let afterCeo := match ceo with
                             | Some c => ApolloService.withCeo start c
                             | None => start
                             end in
             match cmo with
             | Some c => ApolloService.withCmo afterCeo c
             | None => afterCeo
             end).
Proof.
  intros ceoRun cmoRun start.
  destruct (findExecutiveByTitle_NoThrow E this company CEO w) as [ceo Hceo].
  destruct (findExecutiveByTitle_NoThrow E this company CMO (world ceoRun))
    as [cmo Hcmo].
  fold ceoRun in Hceo. fold cmoRun in Hcmo.
  exists ceo, cmo. split; [exact Hceo|]. split; [exact Hcmo|].
  unfold ApolloService.findExecutiveContacts, Monad.tryCatch, Monad.bind.
  fold ceoRun. rewrite Hceo. cbn [out world events].
  fold cmoRun. rewrite Hcmo. cbn [out world events]. reflexivity.
Qed.

(** Without a usable key the resolver returns at once. *)
Lemma resolveContacts_without_key x w :
  APOLLO_API_KEY E = None \/ APOLLO_API_KEY E = Some "" ->
  PRExtractor.resolveContacts E x w
  = mkRun (Ok (PRExtractor.mkContacts None None)) w [].
Proof.
  intros Hk. unfold PRExtractor.resolveContacts.
  destruct (_ && _); [|reflexivity].
  unfold PRExtractor.findExecutiveContactsWithApollo.
  destruct (_ || _); [reflexivity|].
  unfold Monad.tryCatch, Monad.bind, Monad.lift, ApolloService.new.
  destruct Hk as [-> | ->]; reflexivity.
Qed.

End ResultFacts.

(** X11. In a result of [findExecutiveContacts] the credits used and the
    number of results found are both the number of emails found, 0, 1 or 2,
    whatever the number of enrichments asked for; a name is given exactly for
    a role whose email is given, and the company is the one asked for. *)
Theorem credits_count_the_emails :
  forall (W : Type) (E : Env W) this company w result,
    out (ApolloService.findExecutiveContacts E this company w) = Ok result ->
    ApolloService.creditsUsed (ApolloService.searchDetails result) = emailsFound result
    /\ ApolloService.totalResultsFound (ApolloService.searchDetails result)
       = emailsFound result
    /\ 0 <= emailsFound result <= 2
    /\ ApolloService.companySearched (ApolloService.searchDetails result) = company
    /\ (ApolloService.ceoName result = None <-> ApolloService.ceoEmail result = None)
    /\ (ApolloService.cmoName result = None <-> ApolloService.cmoEmail result = None).
Proof.
  intros W E this company w result Hr.
  destruct (findExecutiveContacts_result E this company w) as (ceo & cmo & _ & _ & H).
  rewrite H in Hr. injection Hr as <-.
  destruct ceo as [c1|], cmo as [c2|]; cbn;
    repeat split; try reflexivity; try lia; try discriminate.
Qed.

Lemma credits_count_the_emails_witness :
  out (ApolloService.findExecutiveContacts (Demo.env Demo.goneButExtracted)
         Demo.service (JStr "Acme Inc") 0)
  = Ok {| ApolloService.ceoEmail := Some "a@acme.com";
          ApolloService.cmoEmail := None;
          ApolloService.ceoName := Some "Ann Lee";
          ApolloService.cmoName := None;
          ApolloService.searchDetails :=
            {| ApolloService.companySearched := JStr "Acme Inc";
               ApolloService.creditsUsed := 1;
               ApolloService.totalResultsFound := 1 |} |}
  /\ emailsFound {| ApolloService.ceoEmail := Some "a@acme.com";
                    ApolloService.cmoEmail := None;
                    ApolloService.ceoName := Some "Ann Lee";
                    ApolloService.cmoName := None;
                    ApolloService.searchDetails :=
                      {| ApolloService.companySearched := JStr "Acme Inc";
                         ApolloService.creditsUsed := 1;
                         ApolloService.totalResultsFound := 1 |} |} = 1.
Proof.
  assert (H : out (ApolloService.findExecutiveContacts
                     (Demo.env Demo.goneButExtracted) Demo.service (JStr "Acme Inc") 0)
              = Ok {| ApolloService.ceoEmail := Some "a@acme.com";
                      ApolloService.cmoEmail := None;
                      ApolloService.ceoName := Some "Ann Lee";
                      ApolloService.cmoName := None;
                      ApolloService.searchDetails :=
                        {| ApolloService.companySearched := JStr "Acme Inc";
                           ApolloService.creditsUsed := 1;
                           ApolloService.totalResultsFound := 1 |} |})
    by (vm_compute; reflexivity).
  split; [exact H|].
  pose proof (credits_count_the_emails Z (Demo.env Demo.goneButExtracted)
                Demo.service (JStr "Acme Inc") 0 _ H) as (Hc & _).
  symmetry. exact Hc.
Defined.

(** X12. When the key of the directory is missing or empty, an attempt
    issues no search and no enrichment, and a record it returns has "EMAIL
    NOT FOUND" for both roles: the failure of the constructor is not
    reported. *)
Theorem without_key_no_directory_call :
  forall (W : Type) (E : Env W) (url : string) (w : W),
    APOLLO_API_KEY E = None \/ APOLLO_API_KEY E = Some "" ->
    let attempt := PRExtractor.performExtraction E url w in
    countCalls isSearch (events attempt) = 0%nat
    /\ countCalls isEnrich (events attempt) = 0%nat
    /\ forall r, out attempt = Ok r ->
         ceoEmail r = "EMAIL NOT FOUND" /\ cmoEmail r = "EMAIL NOT FOUND"
         /\ extractionErrors r = [].
Proof.
  intros W E url w Hk attempt. subst attempt.
  assert (Hev : exists later,
             events (PRExtractor.performExtraction E url w)
             = EvAttempt url :: EvHttpGet url :: later
             /\ (later = [] \/ later = [EvGenerate])).
  { unfold PRExtractor.performExtraction.
    rewrite bind_events.
    change (Monad.call (EvAttempt url) (fun w0 : W => (Ok tt, w0)) w)
      with (mkRun (W:=W) (Ok tt) w [EvAttempt url]).
    cbn [out world events app].
    rewrite bind_events, acquire_events. cbn [app].
    destruct (PRExtractor.acquire E url w) as [[[content method]|e] w1 t1];
      cbn [out world]; [|eexists; split; [reflexivity | left; reflexivity]].
    destruct (negb (Js.nonEmpty content));
      [eexists; split; [reflexivity | left; reflexivity]|].
    rewrite bind_events, extractWithClaude_events. cbn [app].
    eexists. split; [reflexivity|]. right.
    destruct (PRExtractor.extractWithClaude E content url w1) as [[x|e] w2 t2];
      cbn [out world]; [|reflexivity].
    rewrite bind_events, (resolveContacts_without_key E x w2 Hk). reflexivity. }
  destruct Hev as (later & -> & Hl).
  split; [destruct Hl as [-> | ->]; reflexivity|].
  split; [destruct Hl as [-> | ->]; reflexivity|].
  intros r Hr. apply performExtraction_returns in Hr.
  destruct Hr as (content & w1 & x & contacts & _ & Hres & ->).
  rewrite (resolveContacts_without_key E x _ Hk) in Hres.
  injection Hres as <-. repeat split.
Qed.

Lemma without_key_no_directory_call_witness :
  (APOLLO_API_KEY (Demo.env Examples.noKey) = None
   \/ APOLLO_API_KEY (Demo.env Examples.noKey) = Some "")
  /\ countCalls isSearch
       (events (PRExtractor.performExtraction (Demo.env Examples.noKey)
                  Demo.acmeUrl 0)) = 0%nat
  /\ countCalls isEnrich
       (events (PRExtractor.performExtraction (Demo.env Examples.noKey)
                  Demo.acmeUrl 0)) = 0%nat.
Proof.
  assert (Hk : APOLLO_API_KEY (Demo.env Examples.noKey) = None
               \/ APOLLO_API_KEY (Demo.env Examples.noKey) = Some "")
    by (left; reflexivity).
  split; [exact Hk|].
  pose proof (without_key_no_directory_call Z (Demo.env Examples.noKey)
                Demo.acmeUrl 0 Hk) as H.
  cbv zeta in H. destruct H as (Hs & He & _). split; assumption.
Defined.

(** X13. The URL-based fallback issues no call and leaves the world as it
    is. It throws in two cases only: "URI malformed" for a Business Wire
    address whose last segment [decodeURIComponent] refuses, and "Invalid
    URL" for an address of neither wire that the [URL] constructor refuses;
    for a PR Newswire address it always returns. *)
Theorem url_fallback_failures :
  forall (W : Type) (E : Env W) (url : string) (w : W),
    let run := PRExtractor.tryUrlBasedExtraction E url w in
    events run = [] /\ world run = w
    /\ (forall e,
          out run = Throw e <->
          (Js.includes url "businesswire.com" = true
           /\ decodeURIComponent E (PRExtractor.lastOrEmpty (Js.split "/" url)) = None
           /\ e = Error "URI malformed")
          \/ (Js.includes url "businesswire.com" = false
              /\ Js.includes url "prnewswire.com" = false
              /\ URL_pathname E url = None
              /\ e = Error "Invalid URL")).
Proof.
  intros W E url w run. subst run.
  destruct (tryUrlBasedExtraction_silent E url w) as [Hev Hw].
  split; [exact Hev|]. split; [exact Hw|].
  intros e. unfold PRExtractor.tryUrlBasedExtraction.
  destruct (Js.includes url "businesswire.com").
  - unfold Monad.lift, PRExtractor.extractFromBusinessWireUrl. cbn [out].
    destruct (decodeURIComponent E _); split.
    + discriminate.
    + intros [(_ & H & _) | (H & _)]; discriminate.
    + intros H. injection H as <-. left. auto.
    + intros [(_ & _ & ->) | (H & _)]; [reflexivity | discriminate].
  - destruct (Js.includes url "prnewswire.com").
    + cbn. split; [discriminate|].
      intros [(H & _) | (_ & H & _)]; discriminate.
    + unfold Monad.lift, PRExtractor.extractFromGenericUrl. cbn [out].
      destruct (URL_pathname E url); split.
      * discriminate.
      * intros [(H & _) | (_ & _ & H & _)]; discriminate.
      * intros H. injection H as <-. right. auto.
      * intros [(H & _) | (_ & _ & _ & ->)]; [discriminate | reflexivity].
Qed.

(* ================================================================== *)
(** ** The search of the company's own site *)

Section DomainFacts.

Import CompanyWebsite.









Lemma generatePossibleDomains_first name :
  firstn 3 (generatePossibleDomains name) = withSuffixes (cleanName name).
Proof.
  unfold generatePossibleDomains. destruct (_ && _); reflexivity.
Qed.

End DomainFacts.



Section WebsiteFacts.
Context {W : Type} (E : Env W) (websiteBodyText : string -> string).

Import CompanyWebsite.

Lemma substring_length_le n s : (String.length (String.substring 0 n s) <= n)%nat.
Proof.
  revert s. induction n as [|n IH]; intros s.
  - destruct s; cbn; lia.
  - destruct s as [|c s]; cbn [String.substring String.length]; [lia|].
    specialize (IH s). lia.
Qed.

(** One visit: one GET, and a text only from a relevant page answered
    with 200. *)
Lemma visit_run url w :
  let run := visit E websiteBodyText url w in
  events run = [EvHttpGet url]
  /\ ((out run = Ok None)
      \/ exists data w1,
           http_get E url w = (Response 200 data, w1)
           /\ looksRelevant (websiteBodyText data) = true
           /\ out run = Ok (Some (String.substring 0 (Z.to_nat 5000) (websiteBodyText data)))).
Proof.
  cbv zeta.
  unfold visit, Monad.tryCatch, Monad.bind, axios_get_default, Monad.call, Monad.ret.
  destruct (http_get E url w) as [[status data|code message] w1];
    cbn [out world events app].
  2:{ split; [reflexivity | left; reflexivity]. }
  destruct ((200 <=? status) && (status <? 300)); cbn [out world events app].
  2:{ split; [reflexivity | left; reflexivity]. }
  destruct (status =? 200) eqn:Hs; cbn [out world events app].
  2:{ split; [reflexivity | left; reflexivity]. }
  apply Z.eqb_eq in Hs. subst status.
  destruct (looksRelevant (websiteBodyText data)) eqn:Hr; cbn [out world events app].
  - split; [reflexivity|]. right. exists data, w1. auto.
  - split; [reflexivity | left; reflexivity].
Qed.

Lemma visitAll_run urls w :
  let run := visitAll E websiteBodyText urls w in
  exists visited rest,
    urls = (visited ++ rest)%list
    /\ events run = map EvHttpGet visited
    /\ ((out run = Ok None /\ rest = [])
        \/ exists content,
             out run = Ok (Some content) /\ FoundOn E websiteBodyText visited content).
Proof.
  cbv zeta. revert w. induction urls as [|url urls IH]; intros w.
  { exists [], []. cbn. auto. }
  cbn [visitAll]. unfold Monad.bind.
  destruct (visit_run url w) as (Hev & Hout). cbv zeta in Hev, Hout.
  destruct Hout as [Hnone | (data & w1 & Hg & Hr & Hsome)].
  - rewrite Hnone, Hev.
    destruct (IH (world (visit E websiteBodyText url w)))
      as (visited & rest & -> & Hev' & Hcase).
    exists (url :: visited), rest. split; [reflexivity|].
    cbn [events map app]. rewrite Hev'. split; [reflexivity|].
    destruct Hcase as [[Ho ->] | (content & Ho & before & u & d & w0 & w2 & -> & Hf)].
    + left. cbn [out]. auto.
    + right. exists content. cbn [out]. split; [exact Ho|].
      exists (url :: before), u, d, w0, w2. split; [reflexivity | exact Hf].
  - rewrite Hsome, Hev. cbn [out world events Monad.ret app].
    exists [url], urls. split; [reflexivity|]. split; [reflexivity|].
    right. eexists. split; [reflexivity|].
    exists [], url, data, w, w1. auto.
Qed.

Lemma searchDomains_run domains w :
  let run := searchDomains E websiteBodyText domains w in
  exists visited rest,
    flat_map urlsOf domains = (visited ++ rest)%list
    /\ events run = map EvHttpGet visited
    /\ ((out run = Ok None /\ rest = [])
        \/ exists content,
             out run = Ok (Some content) /\ FoundOn E websiteBodyText visited content).
Proof.
  cbv zeta. revert w. induction domains as [|domain domains IH]; intros w.
  { exists [], []. cbn. auto. }
  cbn [searchDomains flat_map]. unfold Monad.bind.
  destruct (visitAll_run (urlsOf domain) w) as (v1 & r1 & Hsplit & Hev & Hcase).
  cbv zeta in Hev, Hcase.
  destruct Hcase as [[Hnone ->] | (content & Hsome & Hf)].
  - rewrite Hnone, Hev. rewrite app_nil_r in Hsplit. subst v1.
    destruct (IH (world (visitAll E websiteBodyText (urlsOf domain) w)))
      as (visited & rest & Hs2 & Hev' & Hcase).
    exists (urlsOf domain ++ visited)%list, rest.
    split; [rewrite Hs2, app_assoc; reflexivity|].
    cbn [events]. rewrite Hev', map_app. split; [reflexivity|].
    destruct Hcase as [[Ho ->] | (content & Ho & before & u & d & w0 & w2 & -> & Hf)].
    + left. cbn [out]. auto.
    + right. exists content. cbn [out]. split; [exact Ho|].
      exists (urlsOf domain ++ before)%list, u, d, w0, w2.
      split; [rewrite app_assoc; reflexivity | exact Hf].
  - rewrite Hsome, Hev. cbn [out world events Monad.ret app].
    exists v1, (r1 ++ flat_map urlsOf domains)%list.
    split; [rewrite Hsplit, app_assoc; reflexivity|].
    rewrite app_nil_r. split; [reflexivity|].
    right. exists content. auto.
Qed.

End WebsiteFacts.

(** X15. [searchCompanyWebsite] never throws. It asks for addresses of a
    fixed list of 21, seven for each of the three domains of the cleaned
    name, in order and each once at most; the domains of the name without
    the common words are never asked for. It returns [null] only after the
    whole list, and otherwise the first 5000 characters at most of the text
    of the page it stopped on, which was answered with status 200 and has
    one of the five words. *)
Theorem website_search_bounds :
  forall (W : Type) (E : Env W) (websiteBodyText : string -> string)
         (companyName : string) (w : W),
    let run := CompanyWebsite.searchCompanyWebsite E websiteBodyText companyName w in
    length (CompanyWebsite.candidateUrls companyName) = 21%nat
    /\ exists visited rest,
         CompanyWebsite.candidateUrls companyName = (visited ++ rest)%list
         /\ events run = map EvHttpGet visited
         /\ ((out run = Ok None /\ rest = [])
             \/ exists content,
                  out run = Ok (Some content)
                  /\ PRExtractor.len content <= 5000
                  /\ FoundOn E websiteBodyText visited content).
Proof.
  intros W E websiteBodyText companyName w run. subst run.
  split; [reflexivity|].
  unfold CompanyWebsite.searchCompanyWebsite, CompanyWebsite.candidateUrls.
  rewrite generatePossibleDomains_first.
  destruct (searchDomains_run E websiteBodyText
              (CompanyWebsite.withSuffixes (CompanyWebsite.cleanName companyName)) w)
    as (visited & rest & Hs & Hev & Hcase).
  exists visited, rest. split; [exact Hs|]. split; [exact Hev|].
  destruct Hcase as [H | (content & Ho & Hf)]; [left; exact H|].
  right. exists content. split; [exact Ho|]. split; [|exact Hf].
  destruct Hf as (before & u & d & w0 & w1 & _ & _ & _ & ->).
  unfold PRExtractor.len.
  pose proof (substring_length_le (Z.to_nat 5000) (websiteBodyText d)) as Hl.
  apply Nat2Z.inj_le in Hl. rewrite Z2Nat.id in Hl by lia. exact Hl.
Qed.

Section ExecutivesFacts.
Context {W : Type} (E : Env W).

Import CompanyWebsite.

Lemma truthyOrAbsent_truthy v x : truthyOrAbsent v = Some x -> JsValue.truthy x = true.
Proof.
  unfold truthyOrAbsent. destruct (JsValue.truthy v) eqn:H; [|discriminate].
  intros Hx. injection Hx as <-. exact H.
Qed.

Lemma extractExecutivesWithClaude_events content name w :
  events (extractExecutivesWithClaude E content name w) = [EvGenerate].
Proof.
  unfold extractExecutivesWithClaude, Monad.tryCatch, Monad.bind, Monad.call,
    Monad.lift, Monad.ret.
  generalize (buildExecutivesPrompt content name). intros prompt.
  destruct (messages_create E prompt w)
    as [[response|e] w1]; cbn [out world events]; [|reflexivity].
  destruct (PRExtractor.responseTextOf response) as [text|e]; cbn [out world events];
    [|reflexivity].
  destruct (PRExtractor.parseJson E text) as [v|e]; cbn [out world events];
    [|reflexivity].
  destruct (JsValue.getProp v "ceoEmail"); cbn [out world events]; [|reflexivity].
  destruct (JsValue.getProp v "cmoEmail"); reflexivity.
Qed.

Lemma extractExecutivesWithClaude_returns content name w :
  exists emails,
    out (extractExecutivesWithClaude E content name w) = Ok emails
    /\ (forall v, e_ceoEmail emails = Some v -> JsValue.truthy v = true)
    /\ (forall v, e_cmoEmail emails = Some v -> JsValue.truthy v = true).
Proof.
  unfold extractExecutivesWithClaude, Monad.tryCatch, Monad.bind, Monad.call,
    Monad.lift, Monad.ret.
  assert (Hnone : exists emails,
             Ok (mkEmails None None) = Ok emails
             /\ (forall v, e_ceoEmail emails = Some v -> JsValue.truthy v = true)
             /\ (forall v, e_cmoEmail emails = Some v -> JsValue.truthy v = true)).
  { eexists. split; [reflexivity|]. split; intros v H; discriminate. }
  generalize (buildExecutivesPrompt content name). intros prompt.
  destruct (messages_create E prompt w)
    as [[response|e] w1]; cbn [out world events]; [|exact Hnone].
  destruct (PRExtractor.responseTextOf response) as [text|e]; cbn [out world events];
    [|exact Hnone].
  destruct (PRExtractor.parseJson E text) as [v|e]; cbn [out world events];
    [|exact Hnone].
  destruct (JsValue.getProp v "ceoEmail") as [ceo|e]; cbn [out world events];
    [|exact Hnone].
  destruct (JsValue.getProp v "cmoEmail") as [cmo|e]; cbn [out world events];
    [|exact Hnone].
  eexists. split; [reflexivity|]. cbn [e_ceoEmail e_cmoEmail].
  split; intros x Hx; eapply truthyOrAbsent_truthy, Hx.
Qed.

Lemma extractExecutivesWithClaude_failure content name w answer w1 :
  messages_create E (buildExecutivesPrompt content name) w = (answer, w1) ->
  match answer with
  | Throw _ => True
  | Ok [] => True
  | Ok (OtherBlock :: _) => exists message, JSON_parse E "" = inr message
  | Ok (TextBlock text :: _) => exists message, JSON_parse E text = inr message
  end ->
  extractExecutivesWithClaude E content name w
  = mkRun (Ok (mkEmails None None)) w1 [EvGenerate].
Proof.
  unfold extractExecutivesWithClaude, Monad.tryCatch, Monad.bind, Monad.call,
    Monad.lift, Monad.ret, PRExtractor.parseJson.
  generalize (buildExecutivesPrompt content name). intros prompt Hc Hbad.
  rewrite Hc. destruct answer as [[|[text|] others]|e]; cbn [out world events];
    try reflexivity.
  - destruct Hbad as (m & Hm). cbn [PRExtractor.responseTextOf out world events].
    rewrite Hm. reflexivity.
  - destruct Hbad as (m & Hm). cbn [PRExtractor.responseTextOf out world events].
    rewrite Hm. reflexivity.
Qed.

End ExecutivesFacts.

(** X16. [extractExecutivesWithClaude] never throws and makes exactly one
    generation call. An email it returns is a truthy value of the answer,
    never the empty string or [null]. When the call is rejected, when the
    answer has no block, or when its text does not parse, both emails are
    absent. *)
Theorem executives_extraction_never_throws :
  forall (W : Type) (E : Env W) (websiteContent companyName : string) (w : W),
    let run :=
      CompanyWebsite.extractExecutivesWithClaude E websiteContent companyName w in
    events run = [EvGenerate]
    /\ (exists emails,
          out run = Ok emails
          /\ (forall v, CompanyWebsite.e_ceoEmail emails = Some v ->
                JsValue.truthy v = true)
          /\ (forall v, CompanyWebsite.e_cmoEmail emails = Some v ->
                JsValue.truthy v = true))
    /\ (forall answer w1,
          messages_create E
            (CompanyWebsite.buildExecutivesPrompt websiteContent companyName) w
          = (answer, w1) ->
          match answer with
          | Throw _ => True
          | Ok [] => True
          | Ok (OtherBlock :: _) => exists message, JSON_parse E "" = inr message
          | Ok (TextBlock text :: _) => exists message, JSON_parse E text = inr message
          end ->
          run = mkRun (Ok (CompanyWebsite.mkEmails None None)) w1 [EvGenerate]).
Proof.
  intros W E websiteContent companyName w run. subst run.
  split; [apply extractExecutivesWithClaude_events|].
  split; [apply extractExecutivesWithClaude_returns|].
  apply extractExecutivesWithClaude_failure.
Qed.

Lemma executives_extraction_never_throws_witness :
  messages_create (Demo.env Demo.goneAndProse)
    (CompanyWebsite.buildExecutivesPrompt "Our team" "Acme Inc") 0
  = (Ok [TextBlock Demo.proseText], 2000)
  /\ (exists message,
        JSON_parse (Demo.env Demo.goneAndProse) Demo.proseText = inr message)
  /\ CompanyWebsite.extractExecutivesWithClaude (Demo.env Demo.goneAndProse)
       "Our team" "Acme Inc" 0
     = mkRun (Ok (CompanyWebsite.mkEmails None None)) 2000 [EvGenerate].
Proof.
  assert (Hp : exists message,
             JSON_parse (Demo.env Demo.goneAndProse) Demo.proseText = inr message)
    by (eexists; reflexivity).
  split; [reflexivity|]. split; [exact Hp|].
  exact (proj2 (proj2 (executives_extraction_never_throws Z
                         (Demo.env Demo.goneAndProse) "Our team" "Acme Inc" 0))
           (Ok [TextBlock Demo.proseText]) 2000 eq_refl Hp).
Defined.

(* ================================================================== *)
(** ** The spreadsheet and the background task *)

Section SheetsFacts.
Context {W : Type} (G : SheetsEnv W).

Lemma flagSuspiciousRow_calls w :
  let run := GoogleSheetsService.flagSuspiciousRow G w in
  match fst (values_get G "Sheet1!A:A" w) with
  | Ok valuesLength =>
      t_calls run
      = [SheetsGet "Sheet1!A:A";
         SheetsBatchUpdate
           (GoogleSheetsService.highlight (GoogleSheetsService.rowCountOf valuesLength))]
      /\ t_out run
         = fst (batchUpdate G
                  (GoogleSheetsService.highlight
                     (GoogleSheetsService.rowCountOf valuesLength))
                  (snd (values_get G "Sheet1!A:A" w)))
  | Throw e => t_calls run = [SheetsGet "Sheet1!A:A"] /\ t_out run = Throw e
  end.
Proof.
  cbv zeta.
  unfold GoogleSheetsService.flagSuspiciousRow, TaskMonad.bind, TaskMonad.call.
  destruct (values_get G "Sheet1!A:A" w) as [[n|e] w1]; cbn [fst snd t_out t_world t_calls].
  - destruct (batchUpdate G _ w1) as [o w2]. cbn. split; reflexivity.
  - split; reflexivity.
Qed.

Lemma flagSuspiciousRow_afterAppend w :
  Forall afterAppend (t_calls (GoogleSheetsService.flagSuspiciousRow G w)).
Proof.
  pose proof (flagSuspiciousRow_calls w) as H. cbv zeta in H.
  destruct (fst (values_get G "Sheet1!A:A" w)); destruct H as [-> _];
    repeat constructor.
Qed.

Lemma rowCountOf_positive n : 1 <= GoogleSheetsService.rowCountOf n.
Proof. destruct n as [[|n]|]; cbn [GoogleSheetsService.rowCountOf]; lia. Qed.

(** The calls of [appendData]: the append, and the flagging when it is due
    and the append was accepted. *)
Lemma appendData_run data w :
  let row := GoogleSheetsService.rowOf (textOf G) data (now G w) in
  let answer := values_append G "Sheet1!A:I" [row] w in
  let run := GoogleSheetsService.appendData G data w in
  exists tail,
    t_calls run = SheetsAppend "Sheet1!A:I" [row] :: tail
    /\ Forall afterAppend tail
    /\ (isScam data = false -> tail = [] /\ t_out run = fst answer)
    /\ (forall e, fst answer = Throw e -> tail = [] /\ t_out run = Throw e)
    /\ (isScam data = true -> fst answer = Ok tt ->
        tail = t_calls (GoogleSheetsService.flagSuspiciousRow G (snd answer))
        /\ t_out run = t_out (GoogleSheetsService.flagSuspiciousRow G (snd answer))).
Proof.
  cbv zeta.
  unfold GoogleSheetsService.appendData, TaskMonad.bind, TaskMonad.call.
  destruct (values_append G "Sheet1!A:I" _ w) as [[[]|e] w1];
    cbn [fst snd t_out t_world t_calls app].
  - destruct (isScam data).
    + eexists. split; [reflexivity|].
      split; [apply flagSuspiciousRow_afterAppend|].
      split; [discriminate|]. split; [discriminate|]. auto.
    + exists []. cbn. split; [reflexivity|]. split; [constructor|].
      split; [auto|]. split; [discriminate | discriminate].
  - exists []. split; [reflexivity|]. split; [constructor|].
    split; [auto|]. split; [intros e' H; injection H as <-; auto | discriminate].
Qed.

End SheetsFacts.

(** X17. [appendData] first appends one row of nine cells, as many as there
    are headers, in the order of the headers; the cell of the flags is
    "FLAGGED AS SUSPICIOUS" for a record flagged as a scam and empty
    otherwise. The row is flagged on the sheet only for such a record and
    only once the append is accepted; an error of the append is thrown to the
    caller. *)
Theorem appended_row_shape :
  forall (W : Type) (G : SheetsEnv W) (data : PRData) (w : W),
    let row := GoogleSheetsService.rowOf (textOf G) data (now G w) in
    let answer := values_append G "Sheet1!A:I" [row] w in
    let run := GoogleSheetsService.appendData G data w in
    length row = length GoogleSheetsService.headers
    /\ nth 7 row JNull
       = JStr (if isScam data then "FLAGGED AS SUSPICIOUS" else "")
    /\ nth 7 GoogleSheetsService.headers "" = "Flags"
    /\ exists tail,
         t_calls run = SheetsAppend "Sheet1!A:I" [row] :: tail
         /\ Forall afterAppend tail
         /\ (isScam data = false -> tail = [] /\ t_out run = fst answer)
         /\ (forall e, fst answer = Throw e -> tail = [] /\ t_out run = Throw e)
         /\ (isScam data = true -> fst answer = Ok tt ->
             tail = t_calls (GoogleSheetsService.flagSuspiciousRow G (snd answer))
             /\ t_out run
                = t_out (GoogleSheetsService.flagSuspiciousRow G (snd answer))).
Proof.
  intros W G data w row answer run.
  split; [reflexivity|]. split; [reflexivity|]. split; [reflexivity|].
  exact (appendData_run G data w).
Qed.

Lemma appended_row_shape_witness :
  isScam Demo.acmeRecord = false
  /\ t_calls (GoogleSheetsService.appendData Examples2.sheet Demo.acmeRecord 0)
     = [SheetsAppend "Sheet1!A:I"
          [GoogleSheetsService.rowOf (textOf Examples2.sheet) Demo.acmeRecord
             (now Examples2.sheet 0)]].
Proof.
  split; [reflexivity|].
  pose proof (appended_row_shape Z Examples2.sheet Demo.acmeRecord 0) as H.
  cbv zeta in H. destruct H as (_ & _ & _ & tail & Hc & _ & Hn & _).
  destruct (Hn eq_refl) as [Ht _]. rewrite Ht in Hc. exact Hc.
Defined.

(** X18. [flagSuspiciousRow] reads column A and then colours one row, the
    last one of the column: the range it sends has one row and the nine
    columns of the headers, and its first row is never negative. When the
    sheet gives no value, or none at all, the row is the first of the sheet.
    When the read fails nothing is coloured and the error is thrown. *)
Theorem flagged_range_is_one_row :
  forall (W : Type) (G : SheetsEnv W) (w : W),
    let run := GoogleSheetsService.flagSuspiciousRow G w in
    (forall request,
        In (SheetsBatchUpdate request) (t_calls run) ->
        0 <= startRowIndex request
        /\ endRowIndex request = startRowIndex request + 1
        /\ startColumnIndex request = 0
        /\ endColumnIndex request = Z.of_nat (length GoogleSheetsService.headers)
        /\ exists valuesLength,
             fst (values_get G "Sheet1!A:A" w) = Ok valuesLength
             /\ endRowIndex request = match valuesLength with
                                      | Some (S n) => Z.of_nat (S n)
                                      | _ => 1
                                      end)
    /\ (forall e,
          fst (values_get G "Sheet1!A:A" w) = Throw e ->
          t_calls run = [SheetsGet "Sheet1!A:A"] /\ t_out run = Throw e)
    /\ (forall valuesLength,
          fst (values_get G "Sheet1!A:A" w) = Ok valuesLength ->
          exists request,
            t_calls run = [SheetsGet "Sheet1!A:A"; SheetsBatchUpdate request]).
Proof.
  intros W G w run. subst run.
  pose proof (flagSuspiciousRow_calls G w) as H. cbv zeta in H.
  destruct (fst (values_get G "Sheet1!A:A" w)) as [n|e0].
  - destruct H as [Hc _]. rewrite Hc. split; [|split].
    + intros request [Hin | [Hin | []]]; [discriminate|].
      injection Hin as <-.
      pose proof (rowCountOf_positive n).
      cbn [GoogleSheetsService.highlight startRowIndex endRowIndex
             startColumnIndex endColumnIndex].
      split; [lia|]. split; [lia|]. split; [reflexivity|]. split; [reflexivity|].
      exists n. split; [reflexivity|]. destruct n as [[|n]|]; reflexivity.
    + discriminate.
    + intros ? _. eexists. reflexivity.
  - destruct H as [Hc Ho]. rewrite Hc. split; [|split].
    + intros request [Hin | []]. discriminate.
    + intros e He. injection He as <-. split; [reflexivity | exact Ho].
    + discriminate.
Qed.

Lemma flagged_range_is_one_row_witness :
  fst (values_get Examples2.sheet "Sheet1!A:A" 0) = Ok (Some 3%nat)
  /\ exists request,
       t_calls (GoogleSheetsService.flagSuspiciousRow Examples2.sheet 0)
       = [SheetsGet "Sheet1!A:A"; SheetsBatchUpdate request].
Proof.
  split; [reflexivity|].
  exact (proj2 (proj2 (flagged_range_is_one_row Z Examples2.sheet 0))
           (Some 3%nat) eq_refl).
Defined.

Section TaskFacts.
Context {W : Type} (E : Env W) (G : SheetsEnv W).

Lemma initializeSheet_run w :
  exists w1,
    GoogleSheetsService.initializeSheet G w
    = mkTaskRun (Ok tt) w1
        [SheetsUpdate "Sheet1!A1:I1" [GoogleSheetsService.headers]].
Proof.
  unfold GoogleSheetsService.initializeSheet, TaskMonad.tryCatch, TaskMonad.call,
    TaskMonad.ret.
  destruct (values_update G "Sheet1!A1:I1" [GoogleSheetsService.headers] w)
    as [[[]|e] w1]; cbn [t_out t_world t_calls app]; eexists; reflexivity.
Qed.

Lemma task_bind_run {A B} (m : Task W A) (k : A -> Task W B) w a w1 t1 :
  m w = mkTaskRun (Ok a) w1 t1 ->
  TaskMonad.bind m k w
  = mkTaskRun (t_out (k a w1)) (t_world (k a w1)) (t1 ++ t_calls (k a w1)).
Proof. intros H. unfold TaskMonad.bind. rewrite H. reflexivity. Qed.

Lemma task_swallow (m : Task W unit) w :
  t_out (TaskMonad.tryCatch m (fun _ => TaskMonad.ret tt) w) = Ok tt
  /\ t_calls (TaskMonad.tryCatch m (fun _ => TaskMonad.ret tt) w) = t_calls (m w).
Proof.
  unfold TaskMonad.tryCatch, TaskMonad.ret.
  destruct (m w) as [[[]|e] w1 t1]; cbn [t_out t_world t_calls];
    rewrite ?app_nil_r; split; reflexivity.
Qed.

Lemma processInBackground_steps url w w1 (extraction : Run W (option PRData)) data tail :
  newServices G = Ok tt ->
  GoogleSheetsService.initializeSheet G w
  = mkTaskRun (Ok tt) w1
      [SheetsUpdate "Sheet1!A1:I1" [GoogleSheetsService.headers]] ->
  PRExtractor.extractPRData E url w1 = extraction ->
  out extraction = Ok (Some data) ->
  t_calls (GoogleSheetsService.appendData G data (world extraction))
  = SheetsAppend "Sheet1!A:I"
      [GoogleSheetsService.rowOf (textOf G) data (now G (world extraction))]
    :: tail ->
  t_out (ProcessPR.processInBackground E G url w) = Ok tt
  /\ t_calls (ProcessPR.processInBackground E G url w)
     = (SheetsUpdate "Sheet1!A1:I1" [GoogleSheetsService.headers]
        :: map Pipeline (events extraction)
        ++ SheetsAppend "Sheet1!A:I"
             [GoogleSheetsService.rowOf (textOf G) data (now G (world extraction))]
        :: tail)%list.
Proof.
  intros Hnew Hinit Hex Hdata Hcalls.
  unfold ProcessPR.processInBackground.
  match goal with
  | |- context [TaskMonad.tryCatch ?m _ w] =>
      destruct (task_swallow m w) as [Ho Hc]; split; [exact Ho|]; rewrite Hc
  end.
  clear Hc Ho.
  assert (Hl : TaskMonad.lift (W:=W) (newServices G) w = mkTaskRun (Ok tt) w [])
    by (unfold TaskMonad.lift; rewrite Hnew; reflexivity).
  rewrite (task_bind_run _ _ w tt w [] Hl). cbn [t_calls app].
  rewrite (task_bind_run _ _ w tt w1 _ Hinit). cbn [t_calls app].
  assert (Hp : TaskMonad.ofPipeline (PRExtractor.extractPRData E url) w1
               = mkTaskRun (Ok (Some data)) (world extraction)
                   (map Pipeline (events extraction))).
  { unfold TaskMonad.ofPipeline. rewrite Hex, Hdata. reflexivity. }
  rewrite (task_bind_run _ _ w1 (Some data) (world extraction) _ Hp).
  cbn [t_calls]. rewrite Hcalls. reflexivity.
Qed.

Lemma processInBackground_run url w :
  newServices G = Ok tt ->
  let afterHeaders := t_world (GoogleSheetsService.initializeSheet G w) in
  let extraction := PRExtractor.extractPRData E url afterHeaders in
  exists data tail,
    out extraction = Ok (Some data)
    /\ t_out (ProcessPR.processInBackground E G url w) = Ok tt
    /\ t_calls (ProcessPR.processInBackground E G url w)
       = (SheetsUpdate "Sheet1!A1:I1" [GoogleSheetsService.headers]
          :: map Pipeline (events extraction)
          ++ SheetsAppend "Sheet1!A:I"
               [GoogleSheetsService.rowOf (textOf G) data (now G (world extraction))]
          :: tail)%list
    /\ Forall afterAppend tail.
Proof.
  intros Hnew. cbv zeta.
  destruct (initializeSheet_run w) as (w1 & Hinit).
  rewrite Hinit. cbn [t_world].
  destruct (extractPRData_returns E url w1) as (data & Hdata & _).
  destruct (appendData_run G data (world (PRExtractor.extractPRData E url w1)))
    as (tail & Hcalls & Htail & _).
  exists data, tail. split; [exact Hdata|].
  destruct (processInBackground_steps url w w1 _ data tail Hnew Hinit eq_refl
              Hdata Hcalls) as [Ho Hc].
  split; [exact Ho|]. split; [exact Hc | exact Htail].
Qed.

Lemma processInBackground_not_built url w e :
  newServices G = Throw e ->
  ProcessPR.processInBackground E G url w = mkTaskRun (Ok tt) w [].
Proof.
  intros Hnew.
  unfold ProcessPR.processInBackground, TaskMonad.tryCatch, TaskMonad.bind,
    TaskMonad.lift, TaskMonad.ret.
  rewrite Hnew. reflexivity.
Qed.

End TaskFacts.

(** X19. [processInBackground] never throws. When one of the two services
    cannot be built nothing is done. Otherwise the task writes the headers,
    runs the extraction in the world this has left, whether or not the
    headers were accepted, and then appends exactly one row: the one of the
    record the extraction has returned, the failure record included, with the
    time read when the extraction is over. Nothing but the flagging of that
    row follows. *)
Theorem background_task_appends_the_record :
  forall (W : Type) (E : Env W) (G : SheetsEnv W) (url : string) (w : W),
    let run := ProcessPR.processInBackground E G url w in
    t_out run = Ok tt
    /\ (forall e, newServices G = Throw e -> t_calls run = [] /\ t_world run = w)
    /\ (newServices G = Ok tt ->
        let afterHeaders := t_world (GoogleSheetsService.initializeSheet G w) in
        let extraction := PRExtractor.extractPRData E url afterHeaders in
        exists data tail,
          out extraction = Ok (Some data)
          /\ t_calls run
             = (SheetsUpdate "Sheet1!A1:I1" [GoogleSheetsService.headers]
                :: map Pipeline (events extraction)
                ++ SheetsAppend "Sheet1!A:I"
                     [GoogleSheetsService.rowOf (textOf G) data
                        (now G (world extraction))]
                :: tail)%list
          /\ Forall afterAppend tail).
Proof.
  intros W E G url w run. subst run.
  split.
  { destruct (newServices G) as [[]|e] eqn:Hnew.
    - destruct (processInBackground_run E G url w Hnew)
        as (data & tail & _ & Ho & _). exact Ho.
    - rewrite (processInBackground_not_built E G url w e Hnew). reflexivity. }
  split.
  { intros e Hnew. rewrite (processInBackground_not_built E G url w e Hnew).
    split; reflexivity. }
  intros Hnew afterHeaders extraction.
  destruct (processInBackground_run E G url w Hnew)
    as (data & tail & Hd & _ & Hc & Ht).
  exists data, tail. split; [exact Hd|]. split; [exact Hc | exact Ht].
Qed.

Lemma background_task_appends_the_record_witness :
  newServices Examples2.sheet = Ok tt
  /\ exists data tail,
       out (PRExtractor.extractPRData (Demo.env Demo.goneAndProse) Demo.acmeUrl
              (t_world (GoogleSheetsService.initializeSheet Examples2.sheet 0)))
       = Ok (Some data)
       /\ t_calls (ProcessPR.processInBackground (Demo.env Demo.goneAndProse)
                     Examples2.sheet Demo.acmeUrl 0)
          = (SheetsUpdate "Sheet1!A1:I1" [GoogleSheetsService.headers]
             :: map Pipeline
                  (events (PRExtractor.extractPRData (Demo.env Demo.goneAndProse)
                             Demo.acmeUrl
                             (t_world (GoogleSheetsService.initializeSheet
                                         Examples2.sheet 0))))
             ++ SheetsAppend "Sheet1!A:I"
                  [GoogleSheetsService.rowOf (textOf Examples2.sheet) data
                     (now Examples2.sheet
                        (world (PRExtractor.extractPRData
                                  (Demo.env Demo.goneAndProse) Demo.acmeUrl
                                  (t_world (GoogleSheetsService.initializeSheet
                                              Examples2.sheet 0)))))]
             :: tail)%list
       /\ Forall afterAppend tail.
Proof.
  split; [reflexivity|].
  exact (proj2 (proj2 (background_task_appends_the_record Z
                         (Demo.env Demo.goneAndProse) Examples2.sheet
                         Demo.acmeUrl 0))
           eq_refl).
Defined.

Section HandlerFacts.
Context {W : Type} (E : Env W).


End HandlerFacts.


